(** * User management service: the authentication and session-token subsystem

    A shallow embedding of [services/userService.js], [models/userModel.js],
    [middlewares/authMiddleware.js], [middlewares/validationMiddleware.js],
    [controllers/userController.js] and [utils/errorHandler.js].

    Conventions.
    - A JavaScript string is a [string]: the byte string of its UTF-8
      encoding.  Equality of JavaScript strings is equality of these; the
      JavaScript length, a number of UTF-16 code units, is [Js.length],
      computed from the bytes.  [toLowerCase] and [trim], which follow the
      Unicode tables of the runtime, are taken from it ([StringPrototype]).
    - An [async] method is a computation in the monad [M]: it receives the
      world (the users collection, the clock, the supplies of identifiers and
      salts) and returns a value or a thrown error together with the world it
      leaves behind.  [await] is sequencing.
    - A Mongoose document held in a JavaScript variable is a [Document]
      value that the embedding threads through the calls that mutate it.
    - The npm packages [bcryptjs], [jsonwebtoken] and [joi], and the texts
      of Mongoose's validator messages, are interfaces (type classes); what
      the proofs need from them is stated in separate specification
      classes. *)

From Stdlib Require Import ZArith Ascii.
From stdpp Require Import gmap strings list pretty.

Set Warnings "-register-all".
Local Open Scope Z_scope.
Local Open Scope nat_scope.

(** ** JavaScript strings *)

Module Js.

(** Lower case on the ASCII letters, every other byte kept: what
    [String.prototype.toLowerCase] does to an ASCII string. *)
Definition lowerChar (c : ascii) : ascii :=
  let n := Ascii.nat_of_ascii c in
  if (65 <=? n) && (n <=? 90) then Ascii.ascii_of_nat (n + 32) else c.

Fixpoint asciiToLowerCase (s : string) : string :=
  match s with
  | EmptyString => EmptyString
  | String c r => String (lowerChar c) (asciiToLowerCase r)
  end.

Fixpoint trimStart (s : string) : string :=
  match s with
  | EmptyString => EmptyString
  | String c r => if Ascii.is_space c then trimStart r else s
  end.

(** The ASCII white space taken from both ends: what
    [String.prototype.trim] does to an ASCII string. *)
Definition asciiTrim (s : string) : string :=
  String.rev (trimStart (String.rev (trimStart s))).

(** [s.startsWith(p)]. *)
Fixpoint startsWith (p s : string) : bool :=
  match p, s with
  | EmptyString, _ => true
  | String _ _, EmptyString => false
  | String a p', String b s' => Ascii.eqb a b && startsWith p' s'
  end.

(** [s.substring(n)]. *)
Fixpoint substringFrom (n : nat) (s : string) : string :=
  match n, s with
  | O, _ => s
  | S _, EmptyString => EmptyString
  | S m, String _ r => substringFrom m r
  end.

(** Truthiness of a string: the empty string is falsy. *)
Definition truthy (s : string) : bool :=
  match s with EmptyString => false | String _ _ => true end.

(** [a || b] on strings. *)
Definition orElse (a b : string) : string := if truthy a then a else b.

Fixpoint take (n : nat) (s : string) : string :=
  match n, s with
  | O, _ => EmptyString
  | S _, EmptyString => EmptyString
  | S m, String c r => String c (take m r)
  end.

Fixpoint replicate (n : nat) (c : ascii) : string :=
  match n with O => EmptyString | S m => String c (replicate m c) end.

(** [s.includes(c)], for one character. *)
Fixpoint includesChar (c : ascii) (s : string) : bool :=
  match s with
  | EmptyString => false
  | String b r => Ascii.eqb c b || includesChar c r
  end.

(** [s.repeat(n)]. *)
Fixpoint repeat (s : string) (n : nat) : string :=
  match n with O => EmptyString | S m => s +:+ repeat s m end.

(** The UTF-16 code units that the character starting at a byte takes: none
    for a continuation byte, two (a surrogate pair) for the first byte of a
    sequence of four, one otherwise. *)
Definition units (c : ascii) : nat :=
  let n := Ascii.nat_of_ascii c in
  if n <? 128 then 1 else if n <? 192 then 0 else if n <? 240 then 1 else 2.

(** [s.length]. *)
Fixpoint length (s : string) : nat :=
  match s with
  | EmptyString => 0
  | String c r => units c + length r
  end.

End Js.

(** [String.prototype.toLowerCase] and [String.prototype.trim], as the
    runtime has them: lower case by the Unicode case mappings, and the
    white space and line terminators of ECMAScript taken from both ends. *)
Class StringPrototype := {
  toLowerCase : string -> string;
  trim : string -> string
}.

(** ** JSON values: request bodies and the plain objects sent back *)

Inductive JVal : Type :=
| JNull
| JBool (b : bool)
| JNum (n : Z)
| JStr (s : string)
| JArr (l : list JVal)
| JObj (fields : list (string * JVal)).

(** A plain JavaScript object: a finite map from property names. *)
Abbreviation PlainObject := (gmap string JVal).

(** ** The user document ([models/userModel.js]) *)

Record RefreshToken := mkRefreshToken {
  token : string;
  createdAt : Z
}.

(** The paths of [userSchema] that the service reads or writes are fields
    of their own; the remaining schema paths ([avatar], [preferences],
    [learningProfile], [isEmailVerified], ...) are kept in [others].  Every
    user has a [password]: the users that the schema admits without one,
    those with an [oauthProvider], are left out, as no route creates them.
    The timestamps and the version key are left out as well. *)
Record User := mkUser {
  _id : nat;
  email : string;
  password : string;
  firstName : string;
  lastName : string;
  username : option string;
  role : string;
  isActive : bool;
  lastLogin : option Z;
  refreshTokens : list RefreshToken;
  others : PlainObject
}.

Definition set_password (v : string) (u : User) : User :=
  mkUser (_id u) (email u) v (firstName u) (lastName u) (username u) (role u)
         (isActive u) (lastLogin u) (refreshTokens u) (others u).

Definition set_lastLogin (v : option Z) (u : User) : User :=
  mkUser (_id u) (email u) (password u) (firstName u) (lastName u) (username u)
         (role u) (isActive u) v (refreshTokens u) (others u).

Definition set_refreshTokens (v : list RefreshToken) (u : User) : User :=
  mkUser (_id u) (email u) (password u) (firstName u) (lastName u) (username u)
         (role u) (isActive u) (lastLogin u) v (others u).

Definition set_email (v : string) (u : User) : User :=
  mkUser (_id u) v (password u) (firstName u) (lastName u) (username u) (role u)
         (isActive u) (lastLogin u) (refreshTokens u) (others u).

Definition set_firstName (v : string) (u : User) : User :=
  mkUser (_id u) (email u) (password u) v (lastName u) (username u) (role u)
         (isActive u) (lastLogin u) (refreshTokens u) (others u).

Definition set_lastName (v : string) (u : User) : User :=
  mkUser (_id u) (email u) (password u) (firstName u) v (username u) (role u)
         (isActive u) (lastLogin u) (refreshTokens u) (others u).

Definition set_username (v : option string) (u : User) : User :=
  mkUser (_id u) (email u) (password u) (firstName u) (lastName u) v (role u)
         (isActive u) (lastLogin u) (refreshTokens u) (others u).

Definition set_role (v : string) (u : User) : User :=
  mkUser (_id u) (email u) (password u) (firstName u) (lastName u) (username u) v
         (isActive u) (lastLogin u) (refreshTokens u) (others u).

Definition set_isActive (v : bool) (u : User) : User :=
  mkUser (_id u) (email u) (password u) (firstName u) (lastName u) (username u)
         (role u) v (lastLogin u) (refreshTokens u) (others u).

Definition set_others (v : PlainObject) (u : User) : User :=
  mkUser (_id u) (email u) (password u) (firstName u) (lastName u) (username u)
         (role u) (isActive u) (lastLogin u) (refreshTokens u) v.

(** The setters of the schema.  Mongoose runs the setters of a path from
    the one declared last to the one declared first: [email] declares
    [lowercase] before [trim], [username] declares [trim] before
    [lowercase]; the names declare [trim]. *)
Definition castEmail `{StringPrototype} (s : string) : string :=
  toLowerCase (trim s).
Definition castUsername `{StringPrototype} (s : string) : string :=
  trim (toLowerCase s).
Definition castName `{StringPrototype} (s : string) : string := trim s.

(** [enum: ['student', 'instructor', 'admin']]. *)
Definition roles : list string := ["student"; "instructor"; "admin"].
Definition isRole (r : string) : bool := bool_decide (r ∈ roles).

Definition refreshTokenObject (rt : RefreshToken) : JVal :=
  JObj [("token", JStr (token rt)); ("createdAt", JNum (createdAt rt))].

(** [doc.toObject()]: the plain object of a document whose [password] path is
    selected.  No transform is attached to [toObject] in the schema options
    (the one that deletes [password] and [refreshTokens] is attached to
    [toJSON] only). *)
Definition toObject (u : User) : PlainObject :=
  <["_id" := JNum (Z.of_nat (_id u))]>
  (<["email" := JStr (email u)]>
  (<["password" := JStr (password u)]>
  (<["firstName" := JStr (firstName u)]>
  (<["lastName" := JStr (lastName u)]>
  (<["role" := JStr (role u)]>
  (<["isActive" := JBool (isActive u)]>
  (<["lastLogin" := from_option JNum JNull (lastLogin u)]>
  (<["refreshTokens" := JArr (refreshTokenObject <$> refreshTokens u)]>
  (match username u with
   | Some n => <["username" := JStr n]> (others u)
   | None => others u
   end))))))))).

(** ** Errors and the service monad *)

(** What a JavaScript [throw] can carry in this service. *)
Inductive Error : Type :=
| AppError (message : string) (statusCode : nat)
           (details : option (list (string * string)))
| MongoServerError (code : Z) (keyPattern : list string)
| ValidationError (messages : list string)
| CastError
| DocumentNotFoundError
| JsError (name : string).

(** [new AppError(message, statusCode)]. *)
Definition newAppError (message : string) (statusCode : nat) : Error :=
  AppError message statusCode None.

Inductive Result (A : Type) : Type :=
| Ok (a : A)
| Throw (e : Error).
Arguments Ok {A} a.
Arguments Throw {A} e.

(** The world an [async] method runs in.  [hashCalls] counts the calls of
    [bcrypt.hash] made so far; nothing reads it. *)
Record World := mkWorld {
  users : list User;
  now : Z;
  nextId : nat;
  entropy : nat;
  hashCalls : nat
}.

Definition with_users (us : list User) (w : World) : World :=
  mkWorld us (now w) (nextId w) (entropy w) (hashCalls w).

Definition M (A : Type) : Type := World -> Result A * World.

Definition Mret {A} (a : A) : M A := fun w => (Ok a, w).
Definition Mbind {A B} (f : A -> M B) (m : M A) : M B :=
  fun w => match m w with
           | (Ok a, w') => f a w'
           | (Throw e, w') => (Throw e, w')
           end.
Definition throw {A} (e : Error) : M A := fun w => (Throw e, w).
Definition tryCatch {A} (m : M A) (h : Error -> M A) : M A :=
  fun w => match m w with
           | (Ok a, w') => (Ok a, w')
           | (Throw e, w') => h e w'
           end.
(** [await] of a promise that settles without touching the world. *)
Definition await {A} (r : Result A) : M A := fun w => (r, w).
Definition get : M World := fun w => (Ok w, w).
Definition modify (f : World -> World) : M unit := fun w => (Ok tt, f w).

#[global] Instance M_ret : MRet M := @Mret.
#[global] Instance M_bind : MBind M := @Mbind.

(** ** The npm packages the service calls *)

(** [config/env.js]. *)
Class Config := {
  jwt_secret : string;
  jwt_expiresIn : string;
  jwt_refreshSecret : string;
  jwt_refreshExpiresIn : string;
  bcrypt_saltRounds : nat
}.

(** [bcryptjs].  [bcrypt_genSalt rounds n] is the salt drawn when the
    entropy supply stands at [n]; [bcrypt_hash s salt] is the hash made
    with a salt that [genSalt] drew, the only salts that the service passes;
    [bcrypt_compare s hash] is what [compare] resolves to, or the error it
    rejects with (a string of 60 characters that is no hash is rejected with
    [Error('Invalid salt version')]). *)
Class BcryptJs := {
  bcrypt_genSalt : nat -> nat -> string;
  bcrypt_hash : string -> string -> string;
  bcrypt_compare : string -> string -> Result bool
}.

Module Claims.
(** The payload given to [jwt.sign]. *)
Record payload := mkPayload { id : nat; email : string; role : string }.
(** What [jwt.verify] returns: the payload with the registered claims. *)
Record t := mk { claims : payload; iat : Z; exp : Z }.
End Claims.

(** [jsonwebtoken].  [jwt.sign(payload, secret, { expiresIn })] throws when
    the secret is empty or [expiresIn] is no timespan, whatever the payload:
    [jwt_signError secret expiresIn] is the name of that error, if there is
    one, and [jwt_sign payload secret expiresIn now] the token returned
    otherwise.  [jwt_verify token secret now] either decodes or throws an
    error of the given name ([JsonWebTokenError], [TokenExpiredError],
    [NotBeforeError]). *)
Class JsonWebToken := {
  jwt_signError : string -> string -> option string;
  jwt_sign : Claims.payload -> string -> string -> Z -> string;
  jwt_verify : string -> string -> Z -> Claims.t + string
}.

(** The texts of Mongoose's validator messages, which differ between the
    versions of the package: for the [required] validator of a path, for
    [minlength] (path, value, minimum) and for [enum] (path, value). *)
Class MongooseMessages := {
  message_required : string -> string;
  message_minlength : string -> string -> nat -> string;
  message_enum : string -> string -> string
}.

(** ** Mongoose: documents, queries and the hooks of [userSchema] *)

(** A document in memory: its current values, whether it was built by
    [new User(...)] and not saved yet, the paths marked modified, and the
    elements pushed on [refreshTokens] since the last save. *)
Record Document := mkDocument {
  fields : User;
  isNew : bool;
  modifiedPaths : list string;
  pushed : list RefreshToken
}.

(** A document as a query returns it. *)
Definition hydrate (u : User) : Document := mkDocument u false [] [].

Definition isModified (path : string) (d : Document) : bool :=
  bool_decide (path ∈ modifiedPaths d).

(** [doc.password = v].  Mongoose marks the path modified when the document
    is new, when the path is modified already, or when the value differs
    from the one held. *)
Definition assignPassword (v : string) (d : Document) : Document :=
  if isNew d || isModified "password" d
     || negb (bool_decide (v = password (fields d)))
  then mkDocument (set_password v (fields d)) (isNew d)
                  ("password" :: modifiedPaths d) (pushed d)
  else d.

(** [doc.lastLogin = v]. *)
Definition assignLastLogin (v : Z) (d : Document) : Document :=
  if isNew d || isModified "lastLogin" d
     || negb (bool_decide (Some v = lastLogin (fields d)))
  then mkDocument (set_lastLogin (Some v) (fields d)) (isNew d)
                  ("lastLogin" :: modifiedPaths d) (pushed d)
  else d.

(** [doc.refreshTokens.push({ token })]: [createdAt] defaults to [Date.now]. *)
Definition pushRefreshToken (t : string) (d : Document) : M Document :=
  w ← get;
  let rt := mkRefreshToken t (now w) in
  mret (mkDocument
          (set_refreshTokens (refreshTokens (fields d) ++ [rt]) (fields d))
          (isNew d) ("refreshTokens" :: modifiedPaths d) (pushed d ++ [rt])).

(** The validators of the schema that [save] runs before the user hooks:
    [required] on every path that declares it, the other validators on the
    paths of a new document or on the modified ones.  The validators of a
    path run in the order of their declaration and the first that fails is
    the one reported: [minlength] is asked of a password that [required]
    passed.  A length is a number of UTF-16 code units. *)
Definition validationErrors `{MongooseMessages} (d : Document) : list string :=
  let u := fields d in
  let checked (path : string) := isNew d || isModified path d in
  (if Js.truthy (email u) then [] else [message_required "email"]) ++
  (if Js.truthy (password u)
   then if checked "password" && (Js.length (password u) <? 8)
        then [message_minlength "password" (password u) 8]
        else []
   else [message_required "password"]) ++
  (if Js.truthy (firstName u) then [] else [message_required "firstName"]) ++
  (if Js.truthy (lastName u) then [] else [message_required "lastName"]) ++
  (if checked "role" && negb (isRole (role u))
   then [message_enum "role" (role u)]
   else []).

Definition validateDocument `{MongooseMessages} (d : Document) : M unit :=
  match validationErrors d with
  | [] => mret tt
  | msgs => throw (ValidationError msgs)
  end.

(** The unique indexes of the collection: [email], then the sparse index
    on [username]. *)
Definition duplicateKey (u : User) (us : list User) : option string :=
  if existsb (fun v => bool_decide (email v = email u)) us then Some "email"
  else match username u with
       | Some n =>
           if existsb (fun v => bool_decide (username v = Some n)) us
           then Some "username" else None
       | None => None
       end.

Definition insertOne (u : User) : M unit :=
  w ← get;
  match duplicateKey u (users w) with
  | Some field => throw (MongoServerError 11000%Z [field])
  | None => modify (with_users (users w ++ [u]))
  end.

(** The update that [save] sends for a document that is not new: [$set] of
    the modified scalar paths and [$push] of the pushed elements. *)
Definition applyChanges (d : Document) (stored : User) : User :=
  let u1 := if isModified "password" d
            then set_password (password (fields d)) stored else stored in
  let u2 := if isModified "lastLogin" d
            then set_lastLogin (lastLogin (fields d)) u1 else u1 in
  set_refreshTokens (refreshTokens u2 ++ pushed d) u2.

(** The filter [{ email: e }], cast with the schema setters, and the filter
    [{ _id: i }]. *)
Definition byEmail `{StringPrototype} (e : string) (u : User) : bool :=
  bool_decide (email u = castEmail e).
Definition byId (i : nat) (u : User) : bool :=
  bool_decide (_id u = i).

Fixpoint updateById (i : nat) (f : User -> User) (us : list User)
  : option (list User) :=
  match us with
  | [] => None
  | u :: r => if byId i u then Some (f u :: r)
              else cons u <$> updateById i f r
  end.

Definition updateOne (d : Document) : M unit :=
  match modifiedPaths d with
  | [] => mret tt
  | _ =>
      w ← get;
      match updateById (_id (fields d)) (applyChanges d) (users w) with
      | Some us => modify (with_users us)
      | None => throw DocumentNotFoundError
      end
  end.

Definition findBy (p : User -> bool) : M (option User) :=
  w ← get; mret (find p (users w)).

(** [User.findOne({ email })]. *)
Definition findOneByEmail `{StringPrototype} (e : string)
  : M (option User) :=
  findBy (byEmail e).

(** [User.findOne({ username })]. *)
Definition findOneByUsername `{StringPrototype} (n : string)
  : M (option User) :=
  findBy (fun u => bool_decide (username u = Some (castUsername n))).

(** [User.findOne({ username, _id: { $ne: userId } })]. *)
Definition findOneByUsernameNot `{StringPrototype} (n : string)
           (userId : nat) : M (option User) :=
  findBy (fun u => bool_decide (username u = Some (castUsername n))
                   && negb (bool_decide (_id u = userId))).

(** [User.findById(userId)]. *)
Definition findById (userId : nat) : M (option User) :=
  findBy (byId userId).

(** ** [findByIdAndUpdate] with [$set] *)

(** Truthiness of a JSON value. *)
Definition truthyValue (v : JVal) : bool :=
  match v with
  | JNull => false
  | JBool b => b
  | JNum n => negb (n =? 0)%Z
  | JStr s => Js.truthy s
  | JArr _ | JObj _ => true
  end.

Fixpoint assoc (k : string) (l : list (string * JVal)) : option JVal :=
  match l with
  | [] => None
  | (k', v) :: r => if bool_decide (k' = k) then Some v else assoc k r
  end.

(** One element of [refreshTokens] given as JSON. *)
Definition castRefreshToken (now : Z) (v : JVal) : option RefreshToken :=
  match v with
  | JObj fs =>
      match assoc "token" fs, assoc "createdAt" fs with
      | Some (JStr t), Some (JNum c) => Some (mkRefreshToken t c)
      | Some (JStr t), None => Some (mkRefreshToken t now)
      | _, _ => None
      end
  | _ => None
  end.

(** The schema paths kept in [others]. *)
Definition otherPaths : list string :=
  ["avatar"; "isEmailVerified"; "emailVerificationToken";
   "passwordResetToken"; "passwordResetExpires"; "oauthProvider"; "oauthId";
   "preferences"; "learningProfile"].

(** What [$set: { path: v }] does to a stored user, for [path] the name of
    a top-level path, with the message of the first validator declared for
    the path that fails ([runValidators]).  A name outside the schema is
    dropped (strict mode): [None]; so is, here, a dotted key that addresses
    a part of a path ([refreshTokens.0.token], [preferences.language]),
    which Mongoose follows.  A value of another JSON type than the path's
    is a [CastError] here, though Mongoose converts some. *)
Definition castPath `{StringPrototype, MongooseMessages}
           (now : Z) (path : string) (v : JVal)
  : Result (option (list string * (User -> User))) :=
  if bool_decide (path = "email") then
    match v with
    | JStr s =>
        Ok (Some (if Js.truthy (castEmail s) then []
                  else [message_required "email"],
                  set_email (castEmail s)))
    | _ => Throw CastError
    end
  else if bool_decide (path = "password") then
    match v with
    | JStr s =>
        Ok (Some (if Js.truthy s
                  then if Js.length s <? 8
                       then [message_minlength "password" s 8]
                       else []
                  else [message_required "password"],
                  set_password s))
    | _ => Throw CastError
    end
  else if bool_decide (path = "firstName") then
    match v with
    | JStr s =>
        Ok (Some (if Js.truthy (castName s) then []
                  else [message_required "firstName"],
                  set_firstName (castName s)))
    | _ => Throw CastError
    end
  else if bool_decide (path = "lastName") then
    match v with
    | JStr s =>
        Ok (Some (if Js.truthy (castName s) then []
                  else [message_required "lastName"],
                  set_lastName (castName s)))
    | _ => Throw CastError
    end
  else if bool_decide (path = "username") then
    match v with
    | JStr s => Ok (Some ([], set_username (Some (castUsername s))))
    | JNull => Ok (Some ([], set_username None))
    | _ => Throw CastError
    end
  else if bool_decide (path = "role") then
    match v with
    | JStr s =>
        Ok (Some (if isRole s then [] else [message_enum "role" s],
                  set_role s))
    | _ => Throw CastError
    end
  else if bool_decide (path = "isActive") then
    match v with
    | JBool b => Ok (Some ([], set_isActive b))
    | _ => Throw CastError
    end
  else if bool_decide (path = "lastLogin") then
    match v with
    | JNum n => Ok (Some ([], set_lastLogin (Some n)))
    | JNull => Ok (Some ([], set_lastLogin None))
    | _ => Throw CastError
    end
  else if bool_decide (path = "refreshTokens") then
    match v with
    | JArr l =>
        match mapM (castRefreshToken now) l with
        | Some rts => Ok (Some ([], set_refreshTokens rts))
        | None => Throw CastError
        end
    | _ => Throw CastError
    end
  else if bool_decide (path ∈ otherPaths) then
    Ok (Some ([], fun u => set_others (<[path := v]> (others u)) u))
  else Ok None.

(** The paths of the schema, in the order of its declaration. *)
Definition schemaPaths : list string :=
  ["email"; "password"; "firstName"; "lastName"; "username"; "role"]
    ++ otherPaths ++ ["isActive"; "lastLogin"; "refreshTokens"].

(** Casting the whole of [$set: updateData]: the validation messages and the
    change to make, or the first cast error. *)
Fixpoint castUpdate `{StringPrototype, MongooseMessages}
         (now : Z) (updateData : PlainObject) (paths : list string)
  : Result (list string * (User -> User)) :=
  match paths with
  | [] => Ok ([], fun u => u)
  | path :: rest =>
      match castUpdate now updateData rest with
      | Throw e => Throw e
      | Ok (msgs, f) =>
          match updateData !! path with
          | None => Ok (msgs, f)
          | Some v =>
              match castPath now path v with
              | Throw e => Throw e
              | Ok None => Ok (msgs, f)
              | Ok (Some (m, g)) => Ok (m ++ msgs, fun u => g (f u))
              end
          end
      end
  end.

(** The unique indexes, when user [u'] replaces the stored [u]. *)
Definition duplicateKeyOnUpdate (u u' : User) (us : list User) : option string :=
  let rest := filter (fun v => _id v ≠ _id u) us in
  if negb (bool_decide (email u' = email u))
     && existsb (fun v => bool_decide (email v = email u')) rest
  then Some "email"
  else match username u' with
       | Some n =>
           if negb (bool_decide (username u = Some n))
              && existsb (fun v => bool_decide (username v = Some n)) rest
           then Some "username" else None
       | None => None
       end.

(** [User.findByIdAndUpdate(userId, { $set: updateData }, { new: true,
    runValidators })]. *)
Definition findByIdAndUpdate `{StringPrototype, MongooseMessages}
           (userId : nat) (updateData : PlainObject)
           (runValidators : bool) : M (option User) :=
  w ← get;
  match castUpdate (now w) updateData schemaPaths with
  | Throw e => throw e
  | Ok (msgs, f) =>
      match (if runValidators then msgs else []) with
      | _ :: _ as msgs => throw (ValidationError msgs)
      | [] =>
          match find (byId userId) (users w) with
          | None => mret None
          | Some u =>
              match duplicateKeyOnUpdate u (f u) (users w) with
              | Some field => throw (MongoServerError 11000%Z [field])
              | None =>
                  match updateById userId f (users w) with
                  | Some us => modify (with_users us);; mret (Some (f u))
                  | None => mret None
                  end
              end
          end
      end
  end.

(** The payload of [createUser], as far as the register schema names it.
    The controller passes [req.body] as it came, so a payload may carry
    other paths of the schema ([isActive], [lastLogin], [refreshTokens],
    ...); those are left out here, and what is stated of a stored user on
    the strength of this record is limited to the six paths below. *)
Module UserData.
Record t := mk {
  email : string;
  password : string;
  firstName : string;
  lastName : string;
  username : option string;
  role : option string
}.
End UserData.

(** The defaults of the schema paths kept in [others]. *)
Definition defaultOthers : PlainObject :=
  list_to_map
    [("avatar", JNull); ("isEmailVerified", JBool false);
     ("emailVerificationToken", JNull); ("passwordResetToken", JNull);
     ("passwordResetExpires", JNull); ("oauthProvider", JNull);
     ("oauthId", JNull);
     ("preferences",
      JObj [("language", JStr "es"); ("timezone", JStr "UTC");
            ("notifications",
             JObj [("email", JBool true); ("push", JBool true)])]);
     ("learningProfile",
      JObj [("level", JStr "beginner"); ("skills", JArr []);
            ("interests", JArr [])])].

(** [new User(userData)], for a payload of the six paths: a fresh [_id], the
    setters and the defaults of the schema applied, every given path marked
    modified. *)
Definition newUser `{StringPrototype} (userData : UserData.t)
  : M Document :=
  w ← get;
  modify (fun w => mkWorld (users w) (now w) (S (nextId w)) (entropy w)
                           (hashCalls w));;
  mret (mkDocument
          (mkUser (nextId w)
                  (castEmail (UserData.email userData))
                  (UserData.password userData)
                  (castName (UserData.firstName userData))
                  (castName (UserData.lastName userData))
                  (castUsername <$> UserData.username userData)
                  (default "student" (UserData.role userData))
                  true None [] defaultOthers)
          true
          (["email"; "password"; "firstName"; "lastName"]
             ++ match UserData.username userData with
                | Some _ => ["username"] | None => [] end
             ++ match UserData.role userData with
                | Some _ => ["role"] | None => [] end)
          []).

Record Tokens := mkTokens {
  accessToken : string;
  refreshToken : string
}.

(** What [createUser] and [loginUser] resolve to. *)
Record Session := mkSession {
  user : PlainObject;
  tokens : Tokens
}.

Section Service.
Context `{StringPrototype, MongooseMessages, Config, BcryptJs, JsonWebToken}.

(** [await bcrypt.genSalt(rounds)]. *)
Definition genSalt (rounds : nat) : M string :=
  w ← get;
  modify (fun w => mkWorld (users w) (now w) (nextId w) (S (entropy w))
                           (hashCalls w));;
  mret (bcrypt_genSalt rounds (entropy w)).

(** [await bcrypt.hash(s, salt)]. *)
Definition hash (s salt : string) : M string :=
  modify (fun w => mkWorld (users w) (now w) (nextId w) (entropy w)
                           (S (hashCalls w)));;
  mret (bcrypt_hash s salt).

(** [userSchema.pre('save', ...)]. *)
Definition preSave (this : Document) : M Document :=
  if negb (isModified "password" this) then mret this
  else
    salt ← genSalt bcrypt_saltRounds;
    hashed ← hash (password (fields this)) salt;
    mret (assignPassword hashed this).

(** [await doc.save()]: validation, the pre-save hook, the write; the
    document comes back clean. *)
Definition save (d : Document) : M Document :=
  validateDocument d;;
  d ← preSave d;
  (if isNew d then insertOne (fields d) else updateOne d);;
  mret (mkDocument (fields d) false [] []).

(** [userSchema.methods.comparePassword]: what the promise resolves to, or
    the error it rejects with. *)
Definition comparePassword (this : Document) (candidatePassword : string)
  : Result bool :=
  bcrypt_compare candidatePassword (password (fields this)).

(** [jwt.sign(payload, secret, { expiresIn })], which reads the clock. *)
Definition jwtSign (payload : Claims.payload) (secret expiresIn : string)
  : M string :=
  w ← get;
  match jwt_signError secret expiresIn with
  | Some name => throw (JsError name)
  | None => mret (jwt_sign payload secret expiresIn (now w))
  end.

(** [UserService.generateTokens].  The document is returned as well: the
    caller goes on with the object that was mutated here. *)
Definition generateTokens (user : Document) : M (Document * Tokens) :=
  let payload := Claims.mkPayload (_id (fields user)) (email (fields user))
                                  (role (fields user)) in
  accessToken ← jwtSign payload jwt_secret jwt_expiresIn;
  refreshToken ← jwtSign payload jwt_refreshSecret jwt_refreshExpiresIn;
  user ← pushRefreshToken refreshToken user;
  user ← save user;
  mret (user, mkTokens accessToken refreshToken).

(** [createUser], first part: the two look-ups. *)
Definition checkAvailable (userData : UserData.t) : M unit :=
  existingUser ← findOneByEmail (UserData.email userData);
  match existingUser with
  | Some _ => throw (newAppError "Email already registered" 409)
  | None =>
      match UserData.username userData with
      | Some n =>
          if Js.truthy n then
            existingUsername ← findOneByUsername n;
            match existingUsername with
            | Some _ => throw (newAppError "Username already taken" 409)
            | None => mret tt
            end
          else mret tt
      | None => mret tt
      end
  end.

(** [createUser], second part: from [new User(userData)] on. *)
Definition persistUser (userData : UserData.t) : M Session :=
  user ← newUser userData;
  user ← save user;
  '(user, tokens) ← generateTokens user;
  let userObject := toObject (fields user) in
  let userObject := delete "password" userObject in
  let userObject := delete "refreshTokens" userObject in
  mret (mkSession userObject tokens).

(** [UserService.createUser].  Its [catch] logs and rethrows. *)
Definition createUser (userData : UserData.t) : M Session :=
  checkAvailable userData;;
  persistUser userData.

(** [UserService.loginUser].  Its [catch] logs and rethrows. *)
Definition loginUser (email password : string) : M Session :=
  found ← findOneByEmail email;
  match found with
  | None => throw (newAppError "Invalid email or password" 401)
  | Some u =>
      let user := hydrate u in
      isPasswordValid ← await (comparePassword user password);
      if negb isPasswordValid
      then throw (newAppError "Invalid email or password" 401)
      else if negb (isActive (fields user))
      then throw (newAppError "Account is deactivated" 403)
      else
        w ← get;
        let user := assignLastLogin (now w) user in
        user ← save user;
        '(user, tokens) ← generateTokens user;
        mret (mkSession (toObject (fields user)) tokens)
  end.

(** [UserService.changePassword]. *)
Definition changePassword (userId : nat)
           (currentPassword newPassword : string) : M string :=
  found ← findById userId;
  match found with
  | None => throw (newAppError "User not found" 404)
  | Some u =>
      let user := hydrate u in
      isPasswordValid ← await (comparePassword user currentPassword);
      if negb isPasswordValid
      then throw (newAppError "Current password is incorrect" 401)
      else
        let user := assignPassword newPassword user in
        save user;;
        mret "Password changed successfully"
  end.

(** [jwt.verify(token, secret)], which reads the clock. *)
Definition jwtVerify (token secret : string) : M Claims.t :=
  w ← get;
  match jwt_verify token secret (now w) with
  | inl decoded => mret decoded
  | inr name => throw (JsError name)
  end.

(** [UserService.verifyToken]. *)
Definition verifyToken (token : string) : M Claims.t :=
  tryCatch
    (decoded ← jwtVerify token jwt_secret;
     mret decoded)
    (fun error => throw (newAppError "Invalid or expired token" 401)).

(** [UserService.updateUser]. *)
Definition updateUser (userId : nat) (updateData : PlainObject) : M User :=
  match updateData !! "username" with
  | Some v =>
      if truthyValue v then
        match v with
        | JStr n =>
            existingUser ← findOneByUsernameNot n userId;
            match existingUser with
            | Some _ => throw (newAppError "Username already taken" 409)
            | None => mret tt
            end
        | _ => throw CastError
        end
      else mret tt
  | None => mret tt
  end;;
  updated ← findByIdAndUpdate userId updateData true;
  match updated with
  | None => throw (newAppError "User not found" 404)
  | Some u => mret u
  end.

(** [UserService.deleteUser]: the soft delete. *)
Definition deleteUser (userId : nat) : M User :=
  updated ← findByIdAndUpdate userId {["isActive" := JBool false]} false;
  match updated with
  | None => throw (newAppError "User not found" 404)
  | Some u => mret u
  end.

End Service.

(** ** The HTTP layer: middlewares, controllers, the error handler *)

Record Request := mkRequest {
  authorization : option string;   (* [req.headers.authorization] *)
  body : PlainObject;              (* [req.body] *)
  reqUser : option Claims.t        (* [req.user] *)
}.

(** The [data] member of a successful response. *)
Inductive Data : Type :=
| DataSession (s : Session)        (* [{ user, tokens }] *)
| DataUser (u : PlainObject).      (* [{ user }] *)

(** What is passed to [res.status(...).json(...)].  The [stack] member that
    the error handler adds in development is left out. *)
Inductive Json : Type :=
| Success (data : Data)
| SuccessMessage (message : string)
| Failure (error : string) (details : option (list (string * string))).

Record Response := mkResponse {
  status : nat;
  json : Json
}.

(** [err.message]. *)
Definition messageOf (err : Error) : string :=
  match err with
  | AppError m _ _ => m
  | MongoServerError _ _ => "E11000 duplicate key error collection"
  | ValidationError msgs => "User validation failed: " +:+ String.concat ", " msgs
  | CastError => "Cast to ObjectId failed"
  | DocumentNotFoundError => "No document found for query"
  | JsError n => n
  end.

(** [errorHandler] of [utils/errorHandler.js]. *)
Definition errorHandler (err : Error) : Response :=
  let error := err in
  (* [err.name === 'CastError'] *)
  let error := match err with
               | CastError => newAppError "Resource not found" 404
               | _ => error
               end in
  (* [err.code === 11000] *)
  let error := match err with
               | MongoServerError 11000%Z keyPattern =>
                   let field := hd "undefined" keyPattern in
                   newAppError (field +:+ " already exists") 409
               | _ => error
               end in
  (* [err.name === 'ValidationError'] *)
  let error := match err with
               | ValidationError msgs =>
                   newAppError (String.concat ", " msgs) 400
               | _ => error
               end in
  let statusCode := match error with
                    | AppError _ (S n) _ => S n
                    | _ => 500
                    end in
  let message := Js.orElse (messageOf error) "Internal Server Error" in
  let details := match error with
                 | AppError _ _ d => d
                 | _ => None
                 end in
  mkResponse statusCode (Failure message details).

(** [joi]: the rule declared for one key of a schema, as the details it
    reports on a value (none when the value passes). *)
Class Joi := {
  joi_rule : string -> string -> JVal -> list (string * string)
}.

(** The result of [schema.validate(value, options)]. *)
Record ValidationResult := mkValidationResult {
  error : option (list (string * string));
  value : PlainObject
}.

Section Http.
Context `{StringPrototype, MongooseMessages, Config, BcryptJs, JsonWebToken, Joi}.

(** [schema.validate(value, { abortEarly: false, stripUnknown: true })]
    for an object schema whose keys are all optional: every key that is
    present is checked, the unknown keys are left out of [value] and are
    no error.  The conversions of the known values ([trim], [lowercase])
    are left out of [value]. *)
Definition joiValidate (schema : string) (keys : list string)
           (v : PlainObject) : ValidationResult :=
  let details :=
    flat_map (fun k => match v !! k with
                       | Some x => joi_rule schema k x
                       | None => []
                       end) keys in
  mkValidationResult
    (match details with [] => None | _ => Some details end)
    (filter (fun kv => kv.1 ∈ keys) v).

(** [userSchemas.updateProfile]. *)
Definition updateProfileKeys : list string :=
  ["firstName"; "lastName"; "username"; "avatar"; "preferences";
   "learningProfile"].

(** [validate(userSchemas.updateProfile)] of
    [middlewares/validationMiddleware.js]: only [error] is taken from the
    result of [schema.validate]; [next()] goes on with [req] as it is. *)
Definition validateUpdateProfile (req : Request) : M Request :=
  let error := error (joiValidate "updateProfile" updateProfileKeys (body req)) in
  match error with
  | Some details => throw (AppError "Validation failed" 400 (Some details))
  | None => mret req
  end.

(** [authenticate] of [middlewares/authMiddleware.js]. *)
Definition authenticate (req : Request) : M Request :=
  match authorization req with
  | Some authHeader =>
      if Js.truthy authHeader && Js.startsWith "Bearer " authHeader then
        let token := Js.substringFrom 7 authHeader in
        decoded ← verifyToken token;
        mret (mkRequest (authorization req) (body req) (Some decoded))
      else throw (newAppError "No token provided" 401)
  | None => throw (newAppError "No token provided" 401)
  end.

(** [authorize(...roles)]. *)
Definition authorize (allowed : list string) (req : Request) : M Request :=
  match reqUser req with
  | None => throw (newAppError "Authentication required" 401)
  | Some u =>
      if bool_decide (Claims.role (Claims.claims u) ∈ allowed) then mret req
      else throw (newAppError "Insufficient permissions" 403)
  end.

(** [doc.toJSON()], with the transform of the schema options. *)
Definition toJSON (u : User) : PlainObject :=
  delete "passwordResetToken"
    (delete "emailVerificationToken"
       (delete "refreshTokens" (delete "password" (toObject u)))).

(** A controller followed by the error middleware: what the client gets. *)
Definition respond (handler : M Response) : World -> Response * World :=
  fun w => match handler w with
           | (Ok r, w') => (r, w')
           | (Throw e, w') => (errorHandler e, w')
           end.

(** [UserController.register], behind the error handler. *)
Definition register (userData : UserData.t) : World -> Response * World :=
  respond (s ← createUser userData;
           mret (mkResponse 201 (Success (DataSession s)))).

(** [UserController.login], behind the error handler. *)
Definition login (email password : string) : World -> Response * World :=
  respond (s ← loginUser email password;
           mret (mkResponse 200 (Success (DataSession s)))).

(** [UserController.updateProfile]. *)
Definition updateProfile (req : Request) : M Response :=
  match reqUser req with
  | None => throw (JsError "TypeError")
  | Some decoded =>
      u ← updateUser (Claims.id (Claims.claims decoded)) (body req);
      mret (mkResponse 200 (Success (DataUser (toJSON u))))
  end.

(** [router.put('/profile', authenticate,
    validate(userSchemas.updateProfile), userController.updateProfile)]. *)
Definition putProfile (req : Request) : World -> Response * World :=
  respond (req ← authenticate req;
           req ← validateUpdateProfile req;
           updateProfile req).

End Http.

(** ** The other routes *)

Section Routes.
Context `{StringPrototype, MongooseMessages, Config, BcryptJs, JsonWebToken, Joi}.

(** [UserService.getUserById].  The query leaves [password] out of the
    document ([select: false]); so does [toJSON], through which every caller
    below sends it. *)
Definition getUserById (userId : nat) : M User :=
  found ← findById userId;
  match found with
  | None => throw (newAppError "User not found" 404)
  | Some u => mret u
  end.

(** [UserController.getProfile]. *)
Definition getProfile (req : Request) : M Response :=
  match reqUser req with
  | None => throw (JsError "TypeError")
  | Some decoded =>
      u ← getUserById (Claims.id (Claims.claims decoded));
      mret (mkResponse 200 (Success (DataUser (toJSON u))))
  end.

(** [UserController.deleteAccount]. *)
Definition deleteAccount (req : Request) : M Response :=
  match reqUser req with
  | None => throw (JsError "TypeError")
  | Some decoded =>
      deleteUser (Claims.id (Claims.claims decoded));;
      mret (mkResponse 200 (SuccessMessage "Account deactivated successfully"))
  end.

(** [UserController.getUserById]; [req.params.id] is given as the
    identifier it is cast to. *)
Definition getUserByIdController (paramsId : nat) (req : Request) : M Response :=
  u ← getUserById paramsId;
  mret (mkResponse 200 (Success (DataUser (toJSON u)))).

(** [router.get('/profile', authenticate, userController.getProfile)]. *)
Definition getProfileRoute (req : Request) : World -> Response * World :=
  respond (req ← authenticate req; getProfile req).

(** [router.delete('/account', authenticate,
    userController.deleteAccount)]. *)
Definition deleteAccountRoute (req : Request) : World -> Response * World :=
  respond (req ← authenticate req; deleteAccount req).

(** [router.get(path, authenticate, authorize('admin'), handler)]: the two
    administrative routes. *)
Definition adminRoute (handler : Request -> M Response) (req : Request)
  : World -> Response * World :=
  respond (req ← authenticate req;
           req ← authorize ["admin"] req;
           handler req).

End Routes.

(** ** What the proofs assume of the packages *)

(** The key [bcryptjs] derives from a password: the bytes of the string
    followed by a NUL, read round and round until the 72 bytes of the 18
    words of the Blowfish P-array are filled.  What lies beyond the first 72
    bytes is never read, and a short password is the same key as its
    repetitions with the NUL between them. *)
Definition bcryptKey (s : string) : string :=
  Js.take 72 (Js.repeat (s +:+ String "000" EmptyString) 72).

(** How [bcryptjs] works, for the salts that [genSalt] draws: the password
    enters the hash through its key only, and [compare] against a hash
    computes the hash of the candidate with the salt that the hash carries
    and resolves to whether the two are the same string. *)
Class BcryptSpec `{BcryptJs} : Prop := {
  bcrypt_hash_key : forall s q rounds n,
    bcryptKey s = bcryptKey q ->
    bcrypt_hash s (bcrypt_genSalt rounds n)
    = bcrypt_hash q (bcrypt_genSalt rounds n);
  bcrypt_compare_hash : forall s q rounds n,
    bcrypt_compare s (bcrypt_hash q (bcrypt_genSalt rounds n))
    = Ok (bool_decide (bcrypt_hash s (bcrypt_genSalt rounds n)
                       = bcrypt_hash q (bcrypt_genSalt rounds n)))
}.

(** [jsonwebtoken] with a signature that cannot be forged: a token signed
    with one secret does not verify under another. *)
Class JsonWebTokenSpec `{JsonWebToken} : Prop := {
  jwt_verify_other_secret : forall payload s1 s2 expiresIn t t',
    s1 <> s2 ->
    exists name, jwt_verify (jwt_sign payload s1 expiresIn t) s2 t' = inr name
}.

(** [bcryptjs] never returns the empty string as a hash (a hash has 60
    characters). *)
Class BcryptNonEmpty `{BcryptJs} : Prop := {
  bcrypt_hash_truthy : forall s rounds n,
    Js.truthy (bcrypt_hash s (bcrypt_genSalt rounds n)) = true
}.

(** [jsonwebtoken], for the access tokens of the service: a token that
    [sign] returned for a secret and the configured lifetime verifies under
    that secret at the time it was signed, and decodes to the [id] that was
    signed. *)
Class JsonWebTokenRound `{Config, JsonWebToken} : Prop := {
  jwt_verify_sign : forall payload secret t,
    jwt_signError secret jwt_expiresIn = None ->
    exists decoded,
      jwt_verify (jwt_sign payload secret jwt_expiresIn t) secret t
        = inl decoded /\
      Claims.id (Claims.claims decoded) = Claims.id payload
}.

(** The error that [generateTokens] throws in [jwt.sign], if it does: that
    of the access token, or else that of the refresh token. *)
Definition signError `{Config, JsonWebToken} : option string :=
  match jwt_signError jwt_secret jwt_expiresIn with
  | Some name => Some name
  | None => jwt_signError jwt_refreshSecret jwt_refreshExpiresIn
  end.

(** Lower case and trim of the runtime, applied as the setter of [email]
    applies them, change nothing when applied again. *)
Class SettersIdempotent `{StringPrototype} : Prop := {
  castEmail_idempotent : forall s, castEmail (castEmail s) = castEmail s
}.

(** The collection is keyed by [_id], and the identifiers still to be
    handed out are fresh. *)
Definition WorldOk (w : World) : Prop :=
  NoDup (_id <$> users w) /\ forall u, u ∈ users w -> _id u < nextId w.

(** ** Sequences of calls *)

(** A call of one of the methods of the service, or the clock moving on
    between two calls. *)
Inductive Call : Type :=
| CreateUser (userData : UserData.t)
| LoginUser (email password : string)
| GetUserById (userId : nat)
| UpdateUser (userId : nat) (updateData : PlainObject)
| DeleteUser (userId : nat)
| ChangePassword (userId : nat) (currentPassword newPassword : string)
| Clock (t : Z).

Section Calls.
Context `{StringPrototype, MongooseMessages, Config, BcryptJs, JsonWebToken}.

(** The world after a call, whether it resolved or threw. *)
Definition runCall (c : Call) (w : World) : World :=
  match c with
  | CreateUser userData => (createUser userData w).2
  | LoginUser e p => (loginUser e p w).2
  | GetUserById userId => (getUserById userId w).2
  | UpdateUser userId updateData => (updateUser userId updateData w).2
  | DeleteUser userId => (deleteUser userId w).2
  | ChangePassword userId cur new => (changePassword userId cur new w).2
  | Clock t => mkWorld (users w) t (nextId w) (entropy w) (hashCalls w)
  end.

Definition runCalls (cs : list Call) (w : World) : World :=
  foldl (fun w c => runCall c w) w cs.

End Calls.

(** No two stored users share an e-mail. *)
Definition EmailsUnique (w : World) : Prop := NoDup (email <$> users w).

(** Every stored password is a hash that [bcryptjs] made. *)
Definition PasswordsHashed `{BcryptJs} (w : World) : Prop :=
  Forall (fun u => exists s salt, password u = bcrypt_hash s salt) (users w).

(** An [updateUser] whose data name [password] writes the value as it is:
    [findByIdAndUpdate] runs no [save] hook. *)
Definition namesPassword (c : Call) : bool :=
  match c with
  | UpdateUser _ updateData => bool_decide (is_Some (updateData !! "password"))
  | _ => false
  end.

(** The keys of an update that name whole paths: none has a dot. *)
Definition topLevelKeys (updateData : PlainObject) : Prop :=
  forall k, is_Some (updateData !! k) -> Js.includesChar "." k = false.

(** Every stored e-mail is as its setter leaves it. *)
Definition EmailsCast `{StringPrototype} (w : World) : Prop :=
  Forall (fun u => castEmail (email u) = email u) (users w).

(** ** Instances to run the service on *)

Module Sample.

Definition config : Config := {|
  jwt_secret := "access-secret";
  jwt_expiresIn := "7d";
  jwt_refreshSecret := "refresh-secret";
  jwt_refreshExpiresIn := "30d";
  bcrypt_saltRounds := 12
|}.

(** On ASCII strings the runtime lowers the letters A to Z and trims the
    ASCII white space. *)
Definition stringPrototype : StringPrototype := {|
  toLowerCase := Js.asciiToLowerCase;
  trim := Js.asciiTrim
|}.

(** The messages of a recent Mongoose. *)
Definition messages : MongooseMessages := {|
  message_required path := "Path `" +:+ path +:+ "` is required.";
  message_minlength path value min :=
    "Path `" +:+ path +:+ "` (`" +:+ value +:+ "`, length "
      +:+ pretty (Js.length value)
      +:+ ") is shorter than the minimum allowed length ("
      +:+ pretty min +:+ ").";
  message_enum path value :=
    "`" +:+ value +:+ "` is not a valid enum value for path `" +:+ path
      +:+ "`."
|}.

(** A salt of 29 characters; the hash is the salt followed by the key, 101
    characters in all.  [compare] answers [false] to a string of another
    length and rejects one of that length that is no hash. *)
Definition bcrypt : BcryptJs := {|
  bcrypt_genSalt rounds n :=
    "$2a$12$....................." +:+
    String (Ascii.ascii_of_nat (65 + n mod 26)) EmptyString;
  bcrypt_hash s salt := salt +:+ bcryptKey s;
  bcrypt_compare s h :=
    if negb (String.length h =? 101) then Ok false
    else if Js.startsWith "$2" h
    then Ok (bool_decide (Js.take 29 h +:+ bcryptKey s = h))
    else Throw (JsError "Error")
|}.

(** A token is the user's [_id] in unary, a dot, and the secret. *)
Fixpoint parseToken (tok : string) : option (nat * string) :=
  match tok with
  | String "I" r => (fun p => (S p.1, p.2)) <$> parseToken r
  | String "." r => Some (0, r)
  | _ => None
  end.

Definition jwt : JsonWebToken := {|
  jwt_signError secret expiresIn :=
    if Js.truthy secret && Js.truthy expiresIn then None else Some "Error";
  jwt_sign payload secret expiresIn t :=
    Js.replicate (Claims.id payload) "I" +:+ "." +:+ secret;
  jwt_verify tok secret t :=
    match parseToken tok with
    | Some (i, s) =>
        if bool_decide (s = secret)
        then inl (Claims.mk (Claims.mkPayload i "" "student") 0 0)
        else inr "JsonWebTokenError"
    | None => inr "JsonWebTokenError"
    end
|}.

(** A string is asked of every key. *)
Definition joi : Joi := {|
  joi_rule schema k v :=
    match v with
    | JStr _ => []
    | _ => [(k, "must be a string")]
    end
|}.

#[local] Existing Instance stringPrototype.
#[local] Existing Instance messages.
#[local] Existing Instance config.
#[local] Existing Instance bcrypt.
#[local] Existing Instance jwt.

Definition emptyWorld : World := mkWorld [] 1000 0 0 0.

Definition alice : UserData.t :=
  UserData.mk "a@x.com" "pw123456" "A" "B" None None.

(** The world after [alice] registered. *)
Definition registered : World :=
  (createUser alice emptyWorld).2.

(** Two passwords of 128 characters that differ in the last one. *)
Definition long1 : string := Js.replicate 127 "a" +:+ "1".
Definition long2 : string := Js.replicate 127 "a" +:+ "2".

Definition carol : UserData.t :=
  UserData.mk "c@x.com" long1 "C" "D" None None.

(** The value of a computation that did not throw. *)
Definition okValue {A} (d : A) (r : Result A) : A :=
  match r with Ok a => a | Throw _ => d end.

Definition noSession : Session := mkSession ∅ (mkTokens "" "").
Definition noUser : User := mkUser 0 "" "" "" "" None "" false None [] ∅.

(** [alice] registers, then logs in. *)
Definition aliceSession : Session :=
  okValue noSession (createUser alice emptyWorld).1.
Definition aliceStored : User := default noUser (head (users registered)).
Definition loggedIn : World :=
  (loginUser "a@x.com" "pw123456" registered).2.
Definition loginSession : Session :=
  okValue noSession
    (loginUser "a@x.com" "pw123456" registered).1.

(** [alice] registers again, with other names, a user name and a role. *)
Definition aliceAgain : UserData.t :=
  UserData.mk "a@x.com" "another-password" "X" "Y" (Some "xy") (Some "admin").

(** [alice]'s account is deactivated. *)
Definition deactivated : World :=
  (deleteUser 0 registered).2.
Definition aliceDeactivated : User :=
  default noUser (head (users deactivated)).

(** [alice] changes her password. *)
Definition changed : World :=
  (changePassword 0 "pw123456" "newpw12345678" registered).2.

(** [carol] registers. *)
Definition carolWorld : World :=
  (createUser carol emptyWorld).2.
Definition carolSession : Session :=
  okValue noSession (createUser carol emptyWorld).1.
Definition carolStored : User := default noUser (head (users carolWorld)).

(** The document that a second registration of [alice]'s e-mail builds. *)
Definition aliceAgainDoc : Document :=
  okValue (hydrate noUser) (newUser aliceAgain registered).1.
Definition aliceAgainWorld : World := (newUser aliceAgain registered).2.


(** The access token of the user with [_id] 0, and what it decodes to. *)
Definition aliceToken : string := ".access-secret".
Definition aliceClaims : Claims.t :=
  Claims.mk (Claims.mkPayload 0 "" "student") 0 0.

End Sample.

(** ** More of the sample: a second user, refused requests, a session *)

Module Cases.

#[local] Existing Instance Sample.stringPrototype.
#[local] Existing Instance Sample.messages.
#[local] Existing Instance Sample.config.
#[local] Existing Instance Sample.bcrypt.
#[local] Existing Instance Sample.jwt.
#[local] Existing Instance Sample.joi.

(** [bee] registers with a user name, then [alice] does without one. *)
Definition bee : UserData.t :=
  UserData.mk "b@x.com" "pw123456" "B" "Bee" (Some "bee") None.
Definition beeWorld : World :=
  (createUser bee Sample.emptyWorld).2.
Definition two : World :=
  (createUser Sample.alice beeWorld).2.
Definition beeStored : User := default Sample.noUser (head (users two)).

(** A registration with [bee]'s user name, in capitals and with blanks. *)
Definition beeAgain : UserData.t :=
  UserData.mk "c@x.com" "pw123456" "C" "Cee" (Some " BEE ") None.

(** A registration with a password of five characters. *)
Definition hasty : UserData.t :=
  UserData.mk "h@x.com" "short" "H" "Hasty" None None.


(** A configuration without a lifetime for the refresh token. *)
Definition noLifetime : Config := {|
  jwt_secret := "access-secret";
  jwt_expiresIn := "7d";
  jwt_refreshSecret := "refresh-secret";
  jwt_refreshExpiresIn := "";
  bcrypt_saltRounds := 12
|}.

(** [alice] changes her first name. *)
Definition newName : PlainObject := {["firstName" := JStr "  Alice "]}.
Definition renamedUser : User :=
  Sample.okValue Sample.noUser
    (updateUser 0 newName Sample.registered).1.
Definition renamed : World :=
  (updateUser 0 newName Sample.registered).2.

(** [alice]'s request for her profile, and what it is answered. *)
Definition profileRequest : Request :=
  mkRequest (Some ("Bearer " +:+ Sample.aliceToken)) ∅ None.
Definition profileResponse : Response :=
  (getProfileRoute profileRequest Sample.registered).1.

(** A request with a token that does not parse. *)
Definition forged : Request := mkRequest (Some "Bearer bad") ∅ None.

(** A body whose [firstName] is a number. *)
Definition badName : PlainObject := {["firstName" := JNum 5]}.

(** A session of calls: two registrations, one of them refused, logins
    right and wrong, an update of the e-mail to one that is taken and to
    one that is free, a password change, a deactivation. *)
Definition calls : list Call :=
  [CreateUser bee; CreateUser Sample.alice; CreateUser Sample.aliceAgain;
   LoginUser "a@x.com" "pw123456"; Clock 2000;
   LoginUser "a@x.com" "wrongpw12";
   UpdateUser 1 {["email" := JStr "b@x.com"]};
   UpdateUser 1 {["email" := JStr " Alice@X.com "]};
   GetUserById 1;
   ChangePassword 0 "pw123456" "newpw12345678";
   DeleteUser 0].
Definition afterCalls : World :=
  runCalls calls Sample.emptyWorld.
Definition lastStored : User :=
  default Sample.noUser (last (users afterCalls)).

End Cases.

(** * Properties *)

#[global] Arguments castUpdate : simpl never.
#[global] Arguments findByIdAndUpdate : simpl never.
#[global] Arguments joiValidate : simpl never.

(** Running a computation built with the monad's operations. *)
Ltac mstep :=
  unfold mbind, M_bind, Mbind, mret, M_ret, Mret, throw, get, modify, await,
    findOneByEmail, findOneByUsername, findOneByUsernameNot, findById, findBy
    in *;
  simpl in *.

Section Login.
Context `{StringPrototype, MongooseMessages, Config, BcryptJs, JsonWebToken, Joi}.

(** The two rejections of [loginUser] before any write. *)
Lemma loginUser_unknown e p w :
  find (byEmail e) (users w) = None ->
  loginUser e p w = (Throw (newAppError "Invalid email or password" 401), w).
Proof.
  intros Hf. unfold loginUser. mstep. now rewrite Hf.
Qed.

Lemma loginUser_wrong_password e p w u :
  find (byEmail e) (users w) = Some u ->
  comparePassword (hydrate u) p = Ok false ->
  loginUser e p w = (Throw (newAppError "Invalid email or password" 401), w).
Proof.
  intros Hf Hc. unfold loginUser. mstep. rewrite Hf. now rewrite Hc.
Qed.

Lemma loginUser_deactivated e p w u :
  find (byEmail e) (users w) = Some u ->
  comparePassword (hydrate u) p = Ok true ->
  isActive u = false ->
  loginUser e p w = (Throw (newAppError "Account is deactivated" 403), w).
Proof.
  intros Hf Hc Ha. unfold loginUser. mstep.
  rewrite Hf, Hc. simpl. now rewrite Ha.
Qed.

End Login.

(** ** The collection: look-ups and updates by [_id] *)

Section Collection.
Implicit Types (us : list User) (u : User) (f : User -> User) (i : nat).

Lemma find_byId_NoDup us u :
  NoDup (_id <$> us) -> u ∈ us -> find (byId (_id u)) us = Some u.
Proof.
  induction us as [|v r IH]; intros Hnd Hin.
  - inversion Hin.
  - simpl. apply NoDup_cons in Hnd as [Hv Hr]. unfold byId at 1.
    case_bool_decide as Hid.
    + apply elem_of_cons in Hin as [->|Hin]; [done|].
      exfalso. apply Hv. rewrite Hid. now apply list_elem_of_fmap_2.
    + apply elem_of_cons in Hin as [->|Hin]; [done|]. now apply IH.
Qed.

Lemma updateById_find i f us us' :
  (forall v, _id (f v) = _id v) ->
  updateById i f us = Some us' ->
  exists u, find (byId i) us = Some u /\ find (byId i) us' = Some (f u).
Proof.
  intros Hf. revert us'. induction us as [|v r IH]; intros us' Hu; [done|].
  simpl in *. destruct (byId i v) eqn:Hv.
  - injection Hu as <-. exists v. split; [done|]. simpl.
    unfold byId in *. rewrite Hf. now rewrite Hv.
  - destruct (updateById i f r) as [r'|] eqn:Hr; [|done].
    injection Hu as <-. destruct (IH r' eq_refl) as (u & Hu1 & Hu2).
    exists u. split; [done|]. simpl. now rewrite Hv.
Qed.

Lemma updateById_None i f us :
  find (byId i) us = None -> updateById i f us = None.
Proof.
  induction us as [|v r IH]; [done|]. simpl.
  destruct (byId i v); [done|]. intros Hn. now rewrite IH.
Qed.

Lemma updateById_Some i f us u :
  find (byId i) us = Some u -> exists us', updateById i f us = Some us'.
Proof.
  induction us as [|v r IH]; [done|]. simpl.
  destruct (byId i v); [eauto|]. intros Hn.
  destruct (IH Hn) as [r' ->]. eauto.
Qed.

(** An update that keeps a field of every user keeps the column. *)
Lemma updateById_fmap {A} (g : User -> A) i f us us' :
  (forall v, g (f v) = g v) ->
  updateById i f us = Some us' -> g <$> us' = g <$> us.
Proof.
  intros Hg. revert us'. induction us as [|v r IH]; intros us' Hu; [done|].
  simpl in *. destruct (byId i v).
  - injection Hu as <-. rewrite !fmap_cons. now rewrite Hg.
  - destruct (updateById i f r) as [r'|]; [|done].
    injection Hu as <-. rewrite !fmap_cons. now rewrite (IH r' eq_refl).
Qed.

Lemma updateById_app_fresh i f us u :
  (forall v, v ∈ us -> _id v <> i) -> _id u = i ->
  updateById i f (us ++ [u]) = Some (us ++ [f u]).
Proof.
  intros Hfresh Hu. induction us as [|v r IH]; simpl.
  - unfold byId. now rewrite bool_decide_eq_true_2.
  - unfold byId at 1. rewrite bool_decide_eq_false_2.
    + rewrite IH; [done|]. intros x Hx. apply Hfresh. now right.
    + apply Hfresh. now left.
Qed.

End Collection.

(** ** [save] and the pre-save hook *)

Section Saving.
Context `{StringPrototype, MongooseMessages, Config, BcryptJs, JsonWebToken}.

Lemma with_users_same w : with_users (users w) w = w.
Proof. now destruct w. Qed.

Lemma updateById_ext i f g us :
  (forall v, f v = g v) -> updateById i f us = updateById i g us.
Proof.
  intros E. induction us as [|v r IH]; [done|]. simpl.
  rewrite E, IH. done.
Qed.

Lemma preSave_unmodified d w :
  isModified "password" d = false -> preSave d w = (Ok d, w).
Proof. intros E. unfold preSave. now rewrite E. Qed.

Lemma preSave_modified d w :
  isModified "password" d = true ->
  preSave d w =
    (Ok (mkDocument
           (set_password
              (bcrypt_hash (password (fields d))
                 (bcrypt_genSalt bcrypt_saltRounds (entropy w)))
              (fields d))
           (isNew d) ("password" :: modifiedPaths d) (pushed d)),
     mkWorld (users w) (now w) (nextId w) (S (entropy w)) (S (hashCalls w))).
Proof.
  intros E. unfold preSave, genSalt, hash, assignPassword. rewrite E.
  simpl. mstep. now rewrite orb_true_r.
Qed.

(** Saving a loaded document whose password was not assigned: no hash is
    computed, and the stored user with that [_id] gets the changes. *)
Lemma save_loaded d w d' w' :
  isNew d = false -> isModified "password" d = false ->
  save d w = (Ok d', w') ->
  d' = hydrate (fields d) /\
  exists us, w' = with_users us w /\
    (modifiedPaths d = [] /\ us = users w \/
     modifiedPaths d <> [] /\
     updateById (_id (fields d)) (applyChanges d) (users w) = Some us).
Proof.
  intros Hn Hm. unfold save, validateDocument. mstep.
  destruct (validationErrors d); [|done]. simpl.
  rewrite (preSave_unmodified _ _ Hm). rewrite Hn. unfold updateOne.
  destruct (modifiedPaths d) eqn:Hp.
  - mstep. intros [= <- <-]. split; [done|]. exists (users w).
    rewrite with_users_same. auto.
  - mstep.
    destruct (updateById (_id (fields d)) (applyChanges d) (users w))
      as [us|] eqn:Hu; [|done].
    simpl. intros [= <- <-]. split; [done|]. exists us. auto.
Qed.

(** Saving a new document: exactly one hash, then the insertion. *)
Lemma save_new d w d' w' :
  isNew d = true -> isModified "password" d = true ->
  save d w = (Ok d', w') ->
  let u := set_password
             (bcrypt_hash (password (fields d))
                (bcrypt_genSalt bcrypt_saltRounds (entropy w)))
             (fields d) in
  d' = hydrate u /\ validationErrors d = [] /\
  duplicateKey u (users w) = None /\
  w' = mkWorld (users w ++ [u]) (now w) (nextId w) (S (entropy w))
               (S (hashCalls w)).
Proof.
  intros Hn Hm. unfold save, validateDocument. mstep.
  destruct (validationErrors d); [|done]. simpl.
  rewrite (preSave_modified _ _ Hm). simpl. rewrite Hn.
  unfold insertOne. mstep.
  match goal with |- context [duplicateKey ?u ?l] =>
    destruct (duplicateKey u l) eqn:Hd end; [done|].
  simpl. intros [= <- <-]. done.
Qed.

(** Saving a loaded document whose password was assigned: exactly one
    hash, and the stored user gets the hashed value. *)
Lemma save_password_changed d w d' w' :
  isNew d = false -> isModified "password" d = true ->
  save d w = (Ok d', w') ->
  let h := bcrypt_hash (password (fields d))
             (bcrypt_genSalt bcrypt_saltRounds (entropy w)) in
  exists us,
    updateById (_id (fields d))
      (applyChanges (mkDocument (set_password h (fields d)) false
                       ("password" :: modifiedPaths d) (pushed d)))
      (users w) = Some us /\
    w' = mkWorld us (now w) (nextId w) (S (entropy w)) (S (hashCalls w)).
Proof.
  intros Hn Hm. unfold save, validateDocument. mstep.
  destruct (validationErrors d); [|done]. simpl.
  rewrite (preSave_modified _ _ Hm). simpl. rewrite Hn.
  unfold updateOne. mstep.
  match goal with |- context [updateById ?i ?f ?l] =>
    destruct (updateById i f l) as [us|] eqn:Hu end; [|done].
  simpl. intros [= <- <-]. exists us. done.
Qed.

End Saving.

(** ** Token issuance, login and registration when they succeed *)

Section Issuing.
Context `{StringPrototype, MongooseMessages, Config, BcryptJs, JsonWebToken}.

Lemma applyChanges_id d v : _id (applyChanges d v) = _id v.
Proof. unfold applyChanges. now repeat case_match. Qed.

Lemma applyChanges_email d v : email (applyChanges d v) = email v.
Proof. unfold applyChanges. now repeat case_match. Qed.

Lemma applyChanges_password d v :
  isModified "password" d = false ->
  password (applyChanges d v) = password v.
Proof. intros E. unfold applyChanges. rewrite E. now repeat case_match. Qed.

Lemma applyChanges_refreshTokens d v :
  refreshTokens (applyChanges d v) = refreshTokens v ++ pushed d.
Proof. unfold applyChanges. now repeat case_match. Qed.

(** The refresh token that [generateTokens] signs for user [u] at time
    [t], as the element pushed on [refreshTokens]. *)
Lemma generateTokens_loaded u w d' toks w' :
  generateTokens (hydrate u) w = (Ok (d', toks), w') ->
  let payload := Claims.mkPayload (_id u) (email u) (role u) in
  let rt := mkRefreshToken
              (jwt_sign payload jwt_refreshSecret jwt_refreshExpiresIn (now w))
              (now w) in
  toks = mkTokens (jwt_sign payload jwt_secret jwt_expiresIn (now w)) (token rt)
  /\ d' = hydrate (set_refreshTokens (refreshTokens u ++ [rt]) u)
  /\ exists us,
       updateById (_id u)
         (fun v => set_refreshTokens (refreshTokens v ++ [rt]) v) (users w)
       = Some us
       /\ w' = with_users us w.
Proof.
  unfold generateTokens, jwtSign, pushRefreshToken. mstep.
  destruct (jwt_signError jwt_secret jwt_expiresIn); [done|].
  destruct (jwt_signError jwt_refreshSecret jwt_refreshExpiresIn); [done|].
  simpl.
  match goal with |- context [save ?d w] =>
    destruct (save d w) as [[d1|e] w1] eqn:Hs end; [|done].
  intros [= <- <- <-].
  apply save_loaded in Hs as (-> & us & -> & Hus); [|done..].
  simpl in Hus. destruct Hus as [[? _]|[_ Hus]]; [done|].
  split; [done|]. split; [done|]. exists us. split; [|done].
  rewrite <- Hus. apply updateById_ext. intros v. done.
Qed.

End Issuing.

Section LoginOk.
Context `{StringPrototype, MongooseMessages, Config, BcryptJs, JsonWebToken}.

Lemma assignLastLogin_fields t u :
  fields (assignLastLogin t (hydrate u)) = set_lastLogin (Some t) u.
Proof.
  unfold assignLastLogin. simpl. case_bool_decide as E; simpl; [|done].
  destruct u; simpl in *. now subst.
Qed.

Lemma assignLastLogin_clean t u :
  isNew (assignLastLogin t (hydrate u)) = false /\
  isModified "password" (assignLastLogin t (hydrate u)) = false /\
  pushed (assignLastLogin t (hydrate u)) = [].
Proof. unfold assignLastLogin. simpl. now case_bool_decide. Qed.

(** What a successful [loginUser] found, returned and wrote. *)
Lemma loginUser_Ok e p w s w' :
  loginUser e p w = (Ok s, w') ->
  exists u,
    find (byEmail e) (users w) = Some u /\
    comparePassword (hydrate u) p = Ok true /\
    isActive u = true /\
    let payload := Claims.mkPayload (_id u) (email u) (role u) in
    let rt := mkRefreshToken
                (jwt_sign payload jwt_refreshSecret jwt_refreshExpiresIn (now w))
                (now w) in
    s = mkSession
          (toObject (set_refreshTokens (refreshTokens u ++ [rt])
                       (set_lastLogin (Some (now w)) u)))
          (mkTokens (jwt_sign payload jwt_secret jwt_expiresIn (now w))
                    (token rt)) /\
    exists us1 us2,
      (us1 = users w \/
       exists d, isModified "password" d = false /\ pushed d = [] /\
                 updateById (_id u) (applyChanges d) (users w) = Some us1) /\
      updateById (_id u)
        (fun v => set_refreshTokens (refreshTokens v ++ [rt]) v) us1
      = Some us2 /\
      w' = with_users us2 w.
Proof.
  unfold loginUser. mstep.
  destruct (find (byEmail e) (users w)) as [u|] eqn:Hf; [|done].
  destruct (comparePassword (hydrate u) p) as [[|]|?] eqn:Hc; [|done..].
  simpl.
  destruct (isActive u) eqn:Ha; [|done]. simpl.
  destruct (assignLastLogin_clean (now w) u) as (Hn & Hm & Hp).
  destruct (save (assignLastLogin (now w) (hydrate u)) w)
    as [[d1|?] w1] eqn:Hs; [|done].
  apply save_loaded in Hs as (-> & us1 & -> & Hus1); [|done..].
  rewrite assignLastLogin_fields in *.
  match goal with |- context [generateTokens ?d ?x] =>
    destruct (generateTokens d x) as [[[d2 toks]|?] w2] eqn:Hg end; [|done].
  apply generateTokens_loaded in Hg as (-> & -> & us2 & Hus2 & ->).
  simpl in *. intros [= <- <-]. exists u. repeat (split; [done|]).
  exists us1, us2. split; [|done].
  destruct Hus1 as [[_ ->]|[_ Hus1]]; [now left|right].
  exists (assignLastLogin (now w) (hydrate u)). done.
Qed.

End LoginOk.

Section RegisterOk.
Context `{StringPrototype, MongooseMessages, Config, BcryptJs, JsonWebToken}.

(** The look-ups of [createUser] write nothing. *)
Lemma checkAvailable_world userData w :
  (checkAvailable userData w).2 = w.
Proof.
  unfold checkAvailable. mstep.
  destruct (find (byEmail (UserData.email userData)) (users w)); [done|].
  destruct (UserData.username userData) as [n|]; [|done].
  destruct (Js.truthy n); [|done].
  now destruct (find _ (users w)).
Qed.

Lemma checkAvailable_Ok userData w w' :
  checkAvailable userData w = (Ok tt, w') ->
  find (byEmail (UserData.email userData)) (users w) = None.
Proof.
  unfold checkAvailable. mstep.
  now destruct (find (byEmail (UserData.email userData)) (users w)).
Qed.

Lemma checkAvailable_taken userData w u :
  find (byEmail (UserData.email userData)) (users w) = Some u ->
  checkAvailable userData w =
    (Throw (newAppError "Email already registered" 409), w).
Proof. intros E. unfold checkAvailable. mstep. now rewrite E. Qed.

(** What a successful [persistUser] computed, returned and wrote. *)
Lemma persistUser_Ok userData w s w' :
  persistUser userData w = (Ok s, w') ->
  let h := bcrypt_hash (UserData.password userData)
             (bcrypt_genSalt bcrypt_saltRounds (entropy w)) in
  let u0 := mkUser (nextId w)
              (castEmail (UserData.email userData)) h
              (castName (UserData.firstName userData))
              (castName (UserData.lastName userData))
              (castUsername <$> UserData.username userData)
              (default "student" (UserData.role userData))
              true None [] defaultOthers in
  let payload := Claims.mkPayload (_id u0) (email u0) (role u0) in
  let rt := mkRefreshToken
              (jwt_sign payload jwt_refreshSecret jwt_refreshExpiresIn (now w))
              (now w) in
  duplicateKey u0 (users w) = None /\
  s = mkSession
        (delete "refreshTokens"
           (delete "password" (toObject (set_refreshTokens [rt] u0))))
        (mkTokens (jwt_sign payload jwt_secret jwt_expiresIn (now w))
                  (token rt)) /\
  exists us,
    updateById (nextId w)
      (fun v => set_refreshTokens (refreshTokens v ++ [rt]) v)
      (users w ++ [u0]) = Some us /\
    w' = mkWorld us (now w) (S (nextId w)) (S (entropy w)) (S (hashCalls w)).
Proof.
  unfold persistUser, newUser. mstep.
  match goal with |- context [save ?d ?x] =>
    destruct (save d x) as [[d1|?] w1] eqn:Hs end; [|done].
  apply save_new in Hs as (-> & _ & Hd & ->); [|done|].
  2:{ apply bool_decide_eq_true_2. simpl. set_solver. }
  simpl in *.
  match goal with |- context [generateTokens ?d ?x] =>
    destruct (generateTokens d x) as [[[d2 toks]|?] w2] eqn:Hg end; [|done].
  apply generateTokens_loaded in Hg as (-> & -> & us & Hus & ->).
  simpl in *. intros [= <- <-]. split; [done|]. split; [done|].
  exists us. done.
Qed.

End RegisterOk.

(** ** The claims about what [createUser] and [loginUser] return *)

Section Returned.
Context `{StringPrototype, MongooseMessages, Config, BcryptJs, JsonWebToken}.

Lemma createUser_Ok userData w s w' :
  createUser userData w = (Ok s, w') ->
  find (byEmail (UserData.email userData)) (users w) = None /\
  persistUser userData w = (Ok s, w').
Proof.
  unfold createUser. mstep.
  pose proof (checkAvailable_world userData w) as Hw.
  destruct (checkAvailable userData w) as [[[]|?] w1] eqn:Hc; [|done].
  simpl in Hw. subst w1. intros Hp. split; [|done].
  now apply checkAvailable_Ok in Hc.
Qed.

(** C1.  The user object that a successful [createUser] returns, and that
    the register controller sends, has neither a [password] nor a
    [refreshTokens] property.  The one that a successful [loginUser] returns,
    and that the login controller sends, has both: [password] holds the
    stored hash, and [refreshTokens] the stored list with the token just
    issued at its end. *)
Theorem C1_register_sanitized_login_not :
  (forall userData w s w',
      createUser userData w = (Ok s, w') ->
      register userData w = (mkResponse 201 (Success (DataSession s)), w') /\
      user s !! "password" = None /\ user s !! "refreshTokens" = None)
  /\
  (forall e p w s w',
      loginUser e p w = (Ok s, w') ->
      login e p w = (mkResponse 200 (Success (DataSession s)), w') /\
      exists u,
        find (byEmail e) (users w) = Some u /\
        user s !! "password" = Some (JStr (password u)) /\
        user s !! "refreshTokens" =
          Some (JArr (refreshTokenObject <$>
                        (refreshTokens u ++
                           [mkRefreshToken (refreshToken (tokens s)) (now w)])))).
Proof.
  split.
  - intros userData w s w' Hc. split.
    { unfold register, respond. mstep. now rewrite Hc. }
    apply createUser_Ok in Hc as [_ Hp].
    apply persistUser_Ok in Hp as (_ & -> & _). simpl. split.
    + rewrite lookup_delete_ne by done. apply lookup_delete_eq.
    + apply lookup_delete_eq.
  - intros e p w s w' Hl. split.
    { unfold login, respond. mstep. now rewrite Hl. }
    apply loginUser_Ok in Hl as (u & Hf & _ & _ & -> & _).
    exists u. split; [done|]. simpl. unfold toObject. simpl.
    split; now simplify_map_eq.
Qed.

End Returned.

Section LoginRejections.
Context `{StringPrototype, MongooseMessages, Config, BcryptJs, JsonWebToken}.

(** C4.  A login with an e-mail that no user has and a login with the
    e-mail of a user and a password that [comparePassword] rejects both
    throw [AppError('Invalid email or password', 401)], write nothing, and
    give the client the same response. *)
Theorem C4_login_same_rejection e1 p1 w1 e2 p2 w2 u :
  find (byEmail e1) (users w1) = None ->
  find (byEmail e2) (users w2) = Some u ->
  comparePassword (hydrate u) p2 = Ok false ->
  loginUser e1 p1 w1
    = (Throw (newAppError "Invalid email or password" 401), w1) /\
  loginUser e2 p2 w2
    = (Throw (newAppError "Invalid email or password" 401), w2) /\
  (login e1 p1 w1).1 = mkResponse 401 (Failure "Invalid email or password" None) /\
  (login e2 p2 w2).1 = (login e1 p1 w1).1.
Proof.
  intros Hnone Hsome Hc.
  pose proof (loginUser_unknown e1 p1 w1 Hnone) as E1.
  pose proof (loginUser_wrong_password e2 p2 w2 u Hsome Hc) as E2.
  unfold login, respond. mstep. rewrite E1, E2. done.
Qed.

(** C6.  For the e-mail of a user whose [isActive] is false, [loginUser]
    throws [AppError('Account is deactivated', 403)] when the password is
    accepted, and [AppError('Invalid email or password', 401)] when it is
    not: the password is compared first.  Nothing is written. *)
Theorem C6_deactivated_after_password e p w u :
  find (byEmail e) (users w) = Some u ->
  isActive u = false ->
  (comparePassword (hydrate u) p = Ok true ->
   loginUser e p w = (Throw (newAppError "Account is deactivated" 403), w) /\
   (login e p w).1 = mkResponse 403 (Failure "Account is deactivated" None)) /\
  (comparePassword (hydrate u) p = Ok false ->
   loginUser e p w = (Throw (newAppError "Invalid email or password" 401), w) /\
   (login e p w).1 = mkResponse 401 (Failure "Invalid email or password" None)).
Proof.
  intros Hf Ha. split; intros Hc.
  - pose proof (loginUser_deactivated e p w u Hf Hc Ha) as E.
    unfold login, respond. mstep. now rewrite E.
  - pose proof (loginUser_wrong_password e p w u Hf Hc) as E.
    unfold login, respond. mstep. now rewrite E.
Qed.

End LoginRejections.

(** ** The refresh token is recorded before it is returned *)

Section Recorded.
Context `{StringPrototype, MongooseMessages, Config, BcryptJs, JsonWebToken}.

Lemma find_elem_of (p : User -> bool) us u :
  find p us = Some u -> u ∈ us.
Proof. intros E. apply find_some in E as [E _]. now apply list_elem_of_In. Qed.

(** The user that a successful [createUser] leaves in the collection. *)
Lemma createUser_stored userData w s w' :
  WorldOk w ->
  createUser userData w = (Ok s, w') ->
  exists u',
    users w' = users w ++ [u'] /\
    _id u' = nextId w /\
    refreshTokens u' = [mkRefreshToken (refreshToken (tokens s)) (now w)].
Proof.
  intros [_ Hfresh] Hc.
  apply createUser_Ok in Hc as [_ Hp].
  apply persistUser_Ok in Hp as (_ & -> & us & Hus & ->).
  rewrite updateById_app_fresh in Hus.
  + injection Hus as <-. simpl. eexists. split; [done|]. done.
  + intros v Hv. apply Hfresh in Hv. lia.
  + done.
Qed.

(** C3.  In the world that a successful [loginUser] or [createUser] hands
    back together with the tokens, the stored user's [refreshTokens] is
    what it was before followed by one entry that holds the returned
    refresh token: one entry more per login, and exactly that entry for a
    new user. *)
Theorem C3_refresh_token_recorded :
  (forall e p w s w',
      WorldOk w ->
      loginUser e p w = (Ok s, w') ->
      exists u u',
        find (byEmail e) (users w) = Some u /\
        find (byId (_id u)) (users w') = Some u' /\
        refreshTokens u' =
          refreshTokens u ++ [mkRefreshToken (refreshToken (tokens s)) (now w)] /\
        length (refreshTokens u') = S (length (refreshTokens u)))
  /\
  (forall userData w s w',
      WorldOk w ->
      createUser userData w = (Ok s, w') ->
      exists u',
        users w' = users w ++ [u'] /\
        _id u' = nextId w /\
        refreshTokens u' = [mkRefreshToken (refreshToken (tokens s)) (now w)]).
Proof.
  split.
  - intros e p w s w' [Hnd _] Hl.
    apply loginUser_Ok in Hl
      as (u & Hf & _ & _ & -> & us1 & us2 & Hus1 & Hus2 & ->).
    pose proof (find_byId_NoDup _ _ Hnd (find_elem_of _ _ _ Hf)) as Hu.
    simpl. exists u.
    assert (exists v, find (byId (_id u)) us1 = Some v /\
                      refreshTokens v = refreshTokens u) as (v & Hv & Hr).
    { destruct Hus1 as [->|(d & Hm & Hp & Hd)]; [eauto|].
      apply updateById_find in Hd as (x & Hx & Hx'); [|apply applyChanges_id].
      rewrite Hu in Hx. injection Hx as <-.
      eexists. split; [done|].
      rewrite applyChanges_refreshTokens, Hp. apply app_nil_r. }
    apply updateById_find in Hus2 as (x & Hx & Hx'); [|done].
    rewrite Hv in Hx. injection Hx as <-.
    eexists. split; [done|]. split; [done|]. simpl. rewrite Hr.
    split; [done|]. rewrite length_app. simpl. lia.
  - intros userData w s w' Hok Hc.
    now apply (createUser_stored userData w s w').
Qed.

End Recorded.

(** ** One hash per change of the password *)

Section Hashing.
Context `{StringPrototype, MongooseMessages, Config, BcryptJs, JsonWebToken}.

Lemma applyChanges_password_set d v :
  isModified "password" d = true ->
  password (applyChanges d v) = password (fields d).
Proof. intros E. unfold applyChanges. rewrite E. now repeat case_match. Qed.

(** What a successful [changePassword] did: nothing when the new password
    is the very string that is stored; otherwise one hash, written to the
    user with that [_id]. *)
Lemma changePassword_Ok userId cur new w r w' :
  changePassword userId cur new w = (Ok r, w') ->
  exists u,
    find (byId userId) (users w) = Some u /\
    comparePassword (hydrate u) cur = Ok true /\
    (new = password u /\ w' = w \/
     new <> password u /\
     exists f us,
       (forall v, _id (f v) = _id v) /\
       (forall v, password (f v) =
                  bcrypt_hash new
                    (bcrypt_genSalt bcrypt_saltRounds (entropy w))) /\
       updateById userId f (users w) = Some us /\
       w' = mkWorld us (now w) (nextId w) (S (entropy w)) (S (hashCalls w))).
Proof.
  unfold changePassword. mstep.
  destruct (find (byId userId) (users w)) as [u|] eqn:Hf; [|done].
  destruct (comparePassword (hydrate u) cur) as [[|]|?] eqn:Hc; [|done..].
  simpl.
  assert (_id u = userId) as Hid.
  { apply find_some in Hf as [_ Hb]. unfold byId in Hb.
    now apply bool_decide_eq_true_1 in Hb. }
  unfold assignPassword. simpl. case_bool_decide as Hnew; simpl.
  - destruct (save (hydrate u) w) as [[d1|?] w1] eqn:Hs; [|done].
    apply save_loaded in Hs as (_ & us & -> & Hus); [|done..].
    intros [= <- <-]. exists u. repeat (split; [done|]). left.
    split; [done|]. destruct Hus as [[_ ->]|[Hne _]]; [|done].
    apply with_users_same.
  - match goal with |- context [save ?d w] =>
      destruct (save d w) as [[d1|?] w1] eqn:Hs end; [|done].
    apply save_password_changed in Hs as (us & Hus & ->); [|done..].
    intros [= <- <-]. exists u. repeat (split; [done|]). right.
    split; [done|]. simpl in Hus. rewrite Hid in Hus.
    eexists _, us. split; [|split; [|split; [exact Hus|done]]].
    + intros v. apply applyChanges_id.
    + intros v. now rewrite applyChanges_password_set.
Qed.

End Hashing.

Section HashOnce.
Context `{StringPrototype, MongooseMessages, Config, BcryptJs, JsonWebToken}.

(** C9.  A successful [createUser] calls [bcrypt.hash] exactly once, though
    it saves the document twice.  A successful [loginUser], which saves
    twice, calls it not at all and leaves every stored [password] as it
    was.  A successful [changePassword] calls it exactly once when the new
    password differs from the string stored in [password]; when the two
    are the same string it takes no hash and leaves the world as it was,
    where the claim and the documentation of [changePassword] have the new
    password hashed. *)
Theorem C9_one_hash_per_change :
  (forall userData w s w',
      createUser userData w = (Ok s, w') ->
      hashCalls w' = S (hashCalls w))
  /\
  (forall userId cur new w r w',
      changePassword userId cur new w = (Ok r, w') ->
      exists u,
        find (byId userId) (users w) = Some u /\
        (new <> password u -> hashCalls w' = S (hashCalls w)) /\
        (new = password u -> w' = w))
  /\
  (forall e p w s w',
      loginUser e p w = (Ok s, w') ->
      hashCalls w' = hashCalls w /\
      password <$> users w' = password <$> users w).
Proof.
  split; [|split].
  - intros userData w s w' Hc.
    apply createUser_Ok in Hc as [_ Hp].
    now apply persistUser_Ok in Hp as (_ & _ & us & _ & ->).
  - intros userId cur new w r w' Hc.
    apply changePassword_Ok in Hc as (u & Hf & _ & Hcase).
    exists u. split; [done|].
    destruct Hcase as [[-> ->]|(Hne & f & us & _ & _ & _ & ->)];
      split; try done.
  - intros e p w s w' Hl.
    apply loginUser_Ok in Hl
      as (u & _ & _ & _ & _ & us1 & us2 & Hus1 & Hus2 & ->).
    simpl. split; [done|].
    apply (updateById_fmap password) in Hus2; [|done].
    rewrite Hus2.
    destruct Hus1 as [->|(d & Hm & _ & Hd)]; [done|].
    apply (updateById_fmap password) in Hd; [done|].
    intros v. now apply applyChanges_password.
Qed.

End HashOnce.

(** ** What [comparePassword] accepts *)

Section Comparing.
Context `{StringPrototype, MongooseMessages, Config, BcryptJs, JsonWebToken} `{!BcryptSpec}.

(** Against a hash made from [q], [comparePassword] does not reject: it
    resolves to whether the candidate hashes to the same string. *)
Lemma comparePassword_hash u p q rounds n :
  password u = bcrypt_hash q (bcrypt_genSalt rounds n) ->
  comparePassword (hydrate u) p
  = Ok (bool_decide (bcrypt_hash p (bcrypt_genSalt rounds n)
                     = bcrypt_hash q (bcrypt_genSalt rounds n))).
Proof.
  intros E. unfold comparePassword. simpl. rewrite E.
  apply bcrypt_compare_hash.
Qed.

(** Two passwords with the same key are not told apart. *)
Lemma comparePassword_same_key u p q rounds n :
  password u = bcrypt_hash q (bcrypt_genSalt rounds n) ->
  bcryptKey p = bcryptKey q ->
  comparePassword (hydrate u) p = Ok true.
Proof.
  intros E K. rewrite (comparePassword_hash _ _ _ _ _ E).
  now rewrite (bcrypt_hash_key _ _ _ _ K), bool_decide_eq_true_2.
Qed.

(** C2 (amended).  For the user that a successful [createUser] stored, and
    for the user whose password a successful [changePassword] replaced by
    a string other than the stored one, [comparePassword] does not reject:
    it resolves to whether the candidate hashes, with the salt drawn for
    the stored hash, to the same string as the password given.  It
    resolves to [true] for every candidate with the bcrypt key of that
    password: the string followed by a NUL, repeated, cut at 72 bytes.
    Equal strings have equal keys; so do strings that agree on their first
    72 bytes, and a short string and its repetitions around the NUL. *)
Theorem C2_comparePassword_same_key :
  (forall userData w s w' p,
      WorldOk w ->
      createUser userData w = (Ok s, w') ->
      let salt := bcrypt_genSalt bcrypt_saltRounds (entropy w) in
      exists u,
        users w' = users w ++ [u] /\
        comparePassword (hydrate u) p
        = Ok (bool_decide
                (bcrypt_hash p salt
                 = bcrypt_hash (UserData.password userData) salt)) /\
        (bcryptKey p = bcryptKey (UserData.password userData) ->
         comparePassword (hydrate u) p = Ok true))
  /\
  (forall userId cur new w r w' u0 p,
      changePassword userId cur new w = (Ok r, w') ->
      find (byId userId) (users w) = Some u0 ->
      new <> password u0 ->
      let salt := bcrypt_genSalt bcrypt_saltRounds (entropy w) in
      exists u,
        find (byId userId) (users w') = Some u /\
        comparePassword (hydrate u) p
        = Ok (bool_decide (bcrypt_hash p salt = bcrypt_hash new salt)) /\
        (bcryptKey p = bcryptKey new ->
         comparePassword (hydrate u) p = Ok true)).
Proof.
  split.
  - intros userData w s w' p [_ Hfresh] Hc salt.
    apply createUser_Ok in Hc as [_ Hp].
    apply persistUser_Ok in Hp as (_ & _ & us & Hus & ->).
    rewrite updateById_app_fresh in Hus; [|intros v Hv| done].
    + injection Hus as <-. simpl. eexists. split; [done|]. split.
      * now apply comparePassword_hash.
      * intros K. eapply comparePassword_same_key; [reflexivity|exact K].
    + apply Hfresh in Hv. lia.
  - intros userId cur new w r w' u0 p Hc Hf Hne salt.
    apply changePassword_Ok in Hc as (u & Hu & _ & Hcase).
    rewrite Hf in Hu. injection Hu as <-.
    destruct Hcase as [[? _]|(_ & f & us & Hid & Hpw & Hus & ->)]; [done|].
    apply updateById_find in Hus as (x & Hx & Hx'); [|done].
    simpl. eexists. split; [done|]. split.
    + apply comparePassword_hash. apply Hpw.
    + intros K. eapply comparePassword_same_key; [apply Hpw|exact K].
Qed.

End Comparing.

(** ** Registering an e-mail twice *)

Section Duplicates.
Context `{StringPrototype, MongooseMessages, Config, BcryptJs, JsonWebToken}.

Lemma find_byEmail_column us e :
  castEmail e ∈ email <$> us -> is_Some (find (byEmail e) us).
Proof.
  induction us as [|v r IH].
  - now intros ?%elem_of_nil.
  - rewrite fmap_cons. intros [E|Hin]%elem_of_cons; simpl;
      unfold byEmail at 1.
    + rewrite bool_decide_eq_true_2; [eauto|done].
    + case_bool_decide; [eauto|]. now apply IH.
Qed.

Lemma duplicateKey_email u us v :
  v ∈ us -> email v = email u -> duplicateKey u us = Some "email".
Proof.
  intros Hin E. unfold duplicateKey.
  assert (existsb (fun v0 => bool_decide (email v0 = email u)) us = true) as ->;
    [|done].
  apply existsb_exists. exists v. split; [now apply list_elem_of_In|].
  now apply bool_decide_eq_true_2.
Qed.

(** The insertion of a new document that passes validation into a
    collection that holds its e-mail already. *)
Lemma save_new_duplicate d w field :
  isNew d = true -> isModified "password" d = true ->
  validationErrors d = [] ->
  duplicateKey
    (set_password
       (bcrypt_hash (password (fields d))
          (bcrypt_genSalt bcrypt_saltRounds (entropy w)))
       (fields d))
    (users w) = Some field ->
  exists w', save d w = (Throw (MongoServerError 11000%Z [field]), w') /\
             users w' = users w.
Proof.
  intros Hn Hm Hv Hd. unfold save, validateDocument. mstep. rewrite Hv.
  simpl. rewrite (preSave_modified _ _ Hm). simpl. rewrite Hn.
  unfold insertOne. mstep. rewrite Hd. eauto.
Qed.

(** C5.  [createUser] with an e-mail that a stored user has throws
    [AppError('Email already registered', 409)] whatever the other fields
    are, the user name included, and the client gets status 409; so the
    second of two registrations with one e-mail is refused.  When the
    e-mail gets stored between the look-ups and the write, the write of a
    valid document throws the duplicate-key error on [email], which the
    error handler turns into status 409 as well. *)
Theorem C5_duplicate_email_conflict :
  (forall userData w u,
      find (byEmail (UserData.email userData)) (users w) = Some u ->
      createUser userData w
        = (Throw (newAppError "Email already registered" 409), w) /\
      register userData w
        = (mkResponse 409 (Failure "Email already registered" None), w))
  /\
  (forall first second w s w1,
      createUser first w = (Ok s, w1) ->
      UserData.email second = UserData.email first ->
      register second w1
        = (mkResponse 409 (Failure "Email already registered" None), w1))
  /\
  (forall userData w d w1 v,
      newUser userData w = (Ok d, w1) ->
      validationErrors d = [] ->
      v ∈ users w ->
      email v = castEmail (UserData.email userData) ->
      exists w',
        persistUser userData w
          = (Throw (MongoServerError 11000%Z ["email"]), w') /\
        users w' = users w /\
        (respond (s ← persistUser userData;
                  mret (mkResponse 201 (Success (DataSession s)))) w).1
          = mkResponse 409 (Failure "email already exists" None)).
Proof.
  assert (forall userData w u,
      find (byEmail (UserData.email userData)) (users w) = Some u ->
      createUser userData w
        = (Throw (newAppError "Email already registered" 409), w) /\
      register userData w
        = (mkResponse 409 (Failure "Email already registered" None), w))
    as Hpre.
  { intros userData w u Hf.
    assert (createUser userData w
            = (Throw (newAppError "Email already registered" 409), w)) as E.
    { unfold createUser. mstep.
      now rewrite (checkAvailable_taken _ _ _ Hf). }
    split; [done|]. unfold register, respond. mstep. now rewrite E. }
  split; [exact Hpre|split].
  - intros first second w s w1 Hc He.
    apply createUser_Ok in Hc as [_ Hp].
    apply persistUser_Ok in Hp as (_ & _ & us & Hus & ->).
    apply (updateById_fmap email) in Hus; [|done].
    destruct (find_byEmail_column us (UserData.email second)) as [u Hu].
    { rewrite Hus, fmap_app, He. apply elem_of_app. right. simpl. now left. }
    now apply (Hpre second _ u).
  - intros userData w d w1 v Hnew Hv Hin He.
    unfold newUser in Hnew. mstep. injection Hnew as <- <-.
    destruct (save_new_duplicate
                (mkDocument
                   (mkUser (nextId w)
                      (castEmail (UserData.email userData))
                      (UserData.password userData)
                      (castName (UserData.firstName userData))
                      (castName (UserData.lastName userData))
                      (castUsername <$> UserData.username userData)
                      (default "student" (UserData.role userData))
                      true None [] defaultOthers)
                   true
                   (["email"; "password"; "firstName"; "lastName"]
                      ++ match UserData.username userData with
                         | Some _ => ["username"] | None => [] end
                      ++ match UserData.role userData with
                         | Some _ => ["role"] | None => [] end)
                   [])
                (mkWorld (users w) (now w) (S (nextId w)) (entropy w)
                   (hashCalls w))
                "email") as (w' & Hs & Hw');
      [ done
      | apply bool_decide_eq_true_2, elem_of_app; left;
        apply list_elem_of_In; simpl; auto
      | exact Hv
      | simpl; now apply (duplicateKey_email _ _ v)
      | ].
    assert (persistUser userData w
            = (Throw (MongoServerError 11000%Z ["email"]), w')) as Hp.
    { unfold persistUser, newUser. mstep. now rewrite Hs. }
    exists w'. split; [done|]. split; [done|].
    unfold respond. mstep. now rewrite Hp.
Qed.

End Duplicates.

(** ** Verifying an access token *)

Section Verifying.
Context `{StringPrototype, MongooseMessages, Config, BcryptJs, JsonWebToken}.

Lemma verifyToken_run token w :
  verifyToken token w =
    match jwt_verify token jwt_secret (now w) with
    | inl decoded => (Ok decoded, w)
    | inr _ => (Throw (newAppError "Invalid or expired token" 401), w)
    end.
Proof.
  unfold verifyToken, tryCatch, jwtVerify. mstep.
  now destruct (jwt_verify _ _ _).
Qed.



Lemma findByIdAndUpdate_now userId updateData rv w :
  now (findByIdAndUpdate userId updateData rv w).2 = now w.
Proof.
  unfold findByIdAndUpdate, mbind, M_bind, Mbind, get.
  destruct (castUpdate (now w) updateData schemaPaths) as [[msgs f]|e];
    [|done].
  destruct (if rv then msgs else []); [|done].
  destruct (find (byId userId) (users w)); [|done].
  destruct (duplicateKeyOnUpdate _ _ _); [done|].
  now destruct (updateById userId f (users w)).
Qed.

End Verifying.

Section VerifyingFrame.
Context `{StringPrototype, MongooseMessages, Config, BcryptJs, JsonWebToken, Joi}.

(** C8.  The outcome of [verifyToken], and of [authenticate], is the same
    in any two worlds with the same clock, whatever their users
    collections are, and neither writes to the world; so a token verifies
    after [deleteUser] deactivated its account as it did before. *)
Theorem C8_verify_ignores_store :
  (forall token w1 w2,
      now w1 = now w2 ->
      (verifyToken token w1).1 = (verifyToken token w2).1 /\
      (verifyToken token w1).2 = w1)
  /\
  (forall req w1 w2,
      now w1 = now w2 ->
      (authenticate req w1).1 = (authenticate req w2).1 /\
      (authenticate req w1).2 = w1)
  /\
  (forall token userId w u w',
      deleteUser userId w = (Ok u, w') ->
      (verifyToken token w').1 = (verifyToken token w).1).
Proof.
  assert (forall token w1 w2,
      now w1 = now w2 ->
      (verifyToken token w1).1 = (verifyToken token w2).1 /\
      (verifyToken token w1).2 = w1) as Hv.
  { intros token w1 w2 E. rewrite !verifyToken_run, E.
    now destruct (jwt_verify token jwt_secret (now w2)). }
  split; [exact Hv|split].
  - intros req w1 w2 E. unfold authenticate.
    destruct (authorization req) as [h|]; [|done].
    destruct (Js.truthy h && Js.startsWith "Bearer " h); [|done].
    mstep. rewrite !verifyToken_run, E.
    now destruct (jwt_verify _ jwt_secret (now w2)).
  - intros token userId w u w' Hd. apply Hv.
    pose proof (findByIdAndUpdate_now userId {["isActive" := JBool false]}
                  false w) as Hn.
    unfold deleteUser in Hd. mstep.
    destruct (findByIdAndUpdate userId {["isActive" := JBool false]} false w)
      as [[[x|]|?] w1]; try done.
    injection Hd as <- <-. done.
Qed.

End VerifyingFrame.

(** ** Updating the profile *)

Section Profile.
Context `{StringPrototype, MongooseMessages, Config, BcryptJs, JsonWebToken, Joi}.

Lemma castUpdate_role t :
  castUpdate t {["role" := JStr "admin"]} schemaPaths
  = Ok ([], fun u => set_role "admin" u).
Proof. vm_compute. reflexivity. Qed.

Lemma joiValidate_role :
  joiValidate "updateProfile" updateProfileKeys {["role" := JStr "admin"]}
  = mkValidationResult None ∅.
Proof. vm_compute. reflexivity. Qed.

Lemma duplicateKeyOnUpdate_role u us :
  duplicateKeyOnUpdate u (set_role "admin" u) us = None.
Proof.
  unfold duplicateKeyOnUpdate. simpl.
  rewrite bool_decide_eq_true_2 by done. simpl.
  destruct (username u); [|done].
  now rewrite bool_decide_eq_true_2 by done.
Qed.

Lemma updateUser_role userId w u :
  find (byId userId) (users w) = Some u ->
  exists us,
    updateById userId (set_role "admin") (users w) = Some us /\
    updateUser userId {["role" := JStr "admin"]} w
    = (Ok (set_role "admin" u), with_users us w).
Proof.
  intros Hf. destruct (updateById_Some userId (set_role "admin") _ _ Hf)
    as [us Hus].
  exists us. split; [done|].
  unfold updateUser.
  replace ({["role" := JStr "admin"]} !! "username") with (@None JVal)
    by (vm_compute; reflexivity).
  unfold findByIdAndUpdate, mbind, M_bind, Mbind, mret, M_ret, Mret, get,
    modify. simpl.
  rewrite castUpdate_role, Hf, duplicateKeyOnUpdate_role.
  replace (updateById userId (fun u0 => set_role "admin" u0) (users w))
    with (Some us). done.
Qed.

(** Validation hands on the request it was given, unknown members of the
    body included. *)
Lemma validateUpdateProfile_keeps req w r w' :
  validateUpdateProfile req w = (Ok r, w') -> r = req /\ w' = w.
Proof.
  unfold validateUpdateProfile.
  destruct (error (joiValidate "updateProfile" updateProfileKeys (body req)));
    [done|].
  now intros [= <- <-].
Qed.

Lemma authenticate_bearer token b w decoded :
  jwt_verify token jwt_secret (now w) = inl decoded ->
  authenticate (mkRequest (Some ("Bearer " +:+ token)) b None) w
  = (Ok (mkRequest (Some ("Bearer " +:+ token)) b (Some decoded)), w).
Proof.
  intros E. unfold authenticate. cbn [authorization body].
  change (Js.truthy ("Bearer " +:+ token)
          && Js.startsWith "Bearer " ("Bearer " +:+ token)) with true.
  change (Js.substringFrom 7 ("Bearer " +:+ token)) with token.
  cbv iota. unfold mbind, M_bind, Mbind, mret, M_ret, Mret.
  rewrite verifyToken_run, E. done.
Qed.

(** C10 (the update that goes through).  For a request to
    [PUT /api/users/profile] whose bearer token verifies and whose body is
    [{ "role": "admin" }], validation passes, [req.body] reaches
    [updateUser] as it came, and the stored user named by the token has the
    role [admin] afterwards; the value that [schema.validate] stripped,
    the empty object, is not used. *)
Theorem C10_profile_update_sets_role token w decoded u :
  jwt_verify token jwt_secret (now w) = inl decoded ->
  find (byId (Claims.id (Claims.claims decoded))) (users w) = Some u ->
  let req := mkRequest (Some ("Bearer " +:+ token))
                       {["role" := JStr "admin"]} None in
  value (joiValidate "updateProfile" updateProfileKeys (body req)) = ∅ /\
  exists us,
    putProfile req w
      = (mkResponse 200 (Success (DataUser (toJSON (set_role "admin" u)))),
         with_users us w) /\
    find (byId (Claims.id (Claims.claims decoded))) us
      = Some (set_role "admin" u).
Proof.
  intros Hv Hf req. split.
  { exact (f_equal value joiValidate_role). }
  destruct (updateUser_role _ _ _ Hf) as (us & Hus & Hu).
  exists us. split.
  - unfold putProfile, respond, req.
    unfold mbind at 1 2. unfold M_bind, Mbind.
    rewrite (authenticate_bearer _ _ _ _ Hv).
    unfold validateUpdateProfile, updateProfile. cbn [body reqUser].
    rewrite joiValidate_role. cbn [error].
    unfold mret, M_ret, Mret, mbind, M_bind, Mbind. cbn [body reqUser].
    now rewrite Hu.
  - apply updateById_find in Hus as (x & Hx & Hx'); [|done].
    rewrite Hf in Hx. now injection Hx as <-.
Qed.

End Profile.

(** ** The invariant of the collection *)

Section Invariant.
Context `{StringPrototype, MongooseMessages, Config, BcryptJs, JsonWebToken}.

Lemma WorldOk_empty t i e h : WorldOk (mkWorld [] t i e h).
Proof. split; [constructor|]. simpl. now intros u ?%elem_of_nil. Qed.

(** Registration keeps the identifiers distinct and the supply fresh. *)
Lemma createUser_WorldOk userData w s w' :
  WorldOk w -> createUser userData w = (Ok s, w') -> WorldOk w'.
Proof.
  intros Hok Hc.
  destruct (createUser_stored userData w s w' Hok Hc)
    as (u' & Hus & Hid & _).
  destruct Hok as [Hnd Hfresh].
  apply createUser_Ok in Hc as [_ Hp].
  apply persistUser_Ok in Hp as (_ & _ & us & _ & ->).
  simpl in *. subst us. split; simpl.
  - rewrite fmap_app. apply NoDup_app. split; [done|]. split.
    + intros i Hi Hi'. apply list_elem_of_fmap in Hi as (v & -> & Hv).
      apply Hfresh in Hv. simpl in Hi'. apply list_elem_of_singleton in Hi'.
      lia.
    + apply NoDup_singleton.
  - intros v [Hv| ->%list_elem_of_singleton]%elem_of_app.
    + apply Hfresh in Hv. lia.
    + lia.
Qed.

Lemma WorldOk_ids w w' :
  _id <$> users w' = _id <$> users w -> nextId w <= nextId w' ->
  WorldOk w -> WorldOk w'.
Proof.
  intros E Hn [Hnd Hfresh]. split; [now rewrite E|].
  intros u Hu. apply (list_elem_of_fmap_2 _id) in Hu. rewrite E in Hu.
  apply list_elem_of_fmap in Hu as (v & -> & Hv). apply Hfresh in Hv. lia.
Qed.

Lemma loginUser_WorldOk e p w s w' :
  WorldOk w -> loginUser e p w = (Ok s, w') -> WorldOk w'.
Proof.
  intros Hok Hl.
  apply loginUser_Ok in Hl
    as (u & _ & _ & _ & _ & us1 & us2 & Hus1 & Hus2 & ->).
  apply (WorldOk_ids w); [|done|done]. simpl.
  apply (updateById_fmap _id) in Hus2; [|done]. rewrite Hus2.
  destruct Hus1 as [->|(d & _ & _ & Hd)]; [done|].
  apply (updateById_fmap _id) in Hd; [done|]. apply applyChanges_id.
Qed.

Lemma changePassword_WorldOk userId cur new w r w' :
  WorldOk w -> changePassword userId cur new w = (Ok r, w') -> WorldOk w'.
Proof.
  intros Hok Hc.
  apply changePassword_Ok in Hc as (u & _ & _ & Hcase).
  destruct Hcase as [[_ ->]|(_ & f & us & Hid & _ & Hus & ->)]; [done|].
  apply (WorldOk_ids w); [|done|done]. simpl.
  now apply (updateById_fmap _id) in Hus.
Qed.

Lemma castPath_id t path v m g u :
  castPath t path v = Ok (Some (m, g)) -> _id (g u) = _id u.
Proof.
  unfold castPath. repeat case_match; intros ?; simplify_eq; try done.
Qed.

Lemma castUpdate_cons t updateData path rest :
  castUpdate t updateData (path :: rest) =
    match castUpdate t updateData rest with
    | Throw e => Throw e
    | Ok (msgs, f) =>
        match updateData !! path with
        | None => Ok (msgs, f)
        | Some v =>
            match castPath t path v with
            | Throw e => Throw e
            | Ok None => Ok (msgs, f)
            | Ok (Some (m, g)) => Ok (m ++ msgs, fun u => g (f u))
            end
        end
    end.
Proof. reflexivity. Qed.

Lemma castUpdate_id t updateData paths msgs f u :
  castUpdate t updateData paths = Ok (msgs, f) -> _id (f u) = _id u.
Proof.
  revert msgs f. induction paths as [|path rest IH]; intros msgs f.
  - now intros [= <- <-].
  - rewrite castUpdate_cons.
    destruct (castUpdate t updateData rest) as [[m0 f0]|?]; [|done].
    destruct (updateData !! path) as [v|];
      [|intros [= <- <-]; now apply (IH m0)].
    destruct (castPath t path v) as [[[m g]|]|?] eqn:Hc; [| |done].
    + intros [= <- <-]. rewrite (castPath_id _ _ _ _ _ _ Hc).
      now apply (IH m0).
    + intros [= <- <-]. now apply (IH m0).
Qed.

(** Neither does an update through [findByIdAndUpdate] touch them. *)
Lemma findByIdAndUpdate_WorldOk userId updateData rv w r w' :
  WorldOk w -> findByIdAndUpdate userId updateData rv w = (Ok r, w') ->
  WorldOk w'.
Proof.
  intros Hok. unfold findByIdAndUpdate, mbind, M_bind, Mbind, mret, M_ret,
    Mret, get, modify, throw.
  destruct (castUpdate (now w) updateData schemaPaths) as [[msgs f]|?] eqn:Hc;
    [|done].
  destruct (if rv then msgs else []); [|done].
  destruct (find (byId userId) (users w)); [|now intros [= <- <-]].
  destruct (duplicateKeyOnUpdate _ _ _); [done|].
  destruct (updateById userId f (users w)) as [us|] eqn:Hu;
    [|now intros [= <- <-]].
  intros [= <- <-]. apply (WorldOk_ids w); [|done|done]. simpl.
  apply (updateById_fmap _id) in Hu; [done|].
  intros v. now apply (castUpdate_id _ _ _ _ _ _ Hc).
Qed.

End Invariant.

(** * Further properties of the service *)

(** ** Exact frames: what an operation writes, and what it leaves *)

Section Frames.
Context `{StringPrototype, MongooseMessages, Config, BcryptJs, JsonWebToken}.

(** In a collection with distinct identifiers, an update by [_id] changes
    the user with that identifier and no other. *)
Lemma updateById_map i f us us' :
  NoDup (_id <$> us) ->
  updateById i f us = Some us' ->
  us' = (fun v => if byId i v then f v else v) <$> us.
Proof.
  revert us'. induction us as [|v r IH]; intros us' Hnd Hu; [done|].
  rewrite fmap_cons in Hnd. apply NoDup_cons in Hnd as [Hv Hr].
  simpl in Hu. rewrite fmap_cons. destruct (byId i v) eqn:Hb.
  - injection Hu as <-. f_equal.
    clear IH. induction r as [|x r IH]; [done|].
    rewrite fmap_cons. rewrite fmap_cons in Hv, Hr.
    apply NoDup_cons in Hr as [_ Hr].
    apply not_elem_of_cons in Hv as [Hx Hv].
    unfold byId in Hb. apply bool_decide_eq_true_1 in Hb.
    unfold byId at 1. rewrite bool_decide_eq_false_2 by congruence.
    f_equal. apply IH; [done|done].
  - destruct (updateById i f r) as [r'|] eqn:Hr'; [|done].
    injection Hu as <-. f_equal. now apply IH.
Qed.

Lemma updateById_twice i f g us us1 us2 :
  (forall v, _id (f v) = _id v) ->
  updateById i f us = Some us1 ->
  updateById i g us1 = Some us2 ->
  updateById i (fun v => g (f v)) us = Some us2.
Proof.
  intros Hf. revert us1 us2. induction us as [|v r IH]; intros us1 us2; [done|].
  simpl. destruct (byId i v) eqn:Hb.
  - intros [= <-]. simpl. unfold byId in *. rewrite Hf, Hb. done.
  - destruct (updateById i f r) as [r'|] eqn:Hr; [|done].
    intros [= <-]. simpl. rewrite Hb.
    destruct (updateById i g r') as [r''|] eqn:Hr'; [|done].
    intros [= <-]. now rewrite (IH r' r'' eq_refl Hr').
Qed.

Lemma find_byId_id i us u : find (byId i) us = Some u -> _id u = i.
Proof.
  intros E. apply find_some in E as [_ E]. unfold byId in E.
  now apply bool_decide_eq_true_1 in E.
Qed.

Lemma updateById_ext_at i f g us us' u :
  find (byId i) us = Some u -> f u = g u ->
  updateById i f us = Some us' -> updateById i g us = Some us'.
Proof.
  revert us'. induction us as [|v r IH]; intros us'; [done|].
  simpl. destruct (byId i v).
  - intros [= ->] E. now rewrite E.
  - intros Hf E. destruct (updateById i f r) as [r'|]; [|done].
    intros [= <-]. now rewrite (IH r' Hf E eq_refl).
Qed.

(** X1.  A successful login writes the time of the login and the new refresh
    token to the user it found, and nothing else. *)
Theorem loginUser_frame e p w s w' :
  WorldOk w ->
  loginUser e p w = (Ok s, w') ->
  exists u,
    find (byEmail e) (users w) = Some u /\
    users w' =
      (fun v => if byId (_id u) v
                then set_refreshTokens
                       (refreshTokens v ++
                          [mkRefreshToken (refreshToken (tokens s)) (now w)])
                       (set_lastLogin (Some (now w)) v)
                else v) <$> users w /\
    now w' = now w /\ nextId w' = nextId w /\
    entropy w' = entropy w /\ hashCalls w' = hashCalls w.
Proof.
  intros [Hnd _]. unfold loginUser. mstep.
  destruct (find (byEmail e) (users w)) as [u|] eqn:Hf; [|done].
  destruct (comparePassword (hydrate u) p) as [[|]|?]; [|done..]. simpl.
  destruct (isActive u); [|done]. simpl.
  pose proof (find_byId_NoDup _ _ Hnd (find_elem_of _ _ _ Hf)) as Hu.
  destruct (assignLastLogin_clean (now w) u) as (Hn & Hm & Hp).
  destruct (save (assignLastLogin (now w) (hydrate u)) w)
    as [[d1|?] w1] eqn:Hs; [|done].
  apply save_loaded in Hs as (-> & us1 & -> & Hus1); [|done..].
  rewrite assignLastLogin_fields in *.
  match goal with |- context [generateTokens ?d ?x] =>
    destruct (generateTokens d x) as [[[d2 toks]|?] w2] eqn:Hg end; [|done].
  apply generateTokens_loaded in Hg as (-> & -> & us2 & Hus2 & ->).
  simpl in *. intros [= <- <-]. exists u. split; [done|]. simpl.
  split; [|done].
  set (rt := mkRefreshToken _ (now w)) in *.
  apply (updateById_map (_id u)); [done|].
  destruct Hus1 as [[Hnil ->]|[Hne Hus1]].
  - apply (updateById_ext_at _ _
             (fun v => set_refreshTokens (refreshTokens v ++ [rt])
                         (set_lastLogin (Some (now w)) v))
             _ _ u Hu) in Hus2; [done|].
    unfold assignLastLogin in Hnil. simpl in Hnil.
    case_bool_decide as E; [|done]. simpl.
    destruct u; simpl in *. now subst.
  - apply (updateById_twice (_id u) (set_lastLogin (Some (now w)))
             (fun v => set_refreshTokens (refreshTokens v ++ [rt]) v)
             (users w) us1 us2); [done| |exact Hus2].
    erewrite updateById_ext; [exact Hus1|]. intros v.
    unfold applyChanges. rewrite Hm, Hp.
    unfold assignLastLogin in *. simpl in *.
    case_bool_decide as E; simpl in *; [done|].
    destruct v. simpl. now rewrite app_nil_r.
Qed.

End Frames.

(** ** Failures write nothing *)

Section Atomic.
Context `{StringPrototype, MongooseMessages, Config, BcryptJs, JsonWebToken}.

(** The save of a loaded document whose user is in the collection can only
    fail in validation, before anything is computed or written. *)
Lemma save_loaded_Throw d w e w' x :
  isNew d = false ->
  find (byId (_id (fields d))) (users w) = Some x ->
  save d w = (Throw e, w') ->
  w' = w /\ validationErrors d <> [] /\ e = ValidationError (validationErrors d).
Proof.
  intros Hn Hx. unfold save, validateDocument. mstep.
  destruct (validationErrors d) as [|m msgs] eqn:Hv.
  2:{ intros [= <- <-]. done. }
  simpl. destruct (isModified "password" d) eqn:Hm.
  - rewrite (preSave_modified _ _ Hm). simpl. rewrite Hn.
    unfold updateOne. mstep.
    match goal with |- context [updateById ?i ?f ?l] =>
      destruct (updateById_Some i f l x Hx) as [us ->] end.
    done.
  - rewrite (preSave_unmodified _ _ Hm). rewrite Hn. unfold updateOne.
    destruct (modifiedPaths d); mstep; [done|].
    destruct (updateById_Some (_id (fields d)) (applyChanges d) _ x Hx)
      as [us ->].
    done.
Qed.

(** X2.  A [changePassword] that fails leaves the world as it was, and fails
    with 404 for an unknown user, with the error that [bcrypt.compare]
    rejected with, with 401 for a current password that is not accepted, or
    in validation. *)
Theorem changePassword_failure userId cur new w e w' :
  changePassword userId cur new w = (Throw e, w') ->
  w' = w /\
  (find (byId userId) (users w) = None /\
   e = newAppError "User not found" 404
   \/
   (exists u, find (byId userId) (users w) = Some u /\
              comparePassword (hydrate u) cur = Throw e)
   \/
   (exists u, find (byId userId) (users w) = Some u /\
              comparePassword (hydrate u) cur = Ok false) /\
   e = newAppError "Current password is incorrect" 401
   \/
   (exists u, find (byId userId) (users w) = Some u /\
              comparePassword (hydrate u) cur = Ok true) /\
   exists msgs, e = ValidationError msgs).
Proof.
  unfold changePassword. mstep.
  destruct (find (byId userId) (users w)) as [u|] eqn:Hf.
  2:{ intros [= <- <-]. auto. }
  destruct (comparePassword (hydrate u) cur) as [[|]|err] eqn:Hc; simpl.
  2:{ intros [= <- <-]. split; [done|]. right. right. left. eauto. }
  2:{ intros [= <- <-]. split; [done|]. right. left. eauto. }
  match goal with |- context [save ?d w] =>
    destruct (save d w) as [[d1|err] w1] eqn:Hs end; [done|].
  intros [= <- <-].
  apply (save_loaded_Throw _ _ _ _ u) in Hs as (-> & _ & ->).
  - split; [done|]. right. right. right. eauto.
  - unfold assignPassword. simpl. now case_bool_decide.
  - unfold assignPassword. simpl. rewrite <- (find_byId_id _ _ _ Hf) in Hf.
    now case_bool_decide.
Qed.

(** X3.  A new password of fewer than 8 UTF-16 code units is refused in
    validation: nothing is hashed, nothing is written.  When it is not
    empty, the message of [minlength] is among those reported. *)
Theorem changePassword_too_short userId cur new w u :
  find (byId userId) (users w) = Some u ->
  comparePassword (hydrate u) cur = Ok true ->
  Js.length new < 8 ->
  new <> password u ->
  exists msgs,
    changePassword userId cur new w = (Throw (ValidationError msgs), w) /\
    (Js.truthy new = true ->
     message_minlength "password" new 8 ∈ msgs).
Proof.
  intros Hf Hc Hlen Hne. unfold changePassword. mstep. rewrite Hf, Hc. simpl.
  unfold assignPassword. simpl. rewrite bool_decide_eq_false_2 by done. simpl.
  unfold save, validateDocument. mstep.
  match goal with |- context [validationErrors ?d] =>
    assert ((if Js.truthy new then message_minlength "password" new 8
             else message_required "password")
              ∈ validationErrors d) as Hin end.
  { unfold validationErrors. simpl.
    apply elem_of_app. right. apply elem_of_app. left.
    assert ((Js.length new <? 8) = true) as -> by now apply Nat.ltb_lt.
    destruct (Js.truthy new); simpl; now left. }
  match goal with |- context [validationErrors ?d] =>
    destruct (validationErrors d) as [|m msgs] eqn:Hv end.
  - now apply elem_of_nil in Hin.
  - eexists. split; [done|]. intros E. now rewrite E in Hin.
Qed.

(** What validation asks of a loaded document whose password and role were
    not assigned: the four required paths. *)
Lemma validationErrors_loaded d :
  isNew d = false -> isModified "password" d = false ->
  isModified "role" d = false ->
  validationErrors d =
    (if Js.truthy (email (fields d)) then []
     else [message_required "email"]) ++
    (if Js.truthy (password (fields d)) then []
     else [message_required "password"]) ++
    (if Js.truthy (firstName (fields d)) then []
     else [message_required "firstName"]) ++
    (if Js.truthy (lastName (fields d)) then []
     else [message_required "lastName"]).
Proof.
  intros Hn Hp Hr. unfold validationErrors. rewrite Hn, Hp, Hr. simpl.
  now rewrite app_nil_r.
Qed.

Lemma save_Ok_valid d w d' w' :
  save d w = (Ok d', w') -> validationErrors d = [].
Proof.
  unfold save, validateDocument. mstep. now destruct (validationErrors d).
Qed.

(** Issuing tokens to a loaded user who is in the collection fails in
    [jwt.sign] or in validation, and then nothing is written. *)
Lemma generateTokens_loaded_Throw u w e w' x :
  find (byId (_id u)) (users w) = Some x ->
  generateTokens (hydrate u) w = (Throw e, w') ->
  w' = w /\
  ((exists name, signError = Some name /\ e = JsError name) \/
   validationErrors (hydrate u) <> []).
Proof.
  intros Hx. unfold generateTokens, jwtSign, pushRefreshToken, signError.
  mstep.
  destruct (jwt_signError jwt_secret jwt_expiresIn) as [name|].
  { intros [= <- <-]. eauto. }
  destruct (jwt_signError jwt_refreshSecret jwt_refreshExpiresIn) as [name|].
  { intros [= <- <-]. eauto. }
  simpl.
  match goal with |- context [save ?d w] =>
    destruct (save d w) as [[d1|err] w1] eqn:Hs end; [done|].
  intros [= <- <-].
  apply (save_loaded_Throw _ _ _ _ x) in Hs as (-> & Hv & _); [|done|done].
  split; [done|]. right.
  rewrite validationErrors_loaded in Hv by done.
  now rewrite validationErrors_loaded by done.
Qed.


End Atomic.

Section AtomicRegister.
Context `{StringPrototype, MongooseMessages, Config, BcryptJs, JsonWebToken} `{!BcryptNonEmpty}.

Lemma validationErrors_nil_required d :
  validationErrors d = [] ->
  Js.truthy (email (fields d)) = true /\
  Js.truthy (firstName (fields d)) = true /\
  Js.truthy (lastName (fields d)) = true.
Proof.
  unfold validationErrors. intros E.
  apply app_eq_nil in E as [E1 E]. apply app_eq_nil in E as [_ E].
  apply app_eq_nil in E as [E2 E]. apply app_eq_nil in E as [E3 _].
  destruct (Js.truthy (email (fields d))); [|done].
  destruct (Js.truthy (firstName (fields d))); [|done].
  now destruct (Js.truthy (lastName (fields d))).
Qed.

Lemma find_byId_elem u us : u ∈ us -> exists x, find (byId (_id u)) us = Some x.
Proof.
  induction us as [|v r IH]; [now intros ?%elem_of_nil|].
  simpl. unfold byId at 1. case_bool_decide; [eauto|].
  intros [->|Hin]%elem_of_cons; [done|]. now apply IH.
Qed.



End AtomicRegister.

(** ** Registration: what is stored, and the login that follows *)

Section Registering.
Context `{StringPrototype, MongooseMessages, Config, BcryptJs, JsonWebToken}.

Lemma persistUser_valid userData w s w' :
  persistUser userData w = (Ok s, w') ->
  Js.truthy (castEmail (UserData.email userData)) = true /\
  Js.truthy (castName (UserData.firstName userData)) = true /\
  Js.truthy (castName (UserData.lastName userData)) = true /\
  8 <= Js.length (UserData.password userData) /\
  isRole (default "student" (UserData.role userData)) = true.
Proof.
  unfold persistUser, newUser. mstep.
  match goal with |- context [save ?d ?x] =>
    destruct (save d x) as [[d1|err] w1] eqn:Hs end; [|done].
  intros _. apply save_Ok_valid in Hs.
  destruct (validationErrors_nil_required _ Hs) as (He & Hf & Hl).
  simpl in He, Hf, Hl. repeat (split; [done|]).
  unfold validationErrors in Hs. simpl in Hs.
  apply app_eq_nil in Hs as [_ Hs]. apply app_eq_nil in Hs as [Hp Hs].
  apply app_eq_nil in Hs as [_ Hs]. apply app_eq_nil in Hs as [_ Hr].
  split.
  - destruct (Js.truthy (UserData.password userData)); [|done].
    destruct (Js.length (UserData.password userData) <? 8) eqn:E;
      [done|]. apply Nat.ltb_ge in E. lia.
  - now destruct (isRole (default "student" (UserData.role userData))).
Qed.

(** When [jwt.sign] throws, [generateTokens] throws its error at once. *)
Lemma generateTokens_signError d w name :
  signError = Some name ->
  generateTokens d w = (Throw (JsError name), w).
Proof.
  unfold signError, generateTokens, jwtSign. mstep.
  destruct (jwt_signError jwt_secret jwt_expiresIn); [now intros [= ->]|].
  now intros ->.
Qed.

(** A [createUser] that succeeded signed two tokens. *)
Lemma createUser_signed userData w s w' :
  createUser userData w = (Ok s, w') -> signError = None.
Proof.
  intros Hc. apply createUser_Ok in Hc as [_ Hp].
  destruct signError as [name|] eqn:Hsign; [|done]. exfalso.
  revert Hp. unfold persistUser, newUser. mstep.
  match goal with |- context [save ?d ?x] =>
    destruct (save d x) as [[d1|err] w1] end; [|done].
  now rewrite (generateTokens_signError _ _ _ Hsign).
Qed.

(** The record that a successful [createUser] appends. *)
Lemma createUser_appended userData w s w' :
  WorldOk w ->
  createUser userData w = (Ok s, w') ->
  users w' = users w ++
    [mkUser (nextId w)
       (castEmail (UserData.email userData))
       (bcrypt_hash (UserData.password userData)
          (bcrypt_genSalt bcrypt_saltRounds (entropy w)))
       (castName (UserData.firstName userData))
       (castName (UserData.lastName userData))
       (castUsername <$> UserData.username userData)
       (default "student" (UserData.role userData))
       true None
       [mkRefreshToken (refreshToken (tokens s)) (now w)]
       defaultOthers].
Proof.
  intros [_ Hfresh] Hc.
  apply createUser_Ok in Hc as [_ Hp].
  apply persistUser_Ok in Hp as (_ & -> & us & Hus & ->).
  rewrite updateById_app_fresh in Hus.
  - now injection Hus as <-.
  - intros v Hv. apply Hfresh in Hv. lia.
  - done.
Qed.

(** X6.  A successful [createUser] appends one record to the collection.  It
    holds the e-mail, the names and the user name given, as the schema
    setters cast them, the hash of the password given, made with a salt
    drawn for the configured rounds, the role given or [student], and, last
    of its refresh tokens, the one returned.  No user had the e-mail, and
    what was given passed the validators: an e-mail and names that are not
    empty once cast, a password of 8 UTF-16 code units or more, a role of
    the schema. *)
Theorem createUser_stores userData w s w' :
  WorldOk w ->
  createUser userData w = (Ok s, w') ->
  (exists u,
     users w' = users w ++ [u] /\
     email u = castEmail (UserData.email userData) /\
     password u = bcrypt_hash (UserData.password userData)
                    (bcrypt_genSalt bcrypt_saltRounds (entropy w)) /\
     firstName u = castName (UserData.firstName userData) /\
     lastName u = castName (UserData.lastName userData) /\
     username u = castUsername <$> UserData.username userData /\
     role u = default "student" (UserData.role userData) /\
     last (refreshTokens u)
     = Some (mkRefreshToken (refreshToken (tokens s)) (now w))) /\
  find (byEmail (UserData.email userData)) (users w) = None /\
  Js.truthy (castEmail (UserData.email userData)) = true /\
  Js.truthy (castName (UserData.firstName userData)) = true /\
  Js.truthy (castName (UserData.lastName userData)) = true /\
  8 <= Js.length (UserData.password userData) /\
  isRole (default "student" (UserData.role userData)) = true.
Proof.
  intros [_ Hfresh] Hc.
  apply createUser_Ok in Hc as [Hnone Hp].
  pose proof (persistUser_valid _ _ _ _ Hp) as Hvalid.
  apply persistUser_Ok in Hp as (_ & -> & us & Hus & ->).
  rewrite updateById_app_fresh in Hus.
  - injection Hus as <-. simpl. split; [|done].
    eexists. split; [done|]. simpl. done.
  - intros v Hv. apply Hfresh in Hv. lia.
  - done.
Qed.

End Registering.

Section RegisterLogin.
Context `{StringPrototype, MongooseMessages, Config, BcryptJs, JsonWebToken} `{!BcryptSpec, !BcryptNonEmpty}.

Lemma find_app_None (q : User -> bool) us vs :
  find q us = None -> find q (us ++ vs) = find q vs.
Proof.
  induction us as [|v r IH]; [done|]. simpl. destruct (q v); [done|]. auto.
Qed.

(** X7.  After a successful registration that returned an active user, a
    login with an e-mail that is cast to the same string and a password
    with the same bcrypt key succeeds, and the session it returns is that of
    the new user. *)
Theorem register_then_login userData w s w1 e p :
  WorldOk w ->
  createUser userData w = (Ok s, w1) ->
  user s !! "isActive" = Some (JBool true) ->
  castEmail e = castEmail (UserData.email userData) ->
  bcryptKey p = bcryptKey (UserData.password userData) ->
  exists s' w2,
    loginUser e p w1 = (Ok s', w2) /\
    user s' !! "_id" = user s !! "_id" /\
    user s' !! "email" = Some (JStr (castEmail (UserData.email userData))) /\
    user s' !! "lastLogin" = Some (JNum (now w1)).
Proof.
  intros Hok Hc _ He Hp.
  pose proof (createUser_appended _ _ _ _ Hok Hc) as Hus.
  pose proof (createUser_signed _ _ _ _ Hc) as Hsign.
  destruct (createUser_Ok _ _ _ _ Hc) as [Hnone Hpersist].
  destruct (persistUser_valid _ _ _ _ Hpersist) as (Hte & Htf & Htl & _ & _).
  apply persistUser_Ok in Hpersist as (_ & Hs & _).
  set (u := mkUser _ _ _ _ _ _ _ _ _ _ _) in Hus.
  assert (find (byEmail e) (users w1) = Some u) as Hf.
  { rewrite Hus, find_app_None.
    - simpl. unfold byEmail. rewrite He. unfold u at 1. simpl.
      now rewrite bool_decide_eq_true_2.
    - unfold byEmail in *. now rewrite He. }
  assert (comparePassword (hydrate u) p = Ok true) as Hcmp.
  { unfold comparePassword, u. simpl.
    rewrite bcrypt_compare_hash, (bcrypt_hash_key _ _ _ _ Hp).
    now rewrite bool_decide_eq_true_2. }
  destruct (find_byId_elem u (users w1)) as [x Hx].
  { rewrite Hus. apply elem_of_app. right. now left. }
  destruct (loginUser e p w1) as [[s'|err] w2] eqn:Hl.
  - exists s', w2. split; [done|].
    apply loginUser_Ok in Hl as (u' & Hf' & _ & _ & -> & _).
    rewrite Hf in Hf'. injection Hf' as <-. rewrite Hs.
    simpl. unfold toObject. simpl. repeat split; now simplify_map_eq.
  - exfalso. revert Hl. unfold loginUser. mstep. rewrite Hf, Hcmp. simpl.
    destruct (assignLastLogin_clean (now w1) u) as (Hn & Hm & Hpu).
    assert (forall d, isNew d = false -> isModified "password" d = false ->
                      isModified "role" d = false ->
                      email (fields d) = email u ->
                      password (fields d) = password u ->
                      firstName (fields d) = firstName u ->
                      lastName (fields d) = lastName u ->
                      validationErrors d = []) as Hvalid.
    { intros d Ha Hb Hc' E1 E2 E3 E4.
      rewrite validationErrors_loaded by done. rewrite E1, E2, E3, E4.
      unfold u. simpl. now rewrite Hte, Htf, Htl, bcrypt_hash_truthy. }
    destruct (save (assignLastLogin (now w1) (hydrate u)) w1)
      as [[d1|err1] w1'] eqn:Hsv.
    + apply save_loaded in Hsv as (-> & us1 & -> & Hus1); [|done..].
      rewrite assignLastLogin_fields in *.
      match goal with |- context [generateTokens ?d ?y] =>
        destruct (generateTokens d y) as [[[d2 toks]|err2] w3] eqn:Hg end;
        [done|].
      assert (exists y, find (byId (_id u)) us1 = Some y) as [y Hy].
      { destruct Hus1 as [[_ ->]|[_ Hus1]]; [eauto|].
        apply updateById_find in Hus1 as (z & _ & Hz);
          [eauto|apply applyChanges_id]. }
      apply (generateTokens_loaded_Throw _ _ _ _ y) in Hg
        as [_ [(name & Hname & _)|Hv]]; [congruence| |done].
      intros _. apply Hv. now apply Hvalid.
    + apply (save_loaded_Throw _ _ _ _ x) in Hsv as (_ & Hv & _).
      * intros _. apply Hv.
        apply Hvalid; rewrite ?assignLastLogin_fields; done.
      * done.
      * now rewrite assignLastLogin_fields.
Qed.

End RegisterLogin.

(** ** Registrations that are refused *)

Section Refused.
Context `{StringPrototype, MongooseMessages, Config, BcryptJs, JsonWebToken}.

(** X8.  With a free e-mail and user name, a password of fewer than 8 UTF-16
    code units is refused by the validators of the schema: the client gets
    status 400, no user is stored and nothing is hashed.  When the password
    is not empty, the message of [minlength] is among those reported. *)
Theorem createUser_short_password userData w :
  checkAvailable userData w = (Ok tt, w) ->
  Js.length (UserData.password userData) < 8 ->
  exists msgs w',
    createUser userData w = (Throw (ValidationError msgs), w') /\
    (Js.truthy (UserData.password userData) = true ->
     message_minlength "password" (UserData.password userData) 8 ∈ msgs) /\
    users w' = users w /\ hashCalls w' = hashCalls w /\
    status (register userData w).1 = 400 /\ (register userData w).2 = w'.
Proof.
  intros Hc Hlen.
  assert (exists msgs w',
    createUser userData w = (Throw (ValidationError msgs), w') /\
    (Js.truthy (UserData.password userData) = true ->
     message_minlength "password" (UserData.password userData) 8 ∈ msgs) /\
    users w' = users w /\ hashCalls w' = hashCalls w)
    as (msgs & w' & E & Hin & Hu & Hh).
  { unfold createUser. mstep. rewrite Hc.
    unfold persistUser, newUser. mstep.
    unfold save, validateDocument. mstep.
    match goal with |- context [validationErrors ?d] =>
      assert ((if Js.truthy (UserData.password userData)
               then message_minlength "password"
                      (UserData.password userData) 8
               else message_required "password")
                ∈ validationErrors d) as Hin end.
    { unfold validationErrors. simpl.
      apply elem_of_app. right. apply elem_of_app. left.
      assert ((Js.length (UserData.password userData) <? 8) = true)
        as -> by now apply Nat.ltb_lt.
      destruct (Js.truthy (UserData.password userData)); simpl; now left. }
    match goal with |- context [validationErrors ?d] =>
      destruct (validationErrors d) as [|m msgs] eqn:Hv end.
    - now apply elem_of_nil in Hin.
    - eexists _, _. split; [reflexivity|]. split; [|done].
      intros E. now rewrite E in Hin. }
  exists msgs, w'. repeat (split; [done|]).
  unfold register, respond. mstep. now rewrite E.
Qed.

(** X9.  With a free e-mail, a user name that a stored user has (after the
    casts of the schema) is refused with 409 before anything is written. *)
Theorem createUser_username_taken userData w n v :
  find (byEmail (UserData.email userData)) (users w) = None ->
  UserData.username userData = Some n ->
  Js.truthy n = true ->
  v ∈ users w ->
  username v = Some (castUsername n) ->
  createUser userData w
    = (Throw (newAppError "Username already taken" 409), w) /\
  register userData w
    = (mkResponse 409 (Failure "Username already taken" None), w).
Proof.
  intros He Hn Ht Hv Hu.
  assert (createUser userData w
          = (Throw (newAppError "Username already taken" 409), w)) as E.
  { unfold createUser, checkAvailable. mstep. rewrite He, Hn, Ht.
    destruct (find (fun u => bool_decide (username u = Some (castUsername n)))
                (users w)) as [x|] eqn:Hf; [done|].
    exfalso. apply list_elem_of_In in Hv.
    apply (find_none _ _ Hf) in Hv. simpl in Hv.
    now rewrite bool_decide_eq_true_2 in Hv. }
  split; [done|]. unfold register, respond. mstep. now rewrite E.
Qed.

End Refused.

(** ** The soft delete *)

Section SoftDelete.
Context `{StringPrototype, MongooseMessages, Config, BcryptJs, JsonWebToken}.

Lemma castUpdate_isActive t :
  castUpdate t {["isActive" := JBool false]} schemaPaths
  = Ok ([], fun u => set_isActive false u).
Proof. vm_compute. reflexivity. Qed.

Lemma duplicateKeyOnUpdate_isActive u us :
  duplicateKeyOnUpdate u (set_isActive false u) us = None.
Proof.
  unfold duplicateKeyOnUpdate. simpl.
  rewrite bool_decide_eq_true_2 by done. simpl.
  destruct (username u); [|done].
  now rewrite bool_decide_eq_true_2 by done.
Qed.

Lemma deleteUser_run userId w :
  deleteUser userId w =
    match find (byId userId) (users w) with
    | None => (Throw (newAppError "User not found" 404), w)
    | Some u =>
        match updateById userId (set_isActive false) (users w) with
        | Some us => (Ok (set_isActive false u), with_users us w)
        | None => (Throw (newAppError "User not found" 404), w)
        end
    end.
Proof.
  unfold deleteUser, findByIdAndUpdate, mbind, M_bind, Mbind, mret, M_ret,
    Mret, get, modify, throw.
  rewrite castUpdate_isActive.
  destruct (find (byId userId) (users w)) as [u|]; [|done].
  rewrite duplicateKeyOnUpdate_isActive.
  replace (updateById userId (fun u0 => set_isActive false u0) (users w))
    with (updateById userId (set_isActive false) (users w)) by done.
  now destruct (updateById userId (set_isActive false) (users w)).
Qed.

(** The soft delete of a stored user. *)
Lemma deleteUser_known userId w u :
  NoDup (_id <$> users w) ->
  find (byId userId) (users w) = Some u ->
  exists w',
    deleteUser userId w = (Ok (set_isActive false u), w') /\
    users w' = (fun v => if byId userId v then set_isActive false v else v)
               <$> users w.
Proof.
  intros Hnd Hf. rewrite deleteUser_run, Hf.
  destruct (updateById_Some userId (set_isActive false) _ _ Hf) as [us Hus].
  rewrite Hus. exists (with_users us w). split; [done|].
  now apply updateById_map in Hus.
Qed.

(** After it, the user with that [_id] is not active. *)
Lemma cleared_isActive userId (us : list User) v :
  v ∈ (fun v => if byId userId v then set_isActive false v else v) <$> us ->
  _id v = userId -> isActive v = false.
Proof.
  intros (x & -> & _)%list_elem_of_fmap. unfold byId.
  case_bool_decide as Hx; [done|]. congruence.
Qed.

(** X10.  [deleteUser] removes nobody: for an unknown [_id] it throws 404 and
    writes nothing; for a known one it clears [isActive] of the user with
    that [_id] and leaves every other field and every other user as they
    were.  A login to the account is refused with 403 afterwards. *)
Theorem deleteUser_soft userId w :
  WorldOk w ->
  (find (byId userId) (users w) = None ->
   deleteUser userId w = (Throw (newAppError "User not found" 404), w))
  /\
  (forall u,
      find (byId userId) (users w) = Some u ->
      exists w',
        deleteUser userId w = (Ok (set_isActive false u), w') /\
        users w' =
          (fun v => if byId userId v then set_isActive false v else v)
            <$> users w /\
        forall e p v,
          find (byEmail e) (users w') = Some v ->
          _id v = userId ->
          comparePassword (hydrate v) p = Ok true ->
          loginUser e p w'
            = (Throw (newAppError "Account is deactivated" 403), w')).
Proof.
  intros [Hnd _]. split.
  - intros Hf. now rewrite deleteUser_run, Hf.
  - intros u Hf.
    destruct (deleteUser_known _ _ _ Hnd Hf) as (w' & Hd & Hus).
    exists w'. split; [done|]. split; [done|].
    intros e p v Hv Hid Hc. apply (loginUser_deactivated e p _ v Hv Hc).
    apply find_elem_of in Hv. rewrite Hus in Hv.
    now apply (cleared_isActive userId (users w)).
Qed.

End SoftDelete.

Section DeleteAccount.
Context `{StringPrototype, MongooseMessages, Config, BcryptJs, JsonWebToken}.

(** X11.  [DELETE /api/users/account] with a bearer token that verifies
    deactivates the account the token names and answers 200; a login to
    that account with an accepted password is answered 403 afterwards. *)
Theorem deleteAccount_then_login token w decoded u b :
  WorldOk w ->
  jwt_verify token jwt_secret (now w) = inl decoded ->
  find (byId (Claims.id (Claims.claims decoded))) (users w) = Some u ->
  exists w',
    deleteAccountRoute (mkRequest (Some ("Bearer " +:+ token)) b None) w
      = (mkResponse 200 (SuccessMessage "Account deactivated successfully"),
         w') /\
    length (users w') = length (users w) /\
    forall e p v,
      find (byEmail e) (users w') = Some v ->
      _id v = Claims.id (Claims.claims decoded) ->
      comparePassword (hydrate v) p = Ok true ->
      login e p w' = (mkResponse 403 (Failure "Account is deactivated" None), w').
Proof.
  intros [Hnd _] Hv Hf.
  destruct (deleteUser_known _ _ _ Hnd Hf) as (w' & Hd & Hus).
  exists w'. split; [|split].
  - unfold deleteAccountRoute, respond.
    unfold mbind at 1. unfold M_bind, Mbind.
    rewrite (authenticate_bearer _ _ _ _ Hv).
    unfold deleteAccount. cbn [reqUser].
    unfold mbind, M_bind, Mbind, mret, M_ret, Mret. now rewrite Hd.
  - now rewrite Hus, length_fmap.
  - intros e p v Hfv Hid Hc. unfold login, respond. mstep.
    rewrite (loginUser_deactivated e p _ v Hfv Hc); [done|].
    apply find_elem_of in Hfv. rewrite Hus in Hfv.
    now apply (cleared_isActive (Claims.id (Claims.claims decoded)) (users w)).
Qed.

End DeleteAccount.

(** ** [updateUser]: what an update can and cannot touch *)

Section Updating.
Context `{StringPrototype, MongooseMessages, Config, BcryptJs, JsonWebToken}.

Ltac castPath_keeps :=
  unfold castPath; intros Hc Hne;
  repeat case_match; simplify_eq; try done;
  repeat match goal with
         | E : bool_decide _ = true |- _ => apply bool_decide_eq_true_1 in E
         end; congruence.

Lemma castPath_keeps_password t path v m g u :
  castPath t path v = Ok (Some (m, g)) -> path <> "password" ->
  password (g u) = password u.
Proof. castPath_keeps. Qed.

Lemma castPath_keeps_email t path v m g u :
  castPath t path v = Ok (Some (m, g)) -> path <> "email" ->
  email (g u) = email u.
Proof. castPath_keeps. Qed.

Lemma castPath_keeps_role t path v m g u :
  castPath t path v = Ok (Some (m, g)) -> path <> "role" ->
  role (g u) = role u.
Proof. castPath_keeps. Qed.

Lemma castPath_keeps_isActive t path v m g u :
  castPath t path v = Ok (Some (m, g)) -> path <> "isActive" ->
  isActive (g u) = isActive u.
Proof. castPath_keeps. Qed.

Lemma castPath_keeps_refreshTokens t path v m g u :
  castPath t path v = Ok (Some (m, g)) -> path <> "refreshTokens" ->
  refreshTokens (g u) = refreshTokens u.
Proof. castPath_keeps. Qed.

Lemma castPath_keeps_lastLogin t path v m g u :
  castPath t path v = Ok (Some (m, g)) -> path <> "lastLogin" ->
  lastLogin (g u) = lastLogin u.
Proof. castPath_keeps. Qed.

(** A field of the user is kept by [$set] when every setter of another
    path keeps it and the update does not name its path. *)
Lemma castUpdate_keeps {A} (proj : User -> A) (name : string)
      t updateData paths msgs f u :
  (forall path v m g x,
      castPath t path v = Ok (Some (m, g)) -> path <> name ->
      proj (g x) = proj x) ->
  updateData !! name = None ->
  castUpdate t updateData paths = Ok (msgs, f) ->
  proj (f u) = proj u.
Proof.
  intros Hkeep Hnone. revert msgs f.
  induction paths as [|path rest IH]; intros msgs f.
  - now intros [= <- <-].
  - rewrite castUpdate_cons.
    destruct (castUpdate t updateData rest) as [[m0 f0]|?]; [|done].
    destruct (updateData !! path) as [v|] eqn:Hv;
      [|intros [= <- <-]; now apply (IH m0)].
    destruct (castPath t path v) as [[[m g]|]|?] eqn:Hc; [| |done].
    + intros [= <- <-]. rewrite (Hkeep _ _ _ _ _ Hc).
      * now apply (IH m0).
      * intros ->. congruence.
    + intros [= <- <-]. now apply (IH m0).
Qed.

(** What a successful [updateUser] did. *)
Lemma updateUser_Ok userId updateData w u' w' :
  updateUser userId updateData w = (Ok u', w') ->
  exists u msgs f us,
    castUpdate (now w) updateData schemaPaths = Ok (msgs, f) /\
    find (byId userId) (users w) = Some u /\
    u' = f u /\
    updateById userId f (users w) = Some us /\
    w' = with_users us w.
Proof.
  unfold updateUser. unfold mbind at 1. unfold M_bind, Mbind.
  assert (forall r w1,
    match updateData !! "username" with
    | Some v =>
        if truthyValue v then
          match v with
          | JStr n =>
              existingUser ← findOneByUsernameNot n userId;
              match existingUser with
              | Some _ => throw (newAppError "Username already taken" 409)
              | None => mret tt
              end
          | _ => throw CastError
          end
        else mret tt
    | None => mret tt
    end w = (r, w1) -> w1 = w) as Hcheck.
  { intros r w1. destruct (updateData !! "username") as [v|];
      [|now intros [= <- <-]].
    destruct (truthyValue v); [|now intros [= <- <-]].
    destruct v; try now intros [= <- <-].
    mstep. destruct (find _ (users w)); now intros [= <- <-]. }
  match goal with |- context [match ?c w with _ => _ end] =>
    destruct (c w) as [[[]|?] w1] eqn:Hc end; [|done].
  apply Hcheck in Hc. subst w1.
  unfold findByIdAndUpdate, mbind, M_bind, Mbind, mret, M_ret, Mret, get,
    modify, throw.
  destruct (castUpdate (now w) updateData schemaPaths) as [[msgs f]|?] eqn:Hcu;
    [|done].
  destruct msgs as [|m msgs]; [|done].
  destruct (find (byId userId) (users w)) as [u|] eqn:Hf; [|done].
  destruct (duplicateKeyOnUpdate _ _ _); [done|].
  destruct (updateById userId f (users w)) as [us|] eqn:Hu; [|done].
  intros [= <- <-]. exists u, [], f, us. done.
Qed.

(** X12.  A successful [updateUser] whose update data name whole paths (no
    key with a dot) changes the user with the [_id] given and no other, and
    keeps that [_id]; of [email], [password], [role], [isActive],
    [lastLogin] and [refreshTokens] it changes only those that the update
    data name. *)
Theorem updateUser_frame userId updateData w u' w' :
  WorldOk w ->
  topLevelKeys updateData ->
  updateUser userId updateData w = (Ok u', w') ->
  exists u f,
    find (byId userId) (users w) = Some u /\
    u' = f u /\
    users w' = (fun v => if byId userId v then f v else v) <$> users w /\
    _id u' = _id u /\
    (updateData !! "email" = None -> email u' = email u) /\
    (updateData !! "password" = None -> password u' = password u) /\
    (updateData !! "role" = None -> role u' = role u) /\
    (updateData !! "isActive" = None -> isActive u' = isActive u) /\
    (updateData !! "lastLogin" = None -> lastLogin u' = lastLogin u) /\
    (updateData !! "refreshTokens" = None ->
     refreshTokens u' = refreshTokens u).
Proof.
  intros [Hnd _] _ Hu.
  apply updateUser_Ok in Hu as (u & msgs & f & us & Hc & Hf & -> & Hus & ->).
  exists u, f. split; [done|]. split; [done|]. split.
  { simpl. now apply updateById_map. }
  split; [now apply (castUpdate_id _ _ _ _ _ _ Hc)|].
  repeat split; intros Hnone.
  - apply (castUpdate_keeps email "email" _ _ _ _ _ _
             (fun path v m g x => castPath_keeps_email _ path v m g x) Hnone Hc).
  - apply (castUpdate_keeps password "password" _ _ _ _ _ _
             (fun path v m g x => castPath_keeps_password _ path v m g x)
             Hnone Hc).
  - apply (castUpdate_keeps role "role" _ _ _ _ _ _
             (fun path v m g x => castPath_keeps_role _ path v m g x) Hnone Hc).
  - apply (castUpdate_keeps isActive "isActive" _ _ _ _ _ _
             (fun path v m g x => castPath_keeps_isActive _ path v m g x)
             Hnone Hc).
  - apply (castUpdate_keeps lastLogin "lastLogin" _ _ _ _ _ _
             (fun path v m g x => castPath_keeps_lastLogin _ path v m g x)
             Hnone Hc).
  - apply (castUpdate_keeps refreshTokens "refreshTokens" _ _ _ _ _ _
             (fun path v m g x => castPath_keeps_refreshTokens _ path v m g x)
             Hnone Hc).
Qed.

End Updating.

(** ** Running a sequence *)

Lemma bind_Ok {A B} (m : M A) (k : A -> M B) w r w' :
  (m ≫= k) w = (Ok r, w') ->
  exists a w1, m w = (Ok a, w1) /\ k a w1 = (Ok r, w').
Proof.
  unfold mbind, M_bind, Mbind. destruct (m w) as [[a|e] w1]; [eauto|done].
Qed.

Lemma bind_Throw {A B} (m : M A) (k : A -> M B) w e w' :
  (m ≫= k) w = (Throw e, w') ->
  m w = (Throw e, w') \/
  exists a w1, m w = (Ok a, w1) /\ k a w1 = (Throw e, w').
Proof.
  unfold mbind, M_bind, Mbind. destruct (m w) as [[a|e1] w1]; [eauto|].
  intros [= <- <-]. now left.
Qed.

Section UpdateRefused.
Context `{StringPrototype, MongooseMessages, Config, BcryptJs, JsonWebToken}.

Lemma findByIdAndUpdate_Throw userId updateData rv w e w' :
  findByIdAndUpdate userId updateData rv w = (Throw e, w') -> w' = w.
Proof.
  unfold findByIdAndUpdate, mbind, M_bind, Mbind, mret, M_ret, Mret, get,
    modify, throw.
  destruct (castUpdate (now w) updateData schemaPaths) as [[msgs f]|?];
    [|now intros [= <- <-]].
  destruct (if rv then msgs else []); [|now intros [= <- <-]].
  destruct (find (byId userId) (users w)); [|done].
  destruct (duplicateKeyOnUpdate _ _ _); [now intros [= <- <-]|].
  now destruct (updateById userId _ (users w)).
Qed.

Lemma findByIdAndUpdate_None userId updateData rv w w' :
  findByIdAndUpdate userId updateData rv w = (Ok None, w') -> w' = w.
Proof.
  unfold findByIdAndUpdate, mbind, M_bind, Mbind, mret, M_ret, Mret, get,
    modify, throw.
  destruct (castUpdate (now w) updateData schemaPaths) as [[msgs f]|?];
    [|done].
  destruct (if rv then msgs else []); [|done].
  destruct (find (byId userId) (users w)); [|now intros [= <-]].
  destruct (duplicateKeyOnUpdate _ _ _); [done|].
  destruct (updateById userId _ (users w)); [done|now intros [= <-]].
Qed.

(** The look-up that [updateUser] makes for the user name writes nothing. *)
Lemma updateUser_check_world userId (updateData : PlainObject) r w w1 :
  match updateData !! "username" with
  | Some v =>
      if truthyValue v then
        match v with
        | JStr n =>
            existingUser ← findOneByUsernameNot n userId;
            match existingUser with
            | Some _ => throw (newAppError "Username already taken" 409)
            | None => mret tt
            end
        | _ => throw CastError
        end
      else mret tt
  | None => mret tt
  end w = (r, w1) -> w1 = w.
Proof.
  destruct (updateData !! "username") as [v|]; [|now intros [= <- <-]].
  destruct (truthyValue v); [|now intros [= <- <-]].
  destruct v; try now intros [= <- <-].
  mstep. destruct (find _ (users w)); now intros [= <- <-].
Qed.

(** X13.  An [updateUser] that throws has written nothing. *)
Theorem updateUser_failure userId updateData w e w' :
  updateUser userId updateData w = (Throw e, w') -> w' = w.
Proof.
  unfold updateUser. intros Hu.
  apply bind_Throw in Hu as [Hu|(a & w1 & Hc & Hu)].
  - now apply updateUser_check_world in Hu.
  - apply updateUser_check_world in Hc. subst w1.
    apply bind_Throw in Hu as [Hu|([u|] & w1 & Hf & Hu)].
    + now apply findByIdAndUpdate_Throw in Hu.
    + done.
    + apply findByIdAndUpdate_None in Hf. subst w1.
      unfold throw in Hu. congruence.
Qed.

(** X14.  A user name held (after the casts of the schema) by a stored user
    with another [_id] is refused with 409, whether or not the [_id] to
    update exists, and nothing is written. *)
Theorem updateUser_username_taken userId updateData n v w :
  updateData !! "username" = Some (JStr n) ->
  Js.truthy n = true ->
  v ∈ users w ->
  username v = Some (castUsername n) ->
  _id v <> userId ->
  updateUser userId updateData w
    = (Throw (newAppError "Username already taken" 409), w).
Proof.
  intros Hn Ht Hv Hu Hid. unfold updateUser. rewrite Hn. cbn [truthyValue].
  rewrite Ht. mstep.
  destruct (find _ (users w)) as [x|] eqn:Hf; [done|].
  exfalso. apply list_elem_of_In in Hv.
  apply (find_none _ _ Hf) in Hv. simpl in Hv.
  rewrite (bool_decide_eq_true_2 _ Hu) in Hv.
  now rewrite (bool_decide_eq_false_2 _ Hid) in Hv.
Qed.

End UpdateRefused.

(** ** The error middleware *)

(** The error middleware never answers with a success body. *)
Lemma errorHandler_json err :
  exists m d, json (errorHandler err) = Failure m d.
Proof. unfold errorHandler. simpl. eauto. Qed.

(** X15.  Whatever is thrown, the client gets a failure with a status that is
    not 0 and a message that is not empty. *)
Theorem errorHandler_failure err :
  exists s m d,
    errorHandler err = mkResponse (S s) (Failure m d) /\ Js.truthy m = true.
Proof.
  assert (forall a, Js.truthy (Js.orElse a "Internal Server Error") = true)
    as Hor.
  { intros a. unfold Js.orElse. now destruct (Js.truthy a) eqn:E. }
  unfold errorHandler.
  destruct err as [m [|s] d|c k|msgs| | |n];
    try (eexists _, _, _; split; [reflexivity|apply Hor]).
  destruct (Z.eq_dec c 11000%Z) as [->|Hc].
  - eexists _, _, _; split; [reflexivity|apply Hor].
  - exists 499,
      (Js.orElse (messageOf (MongoServerError c k)) "Internal Server Error"),
      None.
    split; [|apply Hor].
    destruct c as [|p|p]; try done.
    repeat (destruct p as [p|p|]; try done).
Qed.

(** ** The guarded routes *)

Section Guards.
Context `{StringPrototype, MongooseMessages, Config, BcryptJs, JsonWebToken, Joi}.

Lemma startsWith_substringFrom p s :
  Js.startsWith p s = true ->
  s = p +:+ Js.substringFrom (String.length p) s.
Proof.
  revert s. induction p as [|a p IH]; intros s; [done|].
  destruct s as [|b s]; [done|]. simpl.
  intros [Ha Hp]%andb_true_iff. apply Ascii.eqb_eq in Ha. subst b.
  change (String a s
          = String a (p +:+ Js.substringFrom (String.length p) s)).
  f_equal. now apply IH.
Qed.

(** What [authenticate] does, in full. *)
Lemma authenticate_run req w :
  (exists token decoded,
      authorization req = Some ("Bearer " +:+ token) /\
      jwt_verify token jwt_secret (now w) = inl decoded /\
      authenticate req w
      = (Ok (mkRequest (authorization req) (body req) (Some decoded)), w)) \/
  authenticate req w = (Throw (newAppError "No token provided" 401), w) \/
  authenticate req w = (Throw (newAppError "Invalid or expired token" 401), w).
Proof.
  unfold authenticate.
  destruct (authorization req) as [authHeader|]; [|right; now left].
  destruct (Js.truthy authHeader && Js.startsWith "Bearer " authHeader)
    eqn:E; [|right; now left].
  apply andb_true_iff in E as [_ E].
  apply startsWith_substringFrom in E.
  change (String.length "Bearer ") with 7 in E.
  unfold mbind, M_bind, Mbind, mret, M_ret, Mret.
  rewrite verifyToken_run.
  destruct (jwt_verify _ _ _) as [decoded|name] eqn:Hv; [|right; now right].
  left. exists (Js.substringFrom 7 authHeader), decoded.
  split; [now f_equal|]. done.
Qed.

(** X16.  A route behind [authenticate, authorize('admin')] runs its handler
    only for a bearer token that verifies and carries the role [admin], and
    then with the decoded token as [req.user]; every other request is
    answered 401 or 403 and the store is left as it was. *)
Theorem adminRoute_guard handler req w :
  (exists token decoded,
      authorization req = Some ("Bearer " +:+ token) /\
      jwt_verify token jwt_secret (now w) = inl decoded /\
      Claims.role (Claims.claims decoded) = "admin" /\
      adminRoute handler req w
      = respond (handler (mkRequest (authorization req) (body req)
                                    (Some decoded))) w) \/
  adminRoute handler req w
  = (mkResponse 401 (Failure "No token provided" None), w) \/
  adminRoute handler req w
  = (mkResponse 401 (Failure "Invalid or expired token" None), w) \/
  adminRoute handler req w
  = (mkResponse 403 (Failure "Insufficient permissions" None), w).
Proof.
  unfold adminRoute, respond, mbind, M_bind, Mbind.
  destruct (authenticate_run req w)
    as [(token & decoded & Ha & Hv & ->)|[->| ->]];
    [|right; now left|right; right; now left].
  unfold authorize. cbn [reqUser].
  case_bool_decide as Hr.
  - left. exists token, decoded. split; [done|]. split; [done|].
    split; [|done]. now apply list_elem_of_singleton in Hr.
  - right. right. now right.
Qed.

(** What the controllers that send a user resolve to. *)
Lemma getProfile_Ok req w r w' :
  getProfile req w = (Ok r, w') ->
  exists u, r = mkResponse 200 (Success (DataUser (toJSON u))).
Proof.
  unfold getProfile. destruct (reqUser req) as [decoded|]; [|done].
  intros (u & w1 & _ & Hr)%bind_Ok. exists u. mstep. congruence.
Qed.

Lemma updateProfile_Ok req w r w' :
  updateProfile req w = (Ok r, w') ->
  exists u, r = mkResponse 200 (Success (DataUser (toJSON u))).
Proof.
  unfold updateProfile. destruct (reqUser req) as [decoded|]; [|done].
  intros (u & w1 & _ & Hr)%bind_Ok. exists u. mstep. congruence.
Qed.

Lemma getUserByIdController_Ok paramsId req w r w' :
  getUserByIdController paramsId req w = (Ok r, w') ->
  exists u, r = mkResponse 200 (Success (DataUser (toJSON u))).
Proof.
  unfold getUserByIdController.
  intros (u & w1 & _ & Hr)%bind_Ok. exists u. mstep. congruence.
Qed.

Lemma respond_Success handler w d :
  json (respond handler w).1 = Success d ->
  exists r w', handler w = (Ok r, w') /\ json r = Success d.
Proof.
  unfold respond. destruct (handler w) as [[r|e] w']; [eauto|].
  destruct (errorHandler_json e) as (m & x & He). intros Hd.
  change (json (errorHandler e) = Success d) in Hd. congruence.
Qed.

Lemma toJSON_sanitized u :
  toJSON u !! "password" = None /\
  toJSON u !! "refreshTokens" = None /\
  toJSON u !! "emailVerificationToken" = None /\
  toJSON u !! "passwordResetToken" = None.
Proof. unfold toJSON. repeat split; now simplify_map_eq. Qed.

(** X17.  Whatever the request and the store, a successful answer of
    [GET /profile], [PUT /profile] or [GET /users/:id] carries a user
    without [password], [refreshTokens], [emailVerificationToken] and
    [passwordResetToken]. *)
Theorem user_responses_sanitized req paramsId w r d :
  r = (getProfileRoute req w).1 \/
  r = (putProfile req w).1 \/
  r = (adminRoute (getUserByIdController paramsId) req w).1 ->
  json r = Success d ->
  exists o,
    d = DataUser o /\
    o !! "password" = None /\
    o !! "refreshTokens" = None /\
    o !! "emailVerificationToken" = None /\
    o !! "passwordResetToken" = None.
Proof.
  intros Hr Hd.
  assert (exists u, d = DataUser (toJSON u)) as [u ->].
  { destruct Hr as [-> |[-> | ->]];
      apply respond_Success in Hd as (r & w' & Hh & Hd).
    - apply bind_Ok in Hh as (q & w1 & _ & Hh).
      apply getProfile_Ok in Hh as [u ->]. exists u. simpl in Hd. congruence.
    - apply bind_Ok in Hh as (q & w1 & _ & Hh).
      apply bind_Ok in Hh as (q' & w2 & _ & Hh).
      apply updateProfile_Ok in Hh as [u ->]. exists u. simpl in Hd.
      congruence.
    - apply bind_Ok in Hh as (q & w1 & _ & Hh).
      apply bind_Ok in Hh as (q' & w2 & _ & Hh).
      apply getUserByIdController_Ok in Hh as [u ->]. exists u.
      simpl in Hd. congruence. }
  exists (toJSON u). split; [done|]. apply toJSON_sanitized.
Qed.

(** X18.  A request without a bearer token that verifies is answered 401 by
    [GET /profile], [PUT /profile] and [DELETE /account] alike, whatever
    its body, and the store is left as it was. *)
Theorem unauthenticated_refused req w :
  (forall token, authorization req = Some ("Bearer " +:+ token) ->
     exists name, jwt_verify token jwt_secret (now w) = inr name) ->
  exists m,
    (m = "No token provided" \/ m = "Invalid or expired token") /\
    getProfileRoute req w = (mkResponse 401 (Failure m None), w) /\
    putProfile req w = (mkResponse 401 (Failure m None), w) /\
    deleteAccountRoute req w = (mkResponse 401 (Failure m None), w).
Proof.
  intros Hno.
  unfold getProfileRoute, putProfile, deleteAccountRoute, respond, mbind,
    M_bind, Mbind.
  destruct (authenticate_run req w)
    as [(token & decoded & Ha & Hv & _)|[->| ->]].
  - destruct (Hno _ Ha) as [name Hn]. congruence.
  - exists "No token provided". auto.
  - exists "Invalid or expired token". auto.
Qed.

(** X19.  [PUT /profile] with a bearer token that verifies and a body that
    fails the Joi schema is answered 400 with the details of Joi, before
    anything is looked up or written. *)
Theorem putProfile_invalid token b w decoded details :
  jwt_verify token jwt_secret (now w) = inl decoded ->
  error (joiValidate "updateProfile" updateProfileKeys b) = Some details ->
  putProfile (mkRequest (Some ("Bearer " +:+ token)) b None) w
  = (mkResponse 400 (Failure "Validation failed" (Some details)), w).
Proof.
  intros Hv He. unfold putProfile, respond, mbind, M_bind, Mbind.
  rewrite (authenticate_bearer _ _ _ _ Hv).
  unfold validateUpdateProfile. cbn [body]. now rewrite He.
Qed.

End Guards.

(** ** From registration to the profile *)

Section RoundTrip.
Context `{StringPrototype, MongooseMessages, Config, BcryptJs, JsonWebToken, Joi, !BcryptNonEmpty,
          !JsonWebTokenRound}.

(** X20.  The access token that [createUser] returns opens [GET /profile] for
    the user just stored, the last of the collection: the answer is 200
    with that user, sanitized, and the store is not touched. *)
Theorem register_then_profile userData w s w1 b :
  WorldOk w ->
  createUser userData w = (Ok s, w1) ->
  exists u,
    last (users w1) = Some u /\
    email u = castEmail (UserData.email userData) /\
    getProfileRoute
      (mkRequest (Some ("Bearer " +:+ accessToken (tokens s))) b None) w1
    = (mkResponse 200 (Success (DataUser (toJSON u))), w1).
Proof.
  intros Hok Hc.
  pose proof (createUser_WorldOk _ _ _ _ Hok Hc) as Hok1.
  pose proof (createUser_appended _ _ _ _ Hok Hc) as Hus.
  pose proof (createUser_signed _ _ _ _ Hc) as Hsign.
  pose proof (createUser_Ok _ _ _ _ Hc) as Hs.
  match type of Hus with _ = _ ++ [?x] => set (u := x) in * end.
  exists u.
  assert (u ∈ users w1) as Hin.
  { rewrite Hus. apply elem_of_app. right. now left. }
  split; [rewrite Hus; apply last_snoc|]. split; [done|].
  assert (now w1 = now w /\
          accessToken (tokens s)
          = jwt_sign (Claims.mkPayload (nextId w)
                        (castEmail (UserData.email userData))
                        (default "student" (UserData.role userData)))
              jwt_secret jwt_expiresIn (now w)) as [Hnow Htok].
  { destruct Hs as [_ Hp].
    apply persistUser_Ok in Hp as (_ & -> & us & _ & ->). done. }
  assert (jwt_signError jwt_secret jwt_expiresIn = None) as Hsec.
  { revert Hsign. unfold signError.
    now destruct (jwt_signError jwt_secret jwt_expiresIn). }
  destruct (jwt_verify_sign
              (Claims.mkPayload (nextId w)
                 (castEmail (UserData.email userData))
                 (default "student" (UserData.role userData)))
              jwt_secret (now w) Hsec) as (decoded & Hv & Hid).
  rewrite <- Htok, <- Hnow in Hv.
  unfold getProfileRoute, respond, mbind, M_bind, Mbind.
  rewrite (authenticate_bearer _ _ _ _ Hv).
  unfold getProfile. cbn [reqUser]. rewrite Hid. cbn [Claims.id].
  unfold getUserById. mstep.
  destruct Hok1 as [Hnd _].
  pose proof (find_byId_NoDup _ u Hnd Hin) as Hf.
  change (_id u) with (nextId w) in Hf. now rewrite Hf.
Qed.

End RoundTrip.

(** ** What [save] keeps *)

Section Invariants.
Context `{StringPrototype, MongooseMessages, Config, BcryptJs, JsonWebToken}.

Lemma updateById_Forall (P : User -> Prop) i f us us' :
  updateById i f us = Some us' ->
  (forall v, P v -> P (f v)) -> Forall P us -> Forall P us'.
Proof.
  intros Hu Hf. revert us' Hu.
  induction us as [|v r IH]; intros us' Hu Hall; [done|].
  simpl in Hu. apply Forall_cons in Hall as [Hv Hr].
  destruct (byId i v).
  - injection Hu as <-. apply Forall_cons. auto.
  - destruct (updateById i f r) as [r'|]; [|done].
    injection Hu as <-. apply Forall_cons. auto.
Qed.

Lemma applyChanges_password_cases d v :
  password (applyChanges d v)
  = if isModified "password" d then password (fields d) else password v.
Proof. unfold applyChanges. now repeat case_match. Qed.

Lemma duplicateKey_None u us :
  duplicateKey u us = None -> email u ∉ email <$> us.
Proof.
  intros Hd Hin. apply list_elem_of_fmap in Hin as (v & E & Hv).
  now rewrite (duplicateKey_email u us v Hv) in Hd.
Qed.

(** What a [save] can do to the collection, whatever it returns. *)
Lemma save_cases d w r w' :
  save d w = (r, w') ->
  nextId w' = nextId w /\ now w' = now w /\
  (users w' = users w \/
   (isNew d = true /\
    exists u, users w' = users w ++ [u] /\ duplicateKey u (users w) = None /\
              _id u = _id (fields d) /\ email u = email (fields d) /\
              (isModified "password" d = true ->
               exists s salt, password u = bcrypt_hash s salt)) \/
   (isNew d = false /\
    exists d1, updateById (_id (fields d)) (applyChanges d1) (users w)
               = Some (users w') /\
               (isModified "password" d1 = true ->
                exists s salt, password (fields d1) = bcrypt_hash s salt))).
Proof.
  unfold save, validateDocument. mstep.
  destruct (validationErrors d); [|intros [= <- <-]; auto]. simpl.
  destruct (isModified "password" d) eqn:Hm.
  - rewrite (preSave_modified _ _ Hm). simpl.
    destruct (isNew d) eqn:Hn.
    + unfold insertOne. mstep.
      match goal with |- context [duplicateKey ?u ?l] =>
        destruct (duplicateKey u l) eqn:Hd end;
        intros [= <- <-]; simpl; [auto|].
      split; [done|]. split; [done|]. right. left. split; [done|].
      eexists. repeat split; eauto.
    + unfold updateOne. mstep.
      match goal with |- context [updateById ?i (applyChanges ?d1) ?l] =>
        destruct (updateById i (applyChanges d1) l) as [us|] eqn:Hu;
        intros [= <- <-]; simpl; [|auto];
        split; [done|]; split; [done|]; right; right; split; [done|];
        exists d1
      end.
      split; [done|]. simpl. eauto.
  - rewrite (preSave_unmodified _ _ Hm).
    destruct (isNew d) eqn:Hn.
    + unfold insertOne. mstep.
      destruct (duplicateKey (fields d) (users w)) eqn:Hd;
        intros [= <- <-]; simpl; [auto|].
      split; [done|]. split; [done|]. right. left. split; [done|].
      eexists. repeat split; eauto. done.
    + unfold updateOne. destruct (modifiedPaths d) eqn:Hp; mstep;
        [intros [= <- <-]; auto|].
      destruct (updateById (_id (fields d)) (applyChanges d) (users w))
        as [us|] eqn:Hu; intros [= <- <-]; simpl; [|auto].
      split; [done|]. split; [done|]. right. right. split; [done|].
      exists d. split; [done|]. congruence.
Qed.

Lemma save_Ok_doc d w d' w' :
  save d w = (Ok d', w') ->
  isNew d' = false /\ _id (fields d') = _id (fields d) /\
  (isModified "password" d' = false).
Proof.
  unfold save, validateDocument. mstep.
  destruct (validationErrors d); [|done]. simpl.
  destruct (isModified "password" d) eqn:Hm.
  - rewrite (preSave_modified _ _ Hm). simpl.
    match goal with |- context [(if isNew d then ?a else ?b) ?x] =>
      destruct ((if isNew d then a else b) x) as [[[]|?] ?] end; [|done].
    now intros [= <- <-].
  - rewrite (preSave_unmodified _ _ Hm).
    match goal with |- context [(if isNew d then ?a else ?b) ?x] =>
      destruct ((if isNew d then a else b) x) as [[[]|?] ?] end; [|done].
    now intros [= <- <-].
Qed.

(** The invariant that the identifiers give. *)
Lemma WorldOk_append w w' u :
  WorldOk w -> users w' = users w ++ [u] -> _id u < nextId w ->
  (forall v, v ∈ users w -> _id v <> _id u) ->
  nextId w' = nextId w -> WorldOk w'.
Proof.
  intros [Hnd Hfresh] Hus Hid Hne Hn. split.
  - rewrite Hus, fmap_app. apply NoDup_app. split; [done|]. split.
    + intros i Hi Hi'. apply list_elem_of_fmap in Hi as (v & -> & Hv).
      apply list_elem_of_singleton in Hi'. now apply (Hne v).
    + apply NoDup_singleton.
  - rewrite Hus, Hn. intros v [Hv| ->%list_elem_of_singleton]%elem_of_app;
      auto.
Qed.

(** [save] keeps the identifiers distinct, for a loaded document and for a
    new one whose identifier is fresh. *)
Lemma save_WorldOk d w r w' :
  WorldOk w -> save d w = (r, w') ->
  (isNew d = true ->
   _id (fields d) < nextId w /\
   forall v, v ∈ users w -> _id v <> _id (fields d)) ->
  WorldOk w'.
Proof.
  intros Hok Hs Hnew.
  apply save_cases in Hs
    as (Hn & _ & [Hu|[(Hi & u & Hu & _ & Hid & _)|(Hi & d1 & Hu & _)]]).
  - apply (WorldOk_ids w); [now rewrite Hu|lia|done].
  - destruct (Hnew Hi) as [Hlt Hne].
    apply (WorldOk_append w w' u); try done; now rewrite Hid.
  - apply (WorldOk_ids w); [|lia|done].
    apply (updateById_fmap _id) in Hu; [done|]. apply applyChanges_id.
Qed.

Lemma save_EmailsUnique d w r w' :
  EmailsUnique w -> save d w = (r, w') -> EmailsUnique w'.
Proof.
  unfold EmailsUnique. intros Hok Hs.
  apply save_cases in Hs
    as (Hn & _ & [Hu|[(Hi & u & Hu & Hd & _)|(Hi & d1 & Hu & _)]]).
  - now rewrite Hu.
  - rewrite Hu, fmap_app. apply NoDup_app. split; [done|]. split.
    + intros e He ->%list_elem_of_singleton.
      now apply duplicateKey_None in Hd.
    + apply NoDup_singleton.
  - apply (updateById_fmap email) in Hu; [now rewrite Hu|].
    apply applyChanges_email.
Qed.

Lemma save_PasswordsHashed d w r w' :
  PasswordsHashed w -> save d w = (r, w') ->
  (isNew d = true -> isModified "password" d = true) ->
  PasswordsHashed w'.
Proof.
  unfold PasswordsHashed. intros Hok Hs Hnew.
  apply save_cases in Hs
    as (Hn & _ & [Hu|[(Hi & u & Hu & _ & _ & _ & Hp)|(Hi & d1 & Hu & Hp)]]).
  - now rewrite Hu.
  - rewrite Hu. apply Forall_app. split; [done|].
    apply Forall_singleton. auto.
  - apply (updateById_Forall _ _ _ _ _ Hu); [|done].
    intros v Hv. rewrite applyChanges_password_cases.
    destruct (isModified "password" d1); auto.
Qed.

End Invariants.

Lemma bind_cases {A B} (m : M A) (k : A -> M B) w r w' :
  (m ≫= k) w = (r, w') ->
  (exists e, m w = (Throw e, w') /\ r = Throw e) \/
  exists a w1, m w = (Ok a, w1) /\ k a w1 = (r, w').
Proof.
  unfold mbind, M_bind, Mbind. destruct (m w) as [[a|e] w1]; [eauto|].
  intros [= <- <-]. eauto.
Qed.

(** ** What every call keeps *)

Section Kept.
Context `{StringPrototype, MongooseMessages, Config, BcryptJs, JsonWebToken}.

Section Loaded.
Variable Inv : World -> Prop.
Hypothesis Inv_save :
  forall d w r w', isNew d = false -> Inv w -> save d w = (r, w') -> Inv w'.

Lemma generateTokens_kept user w r w' :
  isNew user = false -> Inv w -> generateTokens user w = (r, w') -> Inv w'.
Proof.
  intros Hn Hi. unfold generateTokens, jwtSign, pushRefreshToken. mstep.
  destruct (jwt_signError jwt_secret jwt_expiresIn); [now intros [= <- <-]|].
  destruct (jwt_signError jwt_refreshSecret jwt_refreshExpiresIn);
    [now intros [= <- <-]|].
  simpl.
  match goal with |- context [save ?d w] =>
    destruct (save d w) as [[d1|e] w1] eqn:Hs end;
    intros [= <- <-]; now apply Inv_save in Hs.
Qed.

Lemma loginUser_kept e p w r w' :
  Inv w -> loginUser e p w = (r, w') -> Inv w'.
Proof.
  intros Hi. unfold loginUser. mstep.
  destruct (find (byEmail e) (users w)) as [u|]; [|now intros [= <- <-]].
  destruct (comparePassword (hydrate u) p) as [[|]|?]; simpl;
    [|now intros [= <- <-]..].
  destruct (isActive u); simpl; [|now intros [= <- <-]].
  match goal with |- context [save ?d w] =>
    destruct (save d w) as [[d1|err] w1] eqn:Hs end.
  - pose proof (save_Ok_doc _ _ _ _ Hs) as (Hn & _).
    apply Inv_save in Hs; [|unfold assignLastLogin; now case_match|done].
    match goal with |- context [generateTokens d1 w1] =>
      destruct (generateTokens d1 w1) as [[[d2 toks]|err] w2] eqn:Hg end;
      intros [= <- <-]; now apply generateTokens_kept in Hg.
  - intros [= <- <-].
    apply Inv_save in Hs; [done|unfold assignLastLogin; now case_match|done].
Qed.

Lemma changePassword_kept userId cur new w r w' :
  Inv w -> changePassword userId cur new w = (r, w') -> Inv w'.
Proof.
  intros Hi. unfold changePassword. mstep.
  destruct (find (byId userId) (users w)) as [u|]; [|now intros [= <- <-]].
  destruct (comparePassword (hydrate u) cur) as [[|]|?]; simpl;
    [|now intros [= <- <-]..].
  match goal with |- context [save ?d w] =>
    destruct (save d w) as [[d1|err] w1] eqn:Hs end;
    intros [= <- <-];
    (apply Inv_save in Hs; [done|unfold assignPassword; now case_match|done]).
Qed.

Hypothesis Inv_new :
  forall userData w d w1 r w',
    Inv w -> newUser userData w = (Ok d, w1) -> save d w1 = (r, w') -> Inv w'.

Lemma createUser_kept userData w r w' :
  Inv w -> createUser userData w = (r, w') -> Inv w'.
Proof.
  intros Hi. unfold createUser. intros Hc.
  pose proof (checkAvailable_world userData w) as Hw.
  apply bind_cases in Hc as [(e & Hc & _)|([] & w1 & Hc & Hp)];
    rewrite Hc in Hw; simpl in Hw; subst; [done|].
  unfold persistUser in Hp.
  apply bind_cases in Hp as [(e & Hp & _)|(d & w1 & Hd & Hp)]; [done|].
  apply bind_cases in Hp as [(e & Hp & _)|(d1 & w2 & Hs & Hp)].
  { now apply (Inv_new _ _ _ _ _ _ Hi Hd Hp). }
  pose proof (save_Ok_doc _ _ _ _ Hs) as (Hn & _).
  apply (Inv_new _ _ _ _ _ _ Hi Hd) in Hs.
  apply bind_cases in Hp as [(e & Hp & _)|([d2 toks] & w3 & Hg & Hp)].
  - now apply generateTokens_kept in Hp.
  - apply generateTokens_kept in Hg; [|done|done].
    mstep. now injection Hp as <- <-.
Qed.

End Loaded.

(** What [findByIdAndUpdate] can do to the collection. *)
Lemma findByIdAndUpdate_cases userId updateData rv w r w' :
  findByIdAndUpdate userId updateData rv w = (r, w') ->
  w' = w \/
  exists u msgs f us,
    castUpdate (now w) updateData schemaPaths = Ok (msgs, f) /\
    find (byId userId) (users w) = Some u /\
    duplicateKeyOnUpdate u (f u) (users w) = None /\
    updateById userId f (users w) = Some us /\
    w' = with_users us w.
Proof.
  unfold findByIdAndUpdate, mbind, M_bind, Mbind, mret, M_ret, Mret, get,
    modify, throw.
  destruct (castUpdate (now w) updateData schemaPaths) as [[msgs f]|?] eqn:Hc;
    [|intros [= <- <-]; auto].
  destruct (if rv then msgs else []); [|intros [= <- <-]; auto].
  destruct (find (byId userId) (users w)) as [u|] eqn:Hf;
    [|intros [= <- <-]; auto].
  destruct (duplicateKeyOnUpdate _ _ _) eqn:Hd; [intros [= <- <-]; auto|].
  destruct (updateById userId f (users w)) as [us|] eqn:Hu;
    intros [= <- <-]; [|auto].
  right. exists u, msgs, f, us. done.
Qed.

Lemma updateUser_cases userId updateData w r w' :
  updateUser userId updateData w = (r, w') ->
  w' = w \/
  exists u msgs f us,
    castUpdate (now w) updateData schemaPaths = Ok (msgs, f) /\
    find (byId userId) (users w) = Some u /\
    duplicateKeyOnUpdate u (f u) (users w) = None /\
    updateById userId f (users w) = Some us /\
    w' = with_users us w.
Proof.
  unfold updateUser. intros Hu.
  apply bind_cases in Hu as [(e & Hu & _)|(a & w1 & Hc & Hu)].
  { left. now apply updateUser_check_world in Hu. }
  apply updateUser_check_world in Hc. subst w1.
  apply bind_cases in Hu as [(e & Hu & _)|(o & w1 & Hf & Hu)].
  { now apply findByIdAndUpdate_cases in Hu. }
  apply findByIdAndUpdate_cases in Hf.
  destruct o; mstep; now injection Hu as <- <-.
Qed.

Lemma deleteUser_cases userId w r w' :
  deleteUser userId w = (r, w') ->
  w' = w \/
  exists us,
    updateById userId (set_isActive false) (users w) = Some us /\
    w' = with_users us w.
Proof.
  rewrite deleteUser_run.
  destruct (find (byId userId) (users w)); [|intros [= <- <-]; auto].
  destruct (updateById userId (set_isActive false) (users w)) as [us|];
    intros [= <- <-]; eauto.
Qed.

(** The unique index on [email], when the users with one [_id] are
    replaced. *)
Lemma NoDup_email_replace i g us :
  NoDup (_id <$> us) -> NoDup (email <$> us) ->
  (forall u, u ∈ us -> _id u = i ->
     email (g u) = email u \/
     forall v, v ∈ us -> _id v <> _id u -> email v <> email (g u)) ->
  NoDup (email <$> ((fun v => if byId i v then g v else v) <$> us)).
Proof.
  induction us as [|x r IH]; intros Hids Hem Hg; [constructor|].
  rewrite !fmap_cons in *.
  apply NoDup_cons in Hids as [Hx Hids]. apply NoDup_cons in Hem as [Hex Hem].
  apply NoDup_cons. split.
  - intros Hin. apply list_elem_of_fmap in Hin as (y' & Ey & Hy').
    apply list_elem_of_fmap in Hy' as (y & -> & Hy).
    assert (_id y <> _id x) as Hne.
    { intros E. apply Hx. rewrite <- E. now apply list_elem_of_fmap_2. }
    assert (email y <> email x) as Hne'.
    { intros E. apply Hex. rewrite <- E. now apply list_elem_of_fmap_2. }
    unfold byId in Ey.
    destruct (decide (_id x = i)) as [Ex|Ex].
    + rewrite (bool_decide_eq_true_2 _ Ex) in Ey.
      rewrite bool_decide_eq_false_2 in Ey by congruence.
      destruct (Hg x) as [E|E]; [now left|done|congruence|].
      apply (E y); [now right|done|done].
    + rewrite (bool_decide_eq_false_2 _ Ex) in Ey.
      case_bool_decide as Ey'; [|congruence].
      destruct (Hg y) as [E|E]; [now right|done|congruence|].
      apply (E x); [now left|congruence|done].
  - apply IH; [done|done|].
    intros u Hu Hi. destruct (Hg u) as [E|E]; [now right|done|now left|].
    right. intros v Hv. apply E. now right.
Qed.

Lemma duplicateKeyOnUpdate_None u u' us :
  duplicateKeyOnUpdate u u' us = None ->
  email u' = email u \/
  forall v, v ∈ us -> _id v <> _id u -> email v <> email u'.
Proof.
  unfold duplicateKeyOnUpdate. intros Hd.
  destruct (decide (email u' = email u)) as [E|E]; [now left|right].
  rewrite (bool_decide_eq_false_2 _ E) in Hd. simpl in Hd.
  match type of Hd with (if existsb ?p ?l then _ else _) = _ =>
    destruct (existsb p l) eqn:Hex end; [done|].
  intros v Hv Hne Hv'.
  apply not_true_iff_false in Hex. apply Hex.
  apply existsb_exists. exists v. split.
  - now apply list_elem_of_In, list_elem_of_filter.
  - now apply bool_decide_eq_true_2.
Qed.

(** ** The three invariants, call by call *)

Lemma save_loaded_WorldOk d w r w' :
  isNew d = false -> WorldOk w -> save d w = (r, w') -> WorldOk w'.
Proof.
  intros Hn Hok Hs. apply (save_WorldOk d w r w' Hok Hs). congruence.
Qed.

Lemma save_new_WorldOk userData w d w1 r w' :
  WorldOk w -> newUser userData w = (Ok d, w1) -> save d w1 = (r, w') ->
  WorldOk w'.
Proof.
  intros Hok Hd Hs. unfold newUser in Hd. mstep. injection Hd as <- <-.
  destruct Hok as [Hnd Hfresh].
  apply (save_WorldOk _ _ _ _) in Hs; [done| |].
  - split; [done|]. simpl. intros u Hu. apply Hfresh in Hu. lia.
  - simpl. intros _. split; [lia|]. intros v Hv. apply Hfresh in Hv. lia.
Qed.

Lemma save_loaded_EmailsUnique d w r w' :
  isNew d = false -> EmailsUnique w -> save d w = (r, w') -> EmailsUnique w'.
Proof. intros _. apply save_EmailsUnique. Qed.

Lemma save_new_EmailsUnique userData w d w1 r w' :
  EmailsUnique w -> newUser userData w = (Ok d, w1) -> save d w1 = (r, w') ->
  EmailsUnique w'.
Proof.
  intros Hok Hd Hs. unfold newUser in Hd. mstep. injection Hd as <- <-.
  now apply save_EmailsUnique in Hs.
Qed.

Lemma save_loaded_PasswordsHashed d w r w' :
  isNew d = false -> PasswordsHashed w -> save d w = (r, w') ->
  PasswordsHashed w'.
Proof.
  intros Hn Hok Hs. apply (save_PasswordsHashed d w r w' Hok Hs). congruence.
Qed.

Lemma save_new_PasswordsHashed userData w d w1 r w' :
  PasswordsHashed w -> newUser userData w = (Ok d, w1) ->
  save d w1 = (r, w') -> PasswordsHashed w'.
Proof.
  intros Hok Hd Hs. unfold newUser in Hd. mstep. injection Hd as <- <-.
  apply save_PasswordsHashed in Hs; [done|done|]. intros _.
  apply bool_decide_eq_true_2. simpl. set_solver.
Qed.

Lemma getUserById_world userId w : (getUserById userId w).2 = w.
Proof.
  unfold getUserById. mstep. now destruct (find (byId userId) (users w)).
Qed.

Lemma runCall_WorldOk c w : WorldOk w -> WorldOk (runCall c w).
Proof.
  intros Hok. destruct c as [userData|e p|i|i data|i|i cur new|t]; simpl.
  - destruct (createUser userData w) as [r w'] eqn:E.
    apply (createUser_kept WorldOk save_loaded_WorldOk save_new_WorldOk
             _ _ _ _ Hok E).
  - destruct (loginUser e p w) as [r w'] eqn:E.
    apply (loginUser_kept WorldOk save_loaded_WorldOk _ _ _ _ _ Hok E).
  - now rewrite getUserById_world.
  - destruct (updateUser i data w) as [r w'] eqn:E.
    apply updateUser_cases in E
      as [->|(u & msgs & f & us & Hc & _ & _ & Hu & ->)]; [done|].
    apply (WorldOk_ids w); [|done|done]. simpl.
    apply (updateById_fmap _id) in Hu; [done|].
    intros v. now apply (castUpdate_id _ _ _ _ _ _ Hc).
  - destruct (deleteUser i w) as [r w'] eqn:E.
    apply deleteUser_cases in E as [->|(us & Hu & ->)]; [done|].
    apply (WorldOk_ids w); [|done|done]. simpl.
    now apply (updateById_fmap _id) in Hu.
  - destruct (changePassword i cur new w) as [r w'] eqn:E.
    apply (changePassword_kept WorldOk save_loaded_WorldOk _ _ _ _ _ _ Hok E).
  - done.
Qed.

Lemma runCall_EmailsUnique c w :
  WorldOk w -> EmailsUnique w -> EmailsUnique (runCall c w).
Proof.
  intros Hok Hem. destruct c as [userData|e p|i|i data|i|i cur new|t]; simpl.
  - destruct (createUser userData w) as [r w'] eqn:E.
    apply (createUser_kept EmailsUnique save_loaded_EmailsUnique
             save_new_EmailsUnique _ _ _ _ Hem E).
  - destruct (loginUser e p w) as [r w'] eqn:E.
    apply (loginUser_kept EmailsUnique save_loaded_EmailsUnique
             _ _ _ _ _ Hem E).
  - now rewrite getUserById_world.
  - destruct (updateUser i data w) as [r w'] eqn:E.
    apply updateUser_cases in E
      as [->|(u & msgs & f & us & Hc & Hf & Hd & Hu & ->)]; [done|].
    destruct Hok as [Hnd _]. unfold EmailsUnique. simpl.
    rewrite (updateById_map _ _ _ _ Hnd Hu).
    apply NoDup_email_replace; [done|done|].
    intros x Hx Hi.
    assert (x = u) as ->.
    { rewrite <- Hi in Hf. rewrite (find_byId_NoDup _ x Hnd Hx) in Hf.
      congruence. }
    now apply duplicateKeyOnUpdate_None.
  - destruct (deleteUser i w) as [r w'] eqn:E.
    apply deleteUser_cases in E as [->|(us & Hu & ->)]; [done|].
    unfold EmailsUnique. simpl.
    apply (updateById_fmap email) in Hu; [now rewrite Hu|done].
  - destruct (changePassword i cur new w) as [r w'] eqn:E.
    apply (changePassword_kept EmailsUnique save_loaded_EmailsUnique
             _ _ _ _ _ _ Hem E).
  - done.
Qed.

Lemma runCall_PasswordsHashed c w :
  namesPassword c = false ->
  PasswordsHashed w -> PasswordsHashed (runCall c w).
Proof.
  intros Hc Hok. destruct c as [userData|e p|i|i data|i|i cur new|t]; simpl.
  - destruct (createUser userData w) as [r w'] eqn:E.
    apply (createUser_kept PasswordsHashed save_loaded_PasswordsHashed
             save_new_PasswordsHashed _ _ _ _ Hok E).
  - destruct (loginUser e p w) as [r w'] eqn:E.
    apply (loginUser_kept PasswordsHashed save_loaded_PasswordsHashed
             _ _ _ _ _ Hok E).
  - now rewrite getUserById_world.
  - destruct (updateUser i data w) as [r w'] eqn:E.
    apply updateUser_cases in E
      as [->|(u & msgs & f & us & Hcu & _ & _ & Hu & ->)]; [done|].
    unfold PasswordsHashed. simpl.
    apply (updateById_Forall _ _ _ _ _ Hu); [|done].
    intros v Hv. simpl in Hc. apply bool_decide_eq_false_1 in Hc.
    apply eq_None_not_Some in Hc.
    rewrite (castUpdate_keeps password "password" _ _ _ _ _ _
               (fun path x m g y => castPath_keeps_password _ path x m g y)
               Hc Hcu).
    done.
  - destruct (deleteUser i w) as [r w'] eqn:E.
    apply deleteUser_cases in E as [->|(us & Hu & ->)]; [done|].
    unfold PasswordsHashed. simpl.
    now apply (updateById_Forall _ _ _ _ _ Hu).
  - destruct (changePassword i cur new w) as [r w'] eqn:E.
    apply (changePassword_kept PasswordsHashed save_loaded_PasswordsHashed
             _ _ _ _ _ _ Hok E).
  - done.
Qed.

(** X21.  Along every sequence of calls of the service, resolved or thrown,
    the stored users keep distinct [_id]s and distinct e-mails. *)
Theorem runCalls_unique cs w :
  WorldOk w -> EmailsUnique w ->
  WorldOk (runCalls cs w) /\ EmailsUnique (runCalls cs w).
Proof.
  revert w. induction cs as [|c cs IH]; intros w Hok Hem; [done|].
  simpl. apply IH; [now apply runCall_WorldOk|now apply runCall_EmailsUnique].
Qed.

(** X22.  Along every sequence of calls in which no [updateUser] names
    [password], every stored password is a hash made by [bcryptjs]: no
    call stores the clear text. *)
Theorem runCalls_PasswordsHashed cs w :
  forallb (fun c => negb (namesPassword c)) cs = true ->
  PasswordsHashed w -> PasswordsHashed (runCalls cs w).
Proof.
  revert w. induction cs as [|c cs IH]; intros w Hcs Hok; [done|].
  simpl in *. apply andb_true_iff in Hcs as [Hc Hcs].
  apply IH; [done|]. apply runCall_PasswordsHashed; [|done].
  now apply negb_true_iff.
Qed.

End Kept.

(** ** The password after a change *)

Section Replaced.
Context `{StringPrototype, MongooseMessages, Config, BcryptJs, JsonWebToken, !BcryptSpec}.

Lemma find_fmap_kept (p : User -> bool) (g : User -> User) us :
  (forall v, p (g v) = p v) -> find p (g <$> us) = g <$> find p us.
Proof.
  intros Hp. induction us as [|v r IH]; [done|].
  rewrite fmap_cons. simpl. rewrite Hp. now destruct (p v).
Qed.

(** X23.  A successful [changePassword] to a string other than the stored hash
    replaces the hash of that user and nothing else; afterwards the
    password of the account is the new one: [comparePassword] resolves to
    whether the candidate hashes, with the salt just drawn, to the new
    hash, as every string with the key of the new password does, and a
    login with a password that does not is refused with 401. *)
Theorem changePassword_replaces userId cur new w r w' u :
  WorldOk w ->
  find (byId userId) (users w) = Some u ->
  new <> password u ->
  changePassword userId cur new w = (Ok r, w') ->
  let salt := bcrypt_genSalt bcrypt_saltRounds (entropy w) in
  let h := bcrypt_hash new salt in
  users w' = (fun v => if byId userId v then set_password h v else v)
             <$> users w /\
  (forall p, comparePassword (hydrate (set_password h u)) p
             = Ok (bool_decide (bcrypt_hash p salt = h))) /\
  (forall p, bcryptKey p = bcryptKey new ->
             comparePassword (hydrate (set_password h u)) p = Ok true) /\
  (forall e p,
      find (byEmail e) (users w) = Some u ->
      bcrypt_hash p salt <> h ->
      loginUser e p w'
      = (Throw (newAppError "Invalid email or password" 401), w')).
Proof.
  intros [Hnd _] Hf Hne Hc salt h.
  assert (users w' = (fun v => if byId userId v then set_password h v else v)
                     <$> users w) as Hus.
  { revert Hc. unfold changePassword. mstep. rewrite Hf.
    destruct (comparePassword (hydrate u) cur) as [[|]|?]; [|done..]. simpl.
    unfold assignPassword. simpl.
    rewrite (bool_decide_eq_false_2 _ Hne). simpl.
    match goal with |- context [save ?d w] =>
      destruct (save d w) as [[d1|?] w1] eqn:Hs end; [|done].
    apply save_password_changed in Hs as (us & Hu & ->); [|done..].
    intros [= _ <-]. simpl in *.
    rewrite (find_byId_id _ _ _ Hf) in Hu.
    apply (updateById_map userId); [done|].
    erewrite updateById_ext; [exact Hu|].
    intros v. unfold applyChanges. simpl.
    destruct v. simpl. now rewrite app_nil_r. }
  split; [done|].
  assert (forall p, comparePassword (hydrate (set_password h u)) p
                    = Ok (bool_decide (bcrypt_hash p salt = h))) as Hcmp.
  { intros p. unfold comparePassword. simpl. apply bcrypt_compare_hash. }
  split; [done|]. split.
  { intros p K. rewrite Hcmp. unfold h, salt.
    now rewrite (bcrypt_hash_key _ _ _ _ K), bool_decide_eq_true_2. }
  intros e p He Hp.
  apply loginUser_wrong_password with (u := set_password h u).
  - rewrite Hus. rewrite find_fmap_kept.
    + rewrite He. simpl. unfold byId.
      now rewrite (bool_decide_eq_true_2 _ (find_byId_id _ _ _ Hf)).
    + intros v. unfold byEmail. now destruct (byId userId v).
  - rewrite Hcmp. now rewrite bool_decide_eq_false_2.
Qed.

End Replaced.

(** ** A password sent to [updateUser] *)

Section Unhashed.
Context `{StringPrototype, MongooseMessages, Config, BcryptJs, JsonWebToken}.

Lemma castUpdate_password t s :
  castUpdate t {["password" := JStr s]} schemaPaths
  = Ok ((if Js.truthy s
         then if Js.length s <? 8
              then [message_minlength "password" s 8] else []
         else [message_required "password"]) ++ [],
        fun u => set_password s u).
Proof. vm_compute. reflexivity. Qed.

(** X24.  [updateUser] with [{ password: s }], for [s] of 8 UTF-16 code
    units or more, stores [s] itself as the password of the user: no hash
    is computed on this path. *)
Theorem updateUser_password_unhashed userId s w u :
  WorldOk w ->
  find (byId userId) (users w) = Some u ->
  8 <= Js.length s ->
  exists w',
    updateUser userId {["password" := JStr s]} w
    = (Ok (set_password s u), w') /\
    users w' = (fun v => if byId userId v then set_password s v else v)
               <$> users w /\
    find (byId userId) (users w') = Some (set_password s u) /\
    hashCalls w' = hashCalls w /\ entropy w' = entropy w.
Proof.
  intros [Hnd _] Hf Hlen.
  destruct (updateById_Some userId (set_password s) _ _ Hf) as [us Hus].
  exists (with_users us w).
  assert (users (with_users us w)
          = (fun v => if byId userId v then set_password s v else v)
            <$> users w) as Hmap.
  { simpl. now apply updateById_map. }
  split; [|split; [done|split; [|done]]].
  - unfold updateUser.
    replace ({["password" := JStr s]} !! "username")
      with (@None JVal) by (vm_compute; reflexivity).
    unfold findByIdAndUpdate. mstep.
    rewrite castUpdate_password.
    assert (Js.truthy s = true) as -> by (destruct s; [simpl in Hlen; lia|done]).
    assert ((Js.length s <? 8) = false) as -> by (apply Nat.ltb_ge; lia).
    simpl. rewrite Hf.
    assert (duplicateKeyOnUpdate u (set_password s u) (users w) = None) as ->.
    { unfold duplicateKeyOnUpdate. simpl.
      rewrite bool_decide_eq_true_2 by done. simpl.
      destruct (username u); [|done].
      now rewrite bool_decide_eq_true_2 by done. }
    change (fun u0 : User => set_password s u0) with (set_password s).
    now rewrite Hus.
  - rewrite Hmap. rewrite find_fmap_kept.
    + rewrite Hf. simpl. unfold byId.
      now rewrite (bool_decide_eq_true_2 _ (find_byId_id _ _ _ Hf)).
    + intros v. unfold byId.
      destruct (bool_decide (_id v = userId)) eqn:E; simpl; now rewrite E.
Qed.

End Unhashed.

(** ** The setters of the schema *)

Section Setters.

Lemma append_empty_r s : s +:+ "" = s.
Proof.
  induction s as [|c s IH]; [done|].
  change (String c (s +:+ "") = String c s). now rewrite IH.
Qed.

Lemma append_assoc' (a b c : string) : (a +:+ b) +:+ c = a +:+ (b +:+ c).
Proof.
  induction a as [|x a IH]; [done|].
  change (String x ((a +:+ b) +:+ c) = String x (a +:+ (b +:+ c))).
  now rewrite IH.
Qed.

Lemma rev_app_append s acc : String.rev_app s acc = String.rev s +:+ acc.
Proof.
  unfold String.rev. revert acc.
  induction s as [|c s IH]; intros acc; [done|]. simpl.
  rewrite (IH (String c acc)), (IH (String c "")).
  now rewrite append_assoc'.
Qed.

Lemma rev_cons c s : String.rev (String c s) = String.rev s +:+ String c "".
Proof. unfold String.rev at 1. simpl. apply rev_app_append. Qed.

Lemma rev_append a b : String.rev (a +:+ b) = String.rev b +:+ String.rev a.
Proof.
  induction a as [|c a IH].
  - change (String.rev b = String.rev b +:+ ""). now rewrite append_empty_r.
  - change (String.rev (String c (a +:+ b))
            = String.rev b +:+ String.rev (String c a)).
    rewrite !rev_cons, IH. apply append_assoc'.
Qed.

Lemma rev_involutive s : String.rev (String.rev s) = s.
Proof.
  induction s as [|c s IH]; [done|].
  rewrite rev_cons, rev_append, IH. done.
Qed.

Lemma trimStart_length s : String.length (Js.trimStart s) <= String.length s.
Proof.
  induction s as [|c s IH]; [done|]. simpl.
  destruct (Ascii.is_space c); simpl; lia.
Qed.

Lemma trimStart_fixed s :
  Js.trimStart s = s <->
  match s with EmptyString => True | String c _ => Ascii.is_space c = false end.
Proof.
  destruct s as [|c s]; [done|]. simpl.
  destruct (Ascii.is_space c) eqn:E; [|done]. split; [|done].
  intros Hs. pose proof (trimStart_length s) as Hl. rewrite Hs in Hl.
  simpl in Hl. lia.
Qed.

Lemma trimStart_idempotent s : Js.trimStart (Js.trimStart s) = Js.trimStart s.
Proof.
  induction s as [|c s IH]; [done|]. simpl.
  destruct (Ascii.is_space c) eqn:E; [done|]. simpl. now rewrite E.
Qed.

(** A string that does not end in white space keeps that when characters
    are taken from its front. *)
Lemma trimmedEnd_tail c s :
  s <> "" ->
  Js.trimStart (String.rev (String c s)) = String.rev (String c s) ->
  Js.trimStart (String.rev s) = String.rev s.
Proof.
  rewrite rev_cons. intros Hne.
  destruct (String.rev s) as [|d r] eqn:Hr.
  - exfalso. apply Hne. rewrite <- (rev_involutive s), Hr. done.
  - change (String d r +:+ String c "") with (String d (r +:+ String c "")).
    rewrite !trimStart_fixed. done.
Qed.

Lemma trimmedEnd_trimStart s :
  Js.trimStart (String.rev s) = String.rev s ->
  Js.trimStart (String.rev (Js.trimStart s)) = String.rev (Js.trimStart s).
Proof.
  induction s as [|c s IH]; [done|]. simpl.
  destruct (Ascii.is_space c); [|done]. intros Hs.
  destruct s as [|d s]; [done|]. apply IH.
  now apply trimmedEnd_tail in Hs.
Qed.

Lemma trim_idempotent s : Js.asciiTrim (Js.asciiTrim s) = Js.asciiTrim s.
Proof.
  unfold Js.asciiTrim.
  pose proof (trimmedEnd_trimStart (String.rev (Js.trimStart s))) as Ht.
  rewrite rev_involutive, trimStart_idempotent in Ht.
  rewrite (Ht eq_refl), rev_involutive.
  now rewrite trimStart_idempotent.
Qed.

Lemma is_space_lowerChar c : Ascii.is_space (Js.lowerChar c) = Ascii.is_space c.
Proof. destruct c as [[] [] [] [] [] [] [] []]; reflexivity. Qed.

Lemma lowerChar_idempotent c : Js.lowerChar (Js.lowerChar c) = Js.lowerChar c.
Proof. destruct c as [[] [] [] [] [] [] [] []]; reflexivity. Qed.

Lemma toLowerCase_idempotent s :
  Js.asciiToLowerCase (Js.asciiToLowerCase s) = Js.asciiToLowerCase s.
Proof.
  induction s as [|c s IH]; [done|]. simpl.
  now rewrite lowerChar_idempotent, IH.
Qed.

Lemma toLowerCase_append a b :
  Js.asciiToLowerCase (a +:+ b) = Js.asciiToLowerCase a +:+ Js.asciiToLowerCase b.
Proof.
  induction a as [|c a IH]; [done|].
  change (String (Js.lowerChar c) (Js.asciiToLowerCase (a +:+ b))
          = String (Js.lowerChar c) (Js.asciiToLowerCase a +:+ Js.asciiToLowerCase b)).
  now rewrite IH.
Qed.

Lemma toLowerCase_rev s :
  Js.asciiToLowerCase (String.rev s) = String.rev (Js.asciiToLowerCase s).
Proof.
  induction s as [|c s IH]; [done|].
  change (Js.asciiToLowerCase (String c s))
    with (String (Js.lowerChar c) (Js.asciiToLowerCase s)).
  rewrite !rev_cons, toLowerCase_append, IH. done.
Qed.

Lemma toLowerCase_trimStart s :
  Js.asciiToLowerCase (Js.trimStart s) = Js.trimStart (Js.asciiToLowerCase s).
Proof.
  induction s as [|c s IH]; [done|]. simpl.
  rewrite is_space_lowerChar. now destruct (Ascii.is_space c).
Qed.

Lemma toLowerCase_trim s :
  Js.asciiToLowerCase (Js.asciiTrim s) = Js.asciiTrim (Js.asciiToLowerCase s).
Proof.
  unfold Js.asciiTrim.
  now rewrite toLowerCase_rev, toLowerCase_trimStart, toLowerCase_rev,
    toLowerCase_trimStart.
Qed.

(** The setter of [email] on ASCII strings. *)
Lemma asciiCastEmail_idempotent s :
  Js.asciiToLowerCase (Js.asciiTrim (Js.asciiToLowerCase (Js.asciiTrim s)))
  = Js.asciiToLowerCase (Js.asciiTrim s).
Proof.
  now rewrite <- toLowerCase_trim, toLowerCase_idempotent, trim_idempotent.
Qed.

End Setters.

(** ** Stored e-mails *)

Section Found.
Context `{StringPrototype, MongooseMessages, Config, BcryptJs, JsonWebToken,
          !SettersIdempotent}.

Lemma castPath_email_cast t path v m g u :
  castPath t path v = Ok (Some (m, g)) ->
  castEmail (email u) = email u -> castEmail (email (g u)) = email (g u).
Proof.
  unfold castPath. intros Hc Hu.
  repeat case_match; simplify_eq; simpl; try done;
    apply castEmail_idempotent.
Qed.

Lemma castUpdate_email_cast t updateData paths msgs f u :
  castUpdate t updateData paths = Ok (msgs, f) ->
  castEmail (email u) = email u -> castEmail (email (f u)) = email (f u).
Proof.
  intros Hc Hu. revert msgs f Hc.
  induction paths as [|path rest IH]; intros msgs f.
  - now intros [= <- <-].
  - rewrite castUpdate_cons.
    destruct (castUpdate t updateData rest) as [[m0 f0]|?]; [|done].
    destruct (updateData !! path) as [v|];
      [|intros [= <- <-]; now apply (IH m0)].
    destruct (castPath t path v) as [[[m g]|]|?] eqn:Hc; [| |done].
    + intros [= <- <-]. apply (castPath_email_cast _ _ _ _ _ _ Hc).
      now apply (IH m0).
    + intros [= <- <-]. now apply (IH m0).
Qed.

Lemma save_loaded_EmailsCast d w r w' :
  isNew d = false -> EmailsCast w -> save d w = (r, w') -> EmailsCast w'.
Proof.
  unfold EmailsCast. intros Hn Hok Hs.
  apply save_cases in Hs
    as (_ & _ & [Hu|[(Hi & _)|(Hi & d1 & Hu & _)]]).
  - now rewrite Hu.
  - congruence.
  - apply (updateById_Forall _ _ _ _ _ Hu); [|done].
    intros v Hv. now rewrite applyChanges_email.
Qed.

Lemma save_new_EmailsCast userData w d w1 r w' :
  EmailsCast w -> newUser userData w = (Ok d, w1) -> save d w1 = (r, w') ->
  EmailsCast w'.
Proof.
  unfold EmailsCast. intros Hok Hd Hs. unfold newUser in Hd. mstep.
  injection Hd as <- <-.
  apply save_cases in Hs
    as (_ & _ & [Hu|[(Hi & u & Hu & _ & _ & He & _)|(Hi & _)]]).
  - now rewrite Hu.
  - rewrite Hu. apply Forall_app. split; [done|].
    apply Forall_singleton. rewrite He. simpl. apply castEmail_idempotent.
  - done.
Qed.

Lemma runCall_EmailsCast c w : EmailsCast w -> EmailsCast (runCall c w).
Proof.
  intros Hok. destruct c as [userData|e p|i|i data|i|i cur new|t]; simpl.
  - destruct (createUser userData w) as [r w'] eqn:E.
    apply (createUser_kept EmailsCast save_loaded_EmailsCast
             save_new_EmailsCast _ _ _ _ Hok E).
  - destruct (loginUser e p w) as [r w'] eqn:E.
    apply (loginUser_kept EmailsCast save_loaded_EmailsCast _ _ _ _ _ Hok E).
  - now rewrite getUserById_world.
  - destruct (updateUser i data w) as [r w'] eqn:E.
    apply updateUser_cases in E
      as [->|(u & msgs & f & us & Hc & _ & _ & Hu & ->)]; [done|].
    unfold EmailsCast. simpl.
    apply (updateById_Forall _ _ _ _ _ Hu); [|done].
    intros v. apply (castUpdate_email_cast _ _ _ _ _ _ Hc).
  - destruct (deleteUser i w) as [r w'] eqn:E.
    apply deleteUser_cases in E as [->|(us & Hu & ->)]; [done|].
    unfold EmailsCast. simpl.
    now apply (updateById_Forall _ _ _ _ _ Hu).
  - destruct (changePassword i cur new w) as [r w'] eqn:E.
    apply (changePassword_kept EmailsCast save_loaded_EmailsCast
             _ _ _ _ _ _ Hok E).
  - done.
Qed.

Lemma find_byEmail_stored us u :
  NoDup (email <$> us) -> u ∈ us -> castEmail (email u) = email u ->
  find (byEmail (email u)) us = Some u.
Proof.
  intros Hnd Hin Hu.
  assert (forall v, byEmail (email u) v = bool_decide (email v = email u))
    as Hby.
  { intros v. unfold byEmail. now rewrite Hu. }
  induction us as [|v r IH]; [now apply elem_of_nil in Hin|].
  rewrite fmap_cons in Hnd. apply NoDup_cons in Hnd as [Hv Hnd].
  simpl. rewrite Hby.
  apply elem_of_cons in Hin as [->|Hin].
  - now rewrite bool_decide_eq_true_2.
  - rewrite bool_decide_eq_false_2; [now apply IH|].
    intros E. apply Hv. rewrite E. now apply list_elem_of_fmap_2.
Qed.

(** X26.  When the setter of [email] changes nothing the second time, every
    stored user is, along every sequence of calls of the service, the one
    that a query by their stored e-mail finds. *)
Theorem runCalls_found_by_email cs w u :
  WorldOk w -> EmailsUnique w -> EmailsCast w ->
  u ∈ users (runCalls cs w) ->
  find (byEmail (email u)) (users (runCalls cs w)) = Some u.
Proof.
  intros Hok Hem Hc.
  assert (EmailsUnique (runCalls cs w) /\ EmailsCast (runCalls cs w))
    as [Hem' Hc'].
  { revert w Hok Hem Hc. induction cs as [|c cs IH]; intros w Hok Hem Hc;
      [done|].
    simpl. apply IH; [now apply runCall_WorldOk|
                      now apply runCall_EmailsUnique|
                      now apply runCall_EmailsCast]. }
  intros Hin. apply find_byEmail_stored; [done|done|].
  unfold EmailsCast in Hc'. rewrite Forall_forall in Hc'. now apply Hc'.
Qed.

End Found.

(** ** The sample packages meet the assumptions *)

Lemma take_length n s : n <= String.length s -> String.length (Js.take n s) = n.
Proof.
  revert s. induction n as [|n IH]; intros s; [done|].
  destruct s as [|c s]; simpl; [lia|]. intros Hn. rewrite IH; [done|lia].
Qed.

Lemma append_length (a b : string) :
  String.length (a +:+ b) = String.length a + String.length b.
Proof.
  induction a as [|c a IH]; [done|].
  change (S (String.length (a +:+ b)) = S (String.length a + String.length b)).
  now rewrite IH.
Qed.

Lemma repeat_length s n :
  1 <= String.length s -> n <= String.length (Js.repeat s n).
Proof.
  intros Hs. induction n as [|n IH]; [done|].
  change (Js.repeat s (S n)) with (s +:+ Js.repeat s n).
  rewrite append_length. lia.
Qed.

Lemma bcryptKey_length s : String.length (bcryptKey s) = 72.
Proof.
  unfold bcryptKey. apply take_length, repeat_length.
  rewrite append_length. simpl. lia.
Qed.

Lemma startsWith_append p s : Js.startsWith p (p +:+ s) = true.
Proof.
  induction p as [|c p IH]; [done|].
  change (Ascii.eqb c c && Js.startsWith p (p +:+ s) = true).
  now rewrite Ascii.eqb_refl, IH.
Qed.

Lemma take_append p s : Js.take (String.length p) (p +:+ s) = p.
Proof.
  induction p as [|c p IH]; [now destruct s|].
  change (String c (Js.take (String.length p) (p +:+ s)) = String c p).
  now rewrite IH.
Qed.

Lemma Sample_bcrypt_spec : @BcryptSpec Sample.bcrypt.
Proof.
  constructor; intros s q rounds n.
  - intros K. unfold bcrypt_hash, Sample.bcrypt. now rewrite K.
  - unfold bcrypt_compare, bcrypt_hash, bcrypt_genSalt, Sample.bcrypt.
    set (salt := "$2a$12$....................." +:+ _).
    assert (String.length salt = 29) as Hl by reflexivity.
    rewrite append_length, bcryptKey_length, Hl.
    change (negb (29 + 72 =? 101)) with false. cbv iota.
    assert (Js.startsWith "$2" (salt +:+ bcryptKey q) = true) as ->
      by reflexivity.
    rewrite <- Hl. now rewrite take_append.
Qed.

Lemma Sample_parseToken n s :
  Sample.parseToken (Js.replicate n "I" +:+ "." +:+ s) = Some (n, s).
Proof.
  induction n as [|n IH]; [done|].
  change (Js.replicate (S n) "I" +:+ "." +:+ s)
    with (String "I" (Js.replicate n "I" +:+ "." +:+ s)).
  simpl. now rewrite IH.
Qed.

Lemma Sample_jwt_spec : @JsonWebTokenSpec Sample.jwt.
Proof.
  constructor. intros payload s1 s2 expiresIn t t' Hne.
  unfold jwt_verify, jwt_sign, Sample.jwt. rewrite Sample_parseToken.
  rewrite bool_decide_eq_false_2 by done. eauto.
Qed.

Lemma Sample_registered_ok : WorldOk Sample.registered.
Proof.
  apply (@createUser_WorldOk Sample.stringPrototype Sample.messages
           Sample.config Sample.bcrypt Sample.jwt
           Sample.alice Sample.emptyWorld Sample.aliceSession).
  - apply WorldOk_empty.
  - vm_compute. reflexivity.
Qed.

Lemma Sample_bcrypt_nonempty : @BcryptNonEmpty Sample.bcrypt.
Proof. constructor. intros s rounds n. reflexivity. Qed.

Lemma Sample_jwt_round : @JsonWebTokenRound Sample.config Sample.jwt.
Proof.
  constructor. intros payload secret t _.
  unfold jwt_verify, jwt_sign, Sample.jwt. rewrite Sample_parseToken.
  rewrite bool_decide_eq_true_2 by done. eauto.
Qed.

Lemma Sample_setters : @SettersIdempotent Sample.stringPrototype.
Proof. constructor. intros s. apply asciiCastEmail_idempotent. Qed.

(** ** The claims at work on the sample *)

#[local] Existing Instance Sample.stringPrototype.
#[local] Existing Instance Sample.messages.
#[local] Existing Instance Sample.config.
#[local] Existing Instance Sample.bcrypt.
#[local] Existing Instance Sample.jwt.
#[local] Existing Instance Sample.joi.
#[local] Existing Instance Sample_bcrypt_spec.
#[local] Existing Instance Sample_jwt_spec.

(** [alice] registers and logs in: the registration answers without her
    hash, the login with it. *)
Lemma C1_witness :
  (register Sample.alice Sample.emptyWorld
     = (mkResponse 201 (Success (DataSession Sample.aliceSession)),
        Sample.registered) /\
   user Sample.aliceSession !! "password" = None /\
   user Sample.aliceSession !! "refreshTokens" = None) /\
  login "a@x.com" "pw123456" Sample.registered
    = (mkResponse 200 (Success (DataSession Sample.loginSession)),
       Sample.loggedIn) /\
  exists u,
    find (byEmail "a@x.com") (users Sample.registered) = Some u /\
    user Sample.loginSession !! "password" = Some (JStr (password u)) /\
    user Sample.loginSession !! "refreshTokens" =
      Some (JArr (refreshTokenObject <$>
                    (refreshTokens u ++
                       [mkRefreshToken
                          (refreshToken (tokens Sample.loginSession))
                          (now Sample.registered)]))).
Proof.
  split.
  - apply (proj1 C1_register_sanitized_login_not
             Sample.alice Sample.emptyWorld Sample.aliceSession
             Sample.registered).
    vm_compute. reflexivity.
  - apply (proj2 C1_register_sanitized_login_not
             "a@x.com" "pw123456" Sample.registered Sample.loginSession
             Sample.loggedIn).
    vm_compute. reflexivity.
Defined.

(** [carol]'s long password and [alice]'s new one. *)
Lemma C2_witness :
  (let salt := bcrypt_genSalt bcrypt_saltRounds (entropy Sample.emptyWorld) in
   exists u,
     users Sample.carolWorld = users Sample.emptyWorld ++ [u] /\
     comparePassword (hydrate u) Sample.long2
     = Ok (bool_decide
             (bcrypt_hash Sample.long2 salt
              = bcrypt_hash (UserData.password Sample.carol) salt)) /\
     (bcryptKey Sample.long2 = bcryptKey (UserData.password Sample.carol) ->
      comparePassword (hydrate u) Sample.long2 = Ok true))
  /\
  (let salt := bcrypt_genSalt bcrypt_saltRounds (entropy Sample.registered) in
   exists u,
     find (byId 0) (users Sample.changed) = Some u /\
     comparePassword (hydrate u) "pw123456"
     = Ok (bool_decide
             (bcrypt_hash "pw123456" salt
              = bcrypt_hash "newpw12345678" salt)) /\
     (bcryptKey "pw123456" = bcryptKey "newpw12345678" ->
      comparePassword (hydrate u) "pw123456" = Ok true)).
Proof.
  split.
  - apply (proj1 C2_comparePassword_same_key
             Sample.carol Sample.emptyWorld Sample.carolSession
             Sample.carolWorld Sample.long2).
    + apply WorldOk_empty.
    + vm_compute. reflexivity.
  - apply (proj2 C2_comparePassword_same_key
             0 "pw123456" "newpw12345678" Sample.registered
             "Password changed successfully" Sample.changed
             Sample.aliceStored "pw123456").
    + vm_compute. reflexivity.
    + vm_compute. reflexivity.
    + vm_compute. discriminate.
Defined.

(** C2, as stated, fails.  [carol]'s password has 128 characters; another
    string of 128 characters, different in the last one, is accepted for
    her account.  [alice]'s password has 8; the string made of it, a NUL
    and it again is accepted for hers. *)
Lemma C2_counterexample :
  (createUser Sample.carol Sample.emptyWorld
     = (Ok Sample.carolSession, Sample.carolWorld) /\
   users Sample.carolWorld = [Sample.carolStored] /\
   String.length (UserData.password Sample.carol) = 128 /\
   String.length Sample.long2 = 128 /\
   Sample.long2 <> UserData.password Sample.carol /\
   comparePassword (hydrate Sample.carolStored) Sample.long2 = Ok true)
  /\
  (createUser Sample.alice Sample.emptyWorld
     = (Ok Sample.aliceSession, Sample.registered) /\
   users Sample.registered = [Sample.aliceStored] /\
   UserData.password Sample.alice = "pw123456" /\
   "pw123456" +:+ String "000" "pw123456" <> "pw123456" /\
   comparePassword (hydrate Sample.aliceStored)
     ("pw123456" +:+ String "000" "pw123456") = Ok true).
Proof.
  split.
  - split; [vm_compute; reflexivity|]. split; [vm_compute; reflexivity|].
    split; [vm_compute; reflexivity|]. split; [vm_compute; reflexivity|].
    split; [|vm_compute; reflexivity].
    intros E. apply (f_equal (String.eqb Sample.long2)) in E.
    vm_compute in E. discriminate.
  - split; [vm_compute; reflexivity|]. split; [vm_compute; reflexivity|].
    split; [vm_compute; reflexivity|]. split; [|vm_compute; reflexivity].
    vm_compute. discriminate.
Qed.

(** [alice]'s login and her registration each record one token. *)
Lemma C3_witness :
  (exists u u',
      find (byEmail "a@x.com") (users Sample.registered) = Some u /\
      find (byId (_id u)) (users Sample.loggedIn) = Some u' /\
      refreshTokens u' =
        refreshTokens u ++
          [mkRefreshToken (refreshToken (tokens Sample.loginSession))
                          (now Sample.registered)] /\
      length (refreshTokens u') = S (length (refreshTokens u)))
  /\
  (exists u',
      users Sample.registered = users Sample.emptyWorld ++ [u'] /\
      _id u' = nextId Sample.emptyWorld /\
      refreshTokens u' =
        [mkRefreshToken (refreshToken (tokens Sample.aliceSession))
                        (now Sample.emptyWorld)]).
Proof.
  split.
  - apply (proj1 C3_refresh_token_recorded
             "a@x.com" "pw123456" Sample.registered Sample.loginSession
             Sample.loggedIn).
    + apply Sample_registered_ok.
    + vm_compute. reflexivity.
  - apply (proj2 C3_refresh_token_recorded
             Sample.alice Sample.emptyWorld Sample.aliceSession
             Sample.registered).
    + apply WorldOk_empty.
    + vm_compute. reflexivity.
Defined.

(** Nobody's e-mail and [alice]'s with a wrong password. *)
Lemma C4_witness :
  loginUser "nobody@x.com" "whatever1" Sample.registered
    = (Throw (newAppError "Invalid email or password" 401), Sample.registered) /\
  loginUser "a@x.com" "wrongpw12" Sample.registered
    = (Throw (newAppError "Invalid email or password" 401), Sample.registered) /\
  (login "nobody@x.com" "whatever1" Sample.registered).1
    = mkResponse 401 (Failure "Invalid email or password" None) /\
  (login "a@x.com" "wrongpw12" Sample.registered).1
    = (login "nobody@x.com" "whatever1" Sample.registered).1.
Proof.
  apply (C4_login_same_rejection
           "nobody@x.com" "whatever1" Sample.registered
           "a@x.com" "wrongpw12" Sample.registered Sample.aliceStored).
  - vm_compute. reflexivity.
  - vm_compute. reflexivity.
  - vm_compute. reflexivity.
Defined.

(** [alice]'s e-mail is registered again, with everything else changed. *)
Lemma C5_witness :
  (createUser Sample.aliceAgain Sample.registered
     = (Throw (newAppError "Email already registered" 409), Sample.registered) /\
   register Sample.aliceAgain Sample.registered
     = (mkResponse 409 (Failure "Email already registered" None),
        Sample.registered))
  /\
  register Sample.aliceAgain Sample.registered
    = (mkResponse 409 (Failure "Email already registered" None),
       Sample.registered)
  /\
  (exists w',
      persistUser Sample.aliceAgain Sample.registered
        = (Throw (MongoServerError 11000%Z ["email"]), w') /\
      users w' = users Sample.registered /\
      (respond (s ← persistUser Sample.aliceAgain;
                mret (mkResponse 201 (Success (DataSession s))))
         Sample.registered).1
        = mkResponse 409 (Failure "email already exists" None)).
Proof.
  split; [|split].
  - apply (proj1 C5_duplicate_email_conflict
             Sample.aliceAgain Sample.registered Sample.aliceStored).
    vm_compute. reflexivity.
  - apply (proj1 (proj2 C5_duplicate_email_conflict)
             Sample.alice Sample.aliceAgain Sample.emptyWorld
             Sample.aliceSession Sample.registered).
    + vm_compute. reflexivity.
    + reflexivity.
  - apply (proj2 (proj2 C5_duplicate_email_conflict)
             Sample.aliceAgain Sample.registered Sample.aliceAgainDoc
             Sample.aliceAgainWorld Sample.aliceStored).
    + vm_compute. reflexivity.
    + vm_compute. reflexivity.
    + apply (find_elem_of (byId 0)). vm_compute. reflexivity.
    + vm_compute. reflexivity.
Defined.

(** [alice] deactivated logs in, with her password and with another. *)
Lemma C6_witness :
  (loginUser "a@x.com" "pw123456" Sample.deactivated
     = (Throw (newAppError "Account is deactivated" 403), Sample.deactivated) /\
   (login "a@x.com" "pw123456" Sample.deactivated).1
     = mkResponse 403 (Failure "Account is deactivated" None))
  /\
  (loginUser "a@x.com" "wrongpw12" Sample.deactivated
     = (Throw (newAppError "Invalid email or password" 401), Sample.deactivated) /\
   (login "a@x.com" "wrongpw12" Sample.deactivated).1
     = mkResponse 401 (Failure "Invalid email or password" None)).
Proof.
  split.
  - pose proof (C6_deactivated_after_password
                  "a@x.com" "pw123456" Sample.deactivated
                  Sample.aliceDeactivated) as T.
    specialize (T ltac:(vm_compute; reflexivity)
                  ltac:(vm_compute; reflexivity)).
    apply (proj1 T). vm_compute. reflexivity.
  - pose proof (C6_deactivated_after_password
                  "a@x.com" "wrongpw12" Sample.deactivated
                  Sample.aliceDeactivated) as T.
    specialize (T ltac:(vm_compute; reflexivity)
                  ltac:(vm_compute; reflexivity)).
    apply (proj2 T). vm_compute. reflexivity.
Defined.


(** [alice]'s access token before and after her account was deactivated. *)
Lemma C8_witness :
  ((verifyToken Sample.aliceToken Sample.registered).1
     = (verifyToken Sample.aliceToken Sample.deactivated).1 /\
   (verifyToken Sample.aliceToken Sample.registered).2 = Sample.registered)
  /\
  (verifyToken Sample.aliceToken Sample.deactivated).1
    = (verifyToken Sample.aliceToken Sample.registered).1.
Proof.
  split.
  - apply (proj1 C8_verify_ignores_store
             Sample.aliceToken Sample.registered Sample.deactivated).
    vm_compute. reflexivity.
  - apply (proj2 (proj2 C8_verify_ignores_store)
             Sample.aliceToken 0 Sample.registered Sample.aliceDeactivated
             Sample.deactivated).
    vm_compute. reflexivity.
Defined.

(** [alice] registers, changes her password, logs in. *)
Lemma C9_witness :
  hashCalls Sample.registered = S (hashCalls Sample.emptyWorld)
  /\
  (exists u,
      find (byId 0) (users Sample.registered) = Some u /\
      ("newpw12345678" <> password u ->
       hashCalls Sample.changed = S (hashCalls Sample.registered)) /\
      ("newpw12345678" = password u -> Sample.changed = Sample.registered))
  /\
  (hashCalls Sample.loggedIn = hashCalls Sample.registered /\
   password <$> users Sample.loggedIn = password <$> users Sample.registered).
Proof.
  split; [|split].
  - apply (proj1 C9_one_hash_per_change
             Sample.alice Sample.emptyWorld Sample.aliceSession
             Sample.registered).
    vm_compute. reflexivity.
  - apply (proj1 (proj2 C9_one_hash_per_change)
             0 "pw123456" "newpw12345678" Sample.registered
             "Password changed successfully" Sample.changed).
    vm_compute. reflexivity.
  - apply (proj2 (proj2 C9_one_hash_per_change)
             "a@x.com" "pw123456" Sample.registered Sample.loginSession
             Sample.loggedIn).
    vm_compute. reflexivity.
Defined.

(** The change that takes no hash.  [alice] changes her password to the very
    string stored as her hash: [changePassword] succeeds, [bcrypt.hash] was
    not called and nothing was written; that string is not accepted
    afterwards, and the old password still is. *)
Lemma C9_failing_input :
  exists w',
    changePassword 0 "pw123456" (password Sample.aliceStored) Sample.registered
      = (Ok "Password changed successfully", w') /\
    hashCalls w' <> S (hashCalls Sample.registered) /\
    w' = Sample.registered /\
    comparePassword (hydrate Sample.aliceStored) (password Sample.aliceStored)
      = Ok false /\
    comparePassword (hydrate Sample.aliceStored) "pw123456" = Ok true.
Proof.
  exists Sample.registered. split; [vm_compute; reflexivity|].
  split; [vm_compute; discriminate|]. split; [done|].
  split; vm_compute; reflexivity.
Qed.

(** [alice], a student, makes herself an administrator. *)
Lemma C10_witness :
  value (joiValidate "updateProfile" updateProfileKeys
           {["role" := JStr "admin"]}) = ∅ /\
  exists us,
    putProfile (mkRequest (Some ("Bearer " +:+ Sample.aliceToken))
                          {["role" := JStr "admin"]} None)
               Sample.registered
      = (mkResponse 200
           (Success (DataUser (toJSON (set_role "admin" Sample.aliceStored)))),
         with_users us Sample.registered) /\
    find (byId (Claims.id (Claims.claims Sample.aliceClaims))) us
      = Some (set_role "admin" Sample.aliceStored).
Proof.
  apply (C10_profile_update_sets_role
           Sample.aliceToken Sample.registered Sample.aliceClaims
           Sample.aliceStored).
  - vm_compute. reflexivity.
  - vm_compute. reflexivity.
Defined.

(** ** The scenarios of the service, run on the sample *)

(** Register, then log in twice: one more refresh token each time. *)
Example scenario_logins_append :
  let w1 := Sample.registered in
  let w2 := (loginUser "a@x.com" "pw123456" w1).2 in
  let w3 := (loginUser "a@x.com" "pw123456" w2).2 in
  (length ∘ refreshTokens) <$> users w1 = [1] /\
  (length ∘ refreshTokens) <$> users w2 = [2] /\
  (length ∘ refreshTokens) <$> users w3 = [3].
Proof. vm_compute. done. Qed.

(** A wrong password at login, then as current password of a change. *)
Example scenario_wrong_password :
  (login "a@x.com" "wrongpw" Sample.registered).1
    = mkResponse 401 (Failure "Invalid email or password" None) /\
  changePassword 0 "wrongpw" "newpw12345678" Sample.registered
    = (Throw (newAppError "Current password is incorrect" 401),
       Sample.registered).
Proof. split; vm_compute; reflexivity. Qed.

(** The same new password twice: both changes succeed, each takes a hash,
    and the new password is accepted afterwards. *)
Example scenario_change_twice :
  let w1 := Sample.changed in
  let r2 := changePassword 0 "newpw12345678" "newpw12345678" w1 in
  r2.1 = Ok "Password changed successfully" /\
  hashCalls r2.2 = 3 /\
  (fun u => comparePassword (hydrate u) "newpw12345678") <$> users r2.2
    = [Ok true] /\
  (fun u => comparePassword (hydrate u) "pw123456") <$> users r2.2
    = [Ok false].
Proof. vm_compute. done. Qed.

(** A profile update whose body names [password] and [isActive]: the string
    is stored as it came, unhashed, and the account is deactivated. *)
Example scenario_profile_credentials :
  let req := mkRequest (Some ("Bearer " +:+ Sample.aliceToken))
               (<["password" := JStr "plaintext123"]>
                  {["isActive" := JBool false]}) None in
  let r := putProfile req Sample.registered in
  status r.1 = 200 /\
  password <$> users r.2 = ["plaintext123"] /\
  isActive <$> users r.2 = [false].
Proof. vm_compute. done. Qed.

(** Without a lifetime for the refresh token [jwt.sign] throws, after the
    registration inserted the user and after the login wrote its time. *)
Example scenario_sign_throws :
  let create := @createUser Sample.stringPrototype Sample.messages
                  Cases.noLifetime Sample.bcrypt Sample.jwt in
  let login := @loginUser Sample.stringPrototype Sample.messages
                 Cases.noLifetime Sample.bcrypt Sample.jwt in
  (create Sample.alice Sample.emptyWorld).1 = Throw (JsError "Error") /\
  email <$> users (create Sample.alice Sample.emptyWorld).2 = ["a@x.com"] /\
  (login "a@x.com" "pw123456" Sample.registered).1
    = Throw (JsError "Error") /\
  lastLogin <$> users Sample.registered = [None] /\
  lastLogin <$> users (login "a@x.com" "pw123456" Sample.registered).2
    = [Some 1000%Z].
Proof. vm_compute. done. Qed.

(** ** The further properties at work on the sample *)

(** [alice]'s login writes to her record alone. *)
Lemma loginUser_frame_witness :
  exists u,
    find (byEmail "a@x.com") (users Sample.registered) = Some u /\
    users Sample.loggedIn =
      (fun v => if byId (_id u) v
                then set_refreshTokens
                       (refreshTokens v ++
                          [mkRefreshToken
                             (refreshToken (tokens Sample.loginSession))
                             (now Sample.registered)])
                       (set_lastLogin (Some (now Sample.registered)) v)
                else v) <$> users Sample.registered /\
    now Sample.loggedIn = now Sample.registered /\
    nextId Sample.loggedIn = nextId Sample.registered /\
    entropy Sample.loggedIn = entropy Sample.registered /\
    hashCalls Sample.loggedIn = hashCalls Sample.registered.
Proof.
  apply (loginUser_frame "a@x.com" "pw123456" Sample.registered
           Sample.loginSession Sample.loggedIn).
  - apply Sample_registered_ok.
  - vm_compute. reflexivity.
Defined.


(** [alice]'s password change with a wrong current password. *)
Lemma changePassword_failure_witness :
  (changePassword 0 "wrongpw12" "newpw12345678" Sample.registered).2
    = Sample.registered /\
  (find (byId 0) (users Sample.registered) = None /\
   newAppError "Current password is incorrect" 401
     = newAppError "User not found" 404
   \/
   (exists u, find (byId 0) (users Sample.registered) = Some u /\
              comparePassword (hydrate u) "wrongpw12"
              = Throw (newAppError "Current password is incorrect" 401))
   \/
   (exists u, find (byId 0) (users Sample.registered) = Some u /\
              comparePassword (hydrate u) "wrongpw12" = Ok false) /\
   newAppError "Current password is incorrect" 401
     = newAppError "Current password is incorrect" 401
   \/
   (exists u, find (byId 0) (users Sample.registered) = Some u /\
              comparePassword (hydrate u) "wrongpw12" = Ok true) /\
   exists msgs,
     newAppError "Current password is incorrect" 401 = ValidationError msgs).
Proof.
  apply (changePassword_failure 0 "wrongpw12" "newpw12345678"
           Sample.registered).
  vm_compute. reflexivity.
Defined.

(** [alice] asks for a password of five characters. *)
Lemma changePassword_too_short_witness :
  exists msgs,
    changePassword 0 "pw123456" "short" Sample.registered
      = (Throw (ValidationError msgs), Sample.registered) /\
    (Js.truthy "short" = true ->
     message_minlength "password" "short" 8 ∈ msgs).
Proof.
  apply (changePassword_too_short 0 "pw123456" "short" Sample.registered
           Sample.aliceStored).
  - vm_compute. reflexivity.
  - vm_compute. reflexivity.
  - vm_compute. lia.
  - intros E. apply (f_equal String.length) in E. vm_compute in E.
    discriminate.
Defined.


(** What [alice]'s registration stored. *)
Lemma createUser_stores_witness :
  exists u,
    users Sample.registered = users Sample.emptyWorld ++ [u] /\
    email u = "a@x.com" /\
    password u = bcrypt_hash "pw123456" (bcrypt_genSalt 12 0) /\
    firstName u = "A" /\ lastName u = "B" /\ username u = None /\
    role u = "student" /\
    last (refreshTokens u)
    = Some (mkRefreshToken (refreshToken (tokens Sample.aliceSession)) 1000).
Proof.
  destruct (createUser_stores Sample.alice Sample.emptyWorld
              Sample.aliceSession Sample.registered) as (Hu & _).
  - apply WorldOk_empty.
  - vm_compute. reflexivity.
  - exact Hu.
Defined.

(** [alice] logs in with her e-mail in capitals and between blanks. *)
Lemma register_then_login_witness :
  exists s' w2,
    loginUser " A@X.com " "pw123456" Sample.registered = (Ok s', w2) /\
    user s' !! "_id" = user Sample.aliceSession !! "_id" /\
    user s' !! "email"
    = Some (JStr (castEmail (UserData.email Sample.alice))) /\
    user s' !! "lastLogin" = Some (JNum (now Sample.registered)).
Proof.
  pose proof Sample_bcrypt_nonempty as Hhash.
  apply (register_then_login Sample.alice Sample.emptyWorld
           Sample.aliceSession Sample.registered " A@X.com " "pw123456").
  - apply WorldOk_empty.
  - vm_compute. reflexivity.
  - vm_compute. reflexivity.
  - vm_compute. reflexivity.
  - reflexivity.
Defined.

(** [hasty]'s registration. *)
Lemma createUser_short_password_witness :
  exists msgs w',
    createUser Cases.hasty Sample.emptyWorld
      = (Throw (ValidationError msgs), w') /\
    (Js.truthy (UserData.password Cases.hasty) = true ->
     message_minlength "password" (UserData.password Cases.hasty) 8 ∈ msgs) /\
    users w' = users Sample.emptyWorld /\
    hashCalls w' = hashCalls Sample.emptyWorld /\
    status (register Cases.hasty Sample.emptyWorld).1 = 400 /\
    (register Cases.hasty Sample.emptyWorld).2 = w'.
Proof.
  apply (createUser_short_password Cases.hasty Sample.emptyWorld).
  - vm_compute. reflexivity.
  - vm_compute. lia.
Defined.

(** A registration with [bee]'s user name. *)
Lemma createUser_username_taken_witness :
  createUser Cases.beeAgain Cases.two
    = (Throw (newAppError "Username already taken" 409), Cases.two) /\
  register Cases.beeAgain Cases.two
    = (mkResponse 409 (Failure "Username already taken" None), Cases.two).
Proof.
  apply (createUser_username_taken Cases.beeAgain Cases.two " BEE "
           Cases.beeStored).
  - vm_compute. reflexivity.
  - reflexivity.
  - reflexivity.
  - vm_compute. left.
  - vm_compute. reflexivity.
Defined.

(** The soft delete in the world where [alice] registered. *)
Lemma deleteUser_soft_witness :
  (find (byId 0) (users Sample.registered) = None ->
   deleteUser 0 Sample.registered
     = (Throw (newAppError "User not found" 404), Sample.registered))
  /\
  (forall u,
      find (byId 0) (users Sample.registered) = Some u ->
      exists w',
        deleteUser 0 Sample.registered = (Ok (set_isActive false u), w') /\
        users w' =
          (fun v => if byId 0 v then set_isActive false v else v)
            <$> users Sample.registered /\
        forall e p v,
          find (byEmail e) (users w') = Some v ->
          _id v = 0 ->
          comparePassword (hydrate v) p = Ok true ->
          loginUser e p w'
            = (Throw (newAppError "Account is deactivated" 403), w')).
Proof.
  apply (deleteUser_soft 0 Sample.registered).
  apply Sample_registered_ok.
Defined.

(** [alice] deletes her account. *)
Lemma deleteAccount_then_login_witness :
  exists w',
    deleteAccountRoute
      (mkRequest (Some ("Bearer " +:+ Sample.aliceToken)) ∅ None)
      Sample.registered
      = (mkResponse 200 (SuccessMessage "Account deactivated successfully"),
         w') /\
    length (users w') = length (users Sample.registered) /\
    forall e p v,
      find (byEmail e) (users w') = Some v ->
      _id v = Claims.id (Claims.claims Sample.aliceClaims) ->
      comparePassword (hydrate v) p = Ok true ->
      login e p w'
        = (mkResponse 403 (Failure "Account is deactivated" None), w').
Proof.
  apply (deleteAccount_then_login Sample.aliceToken Sample.registered
           Sample.aliceClaims Sample.aliceStored ∅).
  - apply Sample_registered_ok.
  - vm_compute. reflexivity.
  - vm_compute. reflexivity.
Defined.

(** [alice] changes her first name. *)
Lemma updateUser_frame_witness :
  exists u f,
    find (byId 0) (users Sample.registered) = Some u /\
    Cases.renamedUser = f u /\
    users Cases.renamed
      = (fun v => if byId 0 v then f v else v) <$> users Sample.registered /\
    _id Cases.renamedUser = _id u /\
    (Cases.newName !! "email" = None -> email Cases.renamedUser = email u) /\
    (Cases.newName !! "password" = None ->
     password Cases.renamedUser = password u) /\
    (Cases.newName !! "role" = None -> role Cases.renamedUser = role u) /\
    (Cases.newName !! "isActive" = None ->
     isActive Cases.renamedUser = isActive u) /\
    (Cases.newName !! "lastLogin" = None ->
     lastLogin Cases.renamedUser = lastLogin u) /\
    (Cases.newName !! "refreshTokens" = None ->
     refreshTokens Cases.renamedUser = refreshTokens u).
Proof.
  apply (updateUser_frame 0 Cases.newName Sample.registered
           Cases.renamedUser Cases.renamed).
  - apply Sample_registered_ok.
  - intros k [v Hk]. unfold Cases.newName in Hk.
    apply lookup_singleton_Some in Hk as [<- _]. reflexivity.
  - vm_compute. reflexivity.
Defined.

(** An update of a user that does not exist. *)
Lemma updateUser_failure_witness :
  (updateUser 7 Cases.newName Sample.registered).2 = Sample.registered.
Proof.
  apply (updateUser_failure 7 Cases.newName Sample.registered
           (newAppError "User not found" 404)).
  vm_compute. reflexivity.
Defined.

(** [alice] asks for [bee]'s user name. *)
Lemma updateUser_username_taken_witness :
  updateUser 1 {["username" := JStr " BEE "]} Cases.two
    = (Throw (newAppError "Username already taken" 409), Cases.two).
Proof.
  apply (updateUser_username_taken 1 {["username" := JStr " BEE "]} " BEE "
           Cases.beeStored Cases.two).
  - vm_compute. reflexivity.
  - reflexivity.
  - vm_compute. left.
  - vm_compute. reflexivity.
  - vm_compute. lia.
Defined.

(** The answer to [alice]'s request for her profile. *)
Lemma user_responses_sanitized_witness :
  exists o,
    DataUser (toJSON Sample.aliceStored) = DataUser o /\
    o !! "password" = None /\
    o !! "refreshTokens" = None /\
    o !! "emailVerificationToken" = None /\
    o !! "passwordResetToken" = None.
Proof.
  apply (user_responses_sanitized Cases.profileRequest 0 Sample.registered
           Cases.profileResponse (DataUser (toJSON Sample.aliceStored))).
  - left. reflexivity.
  - vm_compute. reflexivity.
Defined.

(** A request with a token that does not parse. *)
Lemma unauthenticated_refused_witness :
  exists m,
    (m = "No token provided" \/ m = "Invalid or expired token") /\
    getProfileRoute Cases.forged Sample.registered
      = (mkResponse 401 (Failure m None), Sample.registered) /\
    putProfile Cases.forged Sample.registered
      = (mkResponse 401 (Failure m None), Sample.registered) /\
    deleteAccountRoute Cases.forged Sample.registered
      = (mkResponse 401 (Failure m None), Sample.registered).
Proof.
  apply (unauthenticated_refused Cases.forged Sample.registered).
  intros token E. injection E as E.
  change ("" +:+ token) with token in E. subst token.
  vm_compute. eauto.
Defined.

(** [alice] sends a number as her first name. *)
Lemma putProfile_invalid_witness :
  putProfile
    (mkRequest (Some ("Bearer " +:+ Sample.aliceToken)) Cases.badName None)
    Sample.registered
  = (mkResponse 400
       (Failure "Validation failed"
          (Some [("firstName", "must be a string")])),
     Sample.registered).
Proof.
  apply (putProfile_invalid Sample.aliceToken Cases.badName
           Sample.registered Sample.aliceClaims).
  - vm_compute. reflexivity.
  - vm_compute. reflexivity.
Defined.

(** [alice] registers and asks for her profile with the token she got. *)
Lemma register_then_profile_witness :
  exists u,
    last (users Sample.registered) = Some u /\
    email u = castEmail (UserData.email Sample.alice) /\
    getProfileRoute
      (mkRequest
         (Some ("Bearer " +:+ accessToken (tokens Sample.aliceSession)))
         ∅ None)
      Sample.registered
    = (mkResponse 200 (Success (DataUser (toJSON u))), Sample.registered).
Proof.
  pose proof Sample_bcrypt_nonempty as Hhash.
  pose proof Sample_jwt_round as Hround.
  apply (register_then_profile Sample.alice Sample.emptyWorld
           Sample.aliceSession Sample.registered ∅).
  - apply WorldOk_empty.
  - vm_compute. reflexivity.
Defined.

(** The session of calls, from the empty collection. *)
Lemma runCalls_unique_witness :
  WorldOk Cases.afterCalls /\ EmailsUnique Cases.afterCalls.
Proof.
  apply (runCalls_unique Cases.calls Sample.emptyWorld).
  - apply WorldOk_empty.
  - unfold EmailsUnique. simpl. constructor.
Defined.

Lemma runCalls_PasswordsHashed_witness : PasswordsHashed Cases.afterCalls.
Proof.
  apply (runCalls_PasswordsHashed Cases.calls Sample.emptyWorld).
  - vm_compute. reflexivity.
  - unfold PasswordsHashed. simpl. constructor.
Defined.

(** [alice]'s password change. *)
Lemma changePassword_replaces_witness :
  let salt := bcrypt_genSalt bcrypt_saltRounds (entropy Sample.registered) in
  let h := bcrypt_hash "newpw12345678" salt in
  users Sample.changed
    = (fun v => if byId 0 v then set_password h v else v)
      <$> users Sample.registered /\
  (forall p, comparePassword (hydrate (set_password h Sample.aliceStored)) p
             = Ok (bool_decide (bcrypt_hash p salt = h))) /\
  (forall p, bcryptKey p = bcryptKey "newpw12345678" ->
             comparePassword (hydrate (set_password h Sample.aliceStored)) p
             = Ok true) /\
  (forall e p,
      find (byEmail e) (users Sample.registered) = Some Sample.aliceStored ->
      bcrypt_hash p salt <> h ->
      loginUser e p Sample.changed
      = (Throw (newAppError "Invalid email or password" 401), Sample.changed)).
Proof.
  apply (changePassword_replaces 0 "pw123456" "newpw12345678"
           Sample.registered "Password changed successfully" Sample.changed
           Sample.aliceStored).
  - apply Sample_registered_ok.
  - vm_compute. reflexivity.
  - intros E. apply (f_equal String.length) in E. vm_compute in E.
    discriminate.
  - vm_compute. reflexivity.
Defined.

(** [alice]'s password sent through [updateUser]. *)
Lemma updateUser_password_unhashed_witness :
  exists w',
    updateUser 0 {["password" := JStr "plaintext123"]} Sample.registered
    = (Ok (set_password "plaintext123" Sample.aliceStored), w') /\
    users w'
    = (fun v => if byId 0 v then set_password "plaintext123" v else v)
      <$> users Sample.registered /\
    find (byId 0) (users w')
    = Some (set_password "plaintext123" Sample.aliceStored) /\
    hashCalls w' = hashCalls Sample.registered /\
    entropy w' = entropy Sample.registered.
Proof.
  apply (updateUser_password_unhashed 0 "plaintext123" Sample.registered
           Sample.aliceStored).
  - apply Sample_registered_ok.
  - vm_compute. reflexivity.
  - vm_compute. lia.
Defined.

(** The user stored last in the session of calls. *)
Lemma runCalls_found_by_email_witness :
  find (byEmail (email Cases.lastStored)) (users Cases.afterCalls)
    = Some Cases.lastStored.
Proof.
  pose proof Sample_setters as Hset.
  apply (runCalls_found_by_email Cases.calls Sample.emptyWorld
           Cases.lastStored).
  - apply WorldOk_empty.
  - unfold EmailsUnique. simpl. constructor.
  - unfold EmailsCast. simpl. constructor.
  - vm_compute. right. left.
Defined.
